(** * Claude Agent SDK runner: stream translator and session worker

    A shallow embedding of
    - [ag_ui_claude_sdk/utils.py], [handlers.py], [adapter.py]
      (the translator from vendor messages to AG-UI protocol events), and
    - [ambient_runner/bridges/claude/session.py]
      (the worker that owns the vendor client and feeds the translator),
    followed by the properties of the specification that concern them.

    Python objects are modelled by their shape: dictionaries by [gmap],
    sets by [gset], attribute-or-[None] by [option], generators by the
    list of events they yield, and an exception raised by an iterator by
    the way the stream ends. *)

From Stdlib Require Import ZArith Ascii String List Bool Lia.
From stdpp Require Import gmap strings list fin_maps.
Import ListNotations.

#[local] Set Warnings "-register-all".
#[local] Open Scope string_scope.
#[local] Open Scope list_scope.

(** ** Python values *)

(** A JSON-like Python value ([None], [bool], [int], [str], [list],
    [dict]).  Numbers are integers: the code only passes numbers through. *)
Inductive JSON : Type :=
  | JNull
  | JBool (b : bool)
  | JNum (z : Z)
  | JStr (s : string)
  | JArr (l : list JSON)
  | JObj (m : gmap string JSON).

(** Python truth value of a string, of an optional string and of a JSON
    value ([if x:]). *)
Definition truthy_str (s : string) : bool := negb (String.eqb s "").

Definition truthy_ostr (o : option string) : bool :=
  match o with
  | Some s => truthy_str s
  | None => false
  end.

Definition map_is_empty {A} (m : gmap string A) : bool :=
  match map_to_list m with
  | [] => true
  | _ :: _ => false
  end.

Definition truthy (v : JSON) : bool :=
  match v with
  | JNull => false
  | JBool b => b
  | JNum z => negb (Z.eqb z 0)
  | JStr s => truthy_str s
  | JArr l => match l with [] => false | _ :: _ => true end
  | JObj m => negb (map_is_empty m)
  end.

(** [a or b] on optional strings. *)
Definition or_ostr (a : option string) (b : string) : string :=
  match a with
  | Some s => if truthy_str s then s else b
  | None => b
  end.

(** [{**a, **b}]: every key of [b] wins, the other keys of [a] stay. *)
Definition dict_merge (a b : gmap string JSON) : gmap string JSON := b ∪ a.

(** An exception object; [str(e)] is its message. *)
Inductive PyExc : Type := Exc (msg : string).

Definition exc_str (e : PyExc) : string := let 'Exc m := e in m.

(** Sample instances of the environment (identifier supply and JSON
    codec) used to run the model on concrete streams. *)
Fixpoint sample_uuid4 (n : nat) : string :=
  match n with
  | O => "m"
  | S k => String "u"%char (sample_uuid4 k)
  end.

Definition sample_json_loads (s : string) : option JSON :=
  if String.eqb s "{count:2}" then Some (JObj {["count" := JNum 2]})
  else if String.eqb s "{state_updates:{count:2}}"
       then Some (JObj {["state_updates" := JObj {["count" := JNum 2]}]})
  else if String.eqb s "[1]" then Some (JArr [JNum 1])
  else if String.eqb s "{}" then Some (JObj ∅)
  else None.

Definition sample_json_dumps (v : JSON) : string :=
  match v with
  | JObj m => if map_is_empty m then "{}" else "{...}"
  | JArr _ => "[...]"
  | JStr s => s
  | JNum _ => "0"
  | JBool true => "true"
  | JBool false => "false"
  | JNull => "null"
  end.

(** ** config.py *)

Definition STATE_MANAGEMENT_TOOL_NAME : string := "ag_ui_update_state".
Definition STATE_MANAGEMENT_TOOL_FULL_NAME : string :=
  "mcp__ag_ui__ag_ui_update_state".

(** ** AG-UI protocol data (ag_ui.core) *)

Record AguiToolCall : Type := mkToolCall {
  tc_id : string;
  tc_type : string;
  tc_name : string;        (* function.name *)
  tc_arguments : string;   (* function.arguments *)
}.

Inductive InputContent : Type :=
  | TextInputContent (text : string)
  | BinaryInputContent.

Inductive MsgContent : Type :=
  | ContentNone
  | ContentStr (s : string)
  | ContentList (blocks : list InputContent).

Record AguiMessage : Type := mkMessage {
  msg_id : string;
  msg_role : string;
  msg_content : MsgContent;
  msg_tool_calls : option (list AguiToolCall);
  msg_tool_call_id : option string;
  msg_name : option string;
}.

Record ToolDef : Type := mkToolDef {
  tool_name : option string;
  tool_description : string;
}.

Record RunAgentInput : Type := mkInput {
  thread_id : string;
  run_id : string;
  parent_run_id : option string;
  messages : list AguiMessage;
  tools : list ToolDef;
  state : JSON;
  context : list (string * string);
  forwarded_props : JSON;
}.

(** Metadata of a [ResultMessage], kept for the run-finished event. *)
Record ResultData : Type := mkResultData {
  rd_is_error : option bool;
  rd_duration_ms : option Z;
  rd_duration_api_ms : option Z;
  rd_num_turns : option Z;
  rd_total_cost_usd : JSON;
  rd_usage : JSON;
  rd_structured_output : JSON;
}.

Inductive Event : Type :=
  | RunStartedEvent (tid rid : string) (parent : option string)
      (input : RunAgentInput)
  | RunFinishedEvent (tid rid : string) (result : option ResultData)
  | RunErrorEvent (tid rid : string) (message : string)
  | TextMessageStartEvent (tid rid : string) (message_id : string)
      (role : string)
  | TextMessageContentEvent (tid rid : string) (message_id : string)
      (delta : string)
  | TextMessageEndEvent (tid rid : string) (message_id : string)
  | ToolCallStartEvent (tid rid : string) (tool_call_id : string)
      (tool_call_name : string) (parent_message_id : option string)
  | ToolCallArgsEvent (tid rid : string) (tool_call_id : string)
      (delta : string)
  | ToolCallEndEvent (tid rid : string) (tool_call_id : string)
  | ToolCallResultEvent (tid rid : string) (message_id : string)
      (tool_call_id : string) (content : string)
  | StateSnapshotEvent (snapshot : JSON)
  | MessagesSnapshotEvent (msgs : list AguiMessage)
  | ThinkingStartEvent
  | ThinkingTextMessageStartEvent
  | ThinkingTextMessageContentEvent (delta : string)
  | ThinkingTextMessageEndEvent
  | ThinkingEndEvent.

(** ** Vendor messages (claude_agent_sdk), decoded once *)

Inductive Delta : Type :=
  | text_delta (text : string)
  | thinking_delta (thinking : string)
  | input_json_delta (partial_json : string)
  | other_delta.

Inductive BlockStart : Type :=
  | thinking_start
  | tool_use_start (id : option string) (name : option string)
  | other_block_start.

Inductive StreamEventData : Type :=
  | message_start
  | content_block_delta (d : Delta)
  | content_block_start (b : BlockStart)
  | content_block_stop
  | message_stop
  | message_delta (stop_reason : option string)
  | other_event.

Inductive ContentBlock : Type :=
  | TextBlock (text : string)
  | ThinkingBlock (thinking signature : string)
  | ToolUseBlock (id : option string) (name : option string)
      (input : gmap string JSON)
  | ToolResultBlock (tool_use_id : option string) (content : JSON)
      (is_error : option bool)
  | OtherBlock.

Inductive SDKMessage : Type :=
  | StreamEvent (event : StreamEventData)
  | AssistantMessage (content : list ContentBlock)
      (parent_tool_use_id : option string)
  | UserMessage (content : list ContentBlock)
      (parent_tool_use_id : option string)
  | SystemMessage (subtype : string) (data : gmap string string)
  | ResultMessage (result : option string) (meta : ResultData)
  | OtherMessage.

(** How an iteration over the vendor stream ends: the iterator is
    exhausted, or fetching the next item raises. *)
Inductive StreamEnd : Type :=
  | Exhausted
  | Raises (e : PyExc).

(** ** utils.py *)

(** [names = [t.name for t in tools if t.name]]. *)
Fixpoint extract_tool_names (l : list ToolDef) : list string :=
  match l with
  | [] => []
  | t :: rest =>
      match tool_name t with
      | Some n => if truthy_str n then n :: extract_tool_names rest
                  else extract_tool_names rest
      | None => extract_tool_names rest
      end
  end.

(** [s.split("__")]: leftmost, non-overlapping occurrences of the
    separator; [cur] is the piece being read. *)
Fixpoint split_dunder (cur s : string) : list string :=
  match s with
  | EmptyString => [cur]
  | String c rest =>
      match rest with
      | String c' rest' =>
          if Ascii.eqb c "_" && Ascii.eqb c' "_"
          then cur :: split_dunder "" rest'
          else split_dunder (cur +:+ String c "") rest
      | EmptyString => [cur +:+ String c ""]
      end
  end.

Definition strip_mcp_prefix (tool_name : string) : string :=
  if String.prefix "mcp__" tool_name then
    let parts := split_dunder "" tool_name in
    if Nat.leb 3 (length parts) then String.concat "__" (skipn 2 parts)
    else tool_name
  else tool_name.

(** The text taken from the content of the last message. *)
Fixpoint first_text (blocks : list InputContent) : string :=
  match blocks with
  | [] => ""
  | TextInputContent t :: _ => t
  | BinaryInputContent :: rest => first_text rest
  end.

Definition process_messages (input_data : RunAgentInput) : string * bool :=
  let msgs := messages input_data in
  let has_pending_tool_result :=
    match List.last (map Some msgs) None with
    | Some last_msg => String.eqb (msg_role last_msg) "tool"
    | None => false
    end in
  let user_message :=
    match List.last (map Some msgs) None with
    | Some last_msg =>
        match msg_content last_msg with
        | ContentStr s => s
        | ContentList blocks => first_text blocks
        | ContentNone => ""
        end
    | None => ""
    end in
  (user_message, has_pending_tool_result).

Definition _is_state_management_tool (name : string) : bool :=
  String.eqb name STATE_MANAGEMENT_TOOL_NAME
  || String.eqb name STATE_MANAGEMENT_TOOL_FULL_NAME.

Definition AguiAssistantMessage (id : string) (content : option string)
    (tool_calls : option (list AguiToolCall)) : AguiMessage :=
  mkMessage id "assistant"
    (match content with Some s => ContentStr s | None => ContentNone end)
    tool_calls None None.

Definition DeveloperMessage (id content : string) : AguiMessage :=
  mkMessage id "developer" (ContentStr content) None None None.

Definition AguiSystemMessage (id content : string) : AguiMessage :=
  mkMessage id "system" (ContentStr content) None None None.

Definition ToolMessage (id content tool_call_id : string) : AguiMessage :=
  mkMessage id "tool" (ContentStr content) None (Some tool_call_id) None.

(** ** adapter.py: the state of one run of the translator *)

(** The in-flight message [pending_msg = {"id", "content", "tool_calls"}]. *)
Record PendingMsg : Type := mkPending {
  p_id : string;
  p_content : string;
  p_tool_calls : list AguiToolCall;
}.

(** The locals of [_stream_claude_sdk], the two fields of the adapter
    object it writes ([self._current_state], [self._last_result_data])
    and the number of identifiers drawn from [uuid.uuid4] so far. *)
Record TState : Type := mkTState {
  current_message_id : option string;
  in_thinking_block : bool;
  has_streamed_text : bool;
  current_tool_call_id : option string;
  current_tool_call_name : option string;
  current_tool_display_name : option string;
  accumulated_tool_json : string;
  processed_tool_ids : gset string;
  tool_name_by_id : gmap string string;
  halt_event_stream : bool;
  run_messages : list AguiMessage;
  pending_msg : option PendingMsg;
  accumulated_thinking_text : string;
  message_count : nat;
  self_current_state : JSON;
  self_last_result_data : option ResultData;
  uuid_next : nat;
}.

Definition set_current_message_id (v : option string) (st : TState) : TState :=
  mkTState v (in_thinking_block st) (has_streamed_text st)
    (current_tool_call_id st) (current_tool_call_name st)
    (current_tool_display_name st) (accumulated_tool_json st)
    (processed_tool_ids st) (tool_name_by_id st) (halt_event_stream st)
    (run_messages st) (pending_msg st) (accumulated_thinking_text st)
    (message_count st) (self_current_state st) (self_last_result_data st)
    (uuid_next st).

Definition set_in_thinking_block (v : bool) (st : TState) : TState :=
  mkTState (current_message_id st) v (has_streamed_text st)
    (current_tool_call_id st) (current_tool_call_name st)
    (current_tool_display_name st) (accumulated_tool_json st)
    (processed_tool_ids st) (tool_name_by_id st) (halt_event_stream st)
    (run_messages st) (pending_msg st) (accumulated_thinking_text st)
    (message_count st) (self_current_state st) (self_last_result_data st)
    (uuid_next st).

Definition set_has_streamed_text (v : bool) (st : TState) : TState :=
  mkTState (current_message_id st) (in_thinking_block st) v
    (current_tool_call_id st) (current_tool_call_name st)
    (current_tool_display_name st) (accumulated_tool_json st)
    (processed_tool_ids st) (tool_name_by_id st) (halt_event_stream st)
    (run_messages st) (pending_msg st) (accumulated_thinking_text st)
    (message_count st) (self_current_state st) (self_last_result_data st)
    (uuid_next st).

Definition set_current_tool_call_id (v : option string) (st : TState) :
    TState :=
  mkTState (current_message_id st) (in_thinking_block st) (has_streamed_text
    st) v (current_tool_call_name st) (current_tool_display_name st)
    (accumulated_tool_json st) (processed_tool_ids st) (tool_name_by_id st)
    (halt_event_stream st) (run_messages st) (pending_msg st)
    (accumulated_thinking_text st) (message_count st) (self_current_state
    st) (self_last_result_data st) (uuid_next st).

Definition set_current_tool_call_name (v : option string) (st : TState) :
    TState :=
  mkTState (current_message_id st) (in_thinking_block st) (has_streamed_text
    st) (current_tool_call_id st) v (current_tool_display_name st)
    (accumulated_tool_json st) (processed_tool_ids st) (tool_name_by_id st)
    (halt_event_stream st) (run_messages st) (pending_msg st)
    (accumulated_thinking_text st) (message_count st) (self_current_state
    st) (self_last_result_data st) (uuid_next st).

Definition set_current_tool_display_name (v : option string) (st : TState) :
    TState :=
  mkTState (current_message_id st) (in_thinking_block st) (has_streamed_text
    st) (current_tool_call_id st) (current_tool_call_name st) v
    (accumulated_tool_json st) (processed_tool_ids st) (tool_name_by_id st)
    (halt_event_stream st) (run_messages st) (pending_msg st)
    (accumulated_thinking_text st) (message_count st) (self_current_state
    st) (self_last_result_data st) (uuid_next st).

Definition set_accumulated_tool_json (v : string) (st : TState) : TState :=
  mkTState (current_message_id st) (in_thinking_block st) (has_streamed_text
    st) (current_tool_call_id st) (current_tool_call_name st)
    (current_tool_display_name st) v (processed_tool_ids st)
    (tool_name_by_id st) (halt_event_stream st) (run_messages st)
    (pending_msg st) (accumulated_thinking_text st) (message_count st)
    (self_current_state st) (self_last_result_data st) (uuid_next st).

Definition set_processed_tool_ids (v : gset string) (st : TState) : TState :=
  mkTState (current_message_id st) (in_thinking_block st) (has_streamed_text
    st) (current_tool_call_id st) (current_tool_call_name st)
    (current_tool_display_name st) (accumulated_tool_json st) v
    (tool_name_by_id st) (halt_event_stream st) (run_messages st)
    (pending_msg st) (accumulated_thinking_text st) (message_count st)
    (self_current_state st) (self_last_result_data st) (uuid_next st).

Definition set_tool_name_by_id (v : gmap string string) (st : TState) :
    TState :=
  mkTState (current_message_id st) (in_thinking_block st) (has_streamed_text
    st) (current_tool_call_id st) (current_tool_call_name st)
    (current_tool_display_name st) (accumulated_tool_json st)
    (processed_tool_ids st) v (halt_event_stream st) (run_messages st)
    (pending_msg st) (accumulated_thinking_text st) (message_count st)
    (self_current_state st) (self_last_result_data st) (uuid_next st).

Definition set_halt_event_stream (v : bool) (st : TState) : TState :=
  mkTState (current_message_id st) (in_thinking_block st) (has_streamed_text
    st) (current_tool_call_id st) (current_tool_call_name st)
    (current_tool_display_name st) (accumulated_tool_json st)
    (processed_tool_ids st) (tool_name_by_id st) v (run_messages st)
    (pending_msg st) (accumulated_thinking_text st) (message_count st)
    (self_current_state st) (self_last_result_data st) (uuid_next st).

Definition set_run_messages (v : list AguiMessage) (st : TState) : TState :=
  mkTState (current_message_id st) (in_thinking_block st) (has_streamed_text
    st) (current_tool_call_id st) (current_tool_call_name st)
    (current_tool_display_name st) (accumulated_tool_json st)
    (processed_tool_ids st) (tool_name_by_id st) (halt_event_stream st) v
    (pending_msg st) (accumulated_thinking_text st) (message_count st)
    (self_current_state st) (self_last_result_data st) (uuid_next st).

Definition set_pending_msg (v : option PendingMsg) (st : TState) : TState :=
  mkTState (current_message_id st) (in_thinking_block st) (has_streamed_text
    st) (current_tool_call_id st) (current_tool_call_name st)
    (current_tool_display_name st) (accumulated_tool_json st)
    (processed_tool_ids st) (tool_name_by_id st) (halt_event_stream st)
    (run_messages st) v (accumulated_thinking_text st) (message_count st)
    (self_current_state st) (self_last_result_data st) (uuid_next st).

Definition set_accumulated_thinking_text (v : string) (st : TState) : TState :=
  mkTState (current_message_id st) (in_thinking_block st) (has_streamed_text
    st) (current_tool_call_id st) (current_tool_call_name st)
    (current_tool_display_name st) (accumulated_tool_json st)
    (processed_tool_ids st) (tool_name_by_id st) (halt_event_stream st)
    (run_messages st) (pending_msg st) v (message_count st)
    (self_current_state st) (self_last_result_data st) (uuid_next st).

Definition set_message_count (v : nat) (st : TState) : TState :=
  mkTState (current_message_id st) (in_thinking_block st) (has_streamed_text
    st) (current_tool_call_id st) (current_tool_call_name st)
    (current_tool_display_name st) (accumulated_tool_json st)
    (processed_tool_ids st) (tool_name_by_id st) (halt_event_stream st)
    (run_messages st) (pending_msg st) (accumulated_thinking_text st) v
    (self_current_state st) (self_last_result_data st) (uuid_next st).

Definition set_self_current_state (v : JSON) (st : TState) : TState :=
  mkTState (current_message_id st) (in_thinking_block st) (has_streamed_text
    st) (current_tool_call_id st) (current_tool_call_name st)
    (current_tool_display_name st) (accumulated_tool_json st)
    (processed_tool_ids st) (tool_name_by_id st) (halt_event_stream st)
    (run_messages st) (pending_msg st) (accumulated_thinking_text st)
    (message_count st) v (self_last_result_data st) (uuid_next st).

Definition set_self_last_result_data (v : option ResultData) (st : TState) :
    TState :=
  mkTState (current_message_id st) (in_thinking_block st) (has_streamed_text
    st) (current_tool_call_id st) (current_tool_call_name st)
    (current_tool_display_name st) (accumulated_tool_json st)
    (processed_tool_ids st) (tool_name_by_id st) (halt_event_stream st)
    (run_messages st) (pending_msg st) (accumulated_thinking_text st)
    (message_count st) (self_current_state st) v (uuid_next st).

Definition set_uuid_next (v : nat) (st : TState) : TState :=
  mkTState (current_message_id st) (in_thinking_block st) (has_streamed_text
    st) (current_tool_call_id st) (current_tool_call_name st)
    (current_tool_display_name st) (accumulated_tool_json st)
    (processed_tool_ids st) (tool_name_by_id st) (halt_event_stream st)
    (run_messages st) (pending_msg st) (accumulated_thinking_text st)
    (message_count st) (self_current_state st) (self_last_result_data st) v.


(** ** session.py: the worker that owns the vendor client *)

Module SessionWorker.

(** What travels on a turn's output queue: a vendor message, a
    [WorkerError] wrapping an exception, or the sentinel [None]. *)
Inductive QueueItem : Type :=
  | QMsg (msg : SDKMessage)
  | WorkerError (exception : PyExc)
  | QNone.

(** What travels on the worker's input queue. *)
Inductive InputItem : Type :=
  | _SHUTDOWN
  | Turn (prompt session_id : string) (output_queue : nat).

(** What the vendor client does with one turn: [client.query] raises, or
    [client.receive_response] yields messages and then ends or raises. *)
Inductive VendorTurn : Type :=
  | QueryRaises (exc : PyExc)
  | Responds (msgs : list SDKMessage) (e : StreamEnd).

Section Worker.

Variable ClientState : Type.
Variable client_turn : ClientState -> string -> string -> VendorTurn * ClientState.

(** The worker, the queues it writes to (by queue identity) and the
    vendor client it owns. *)
Record Worker : Type := mkWorker {
  session_id : option string;
  queues : gmap nat (list QueueItem);
  client : ClientState;
}.

(** [await output_queue.put(item)] on an unbounded queue. *)
Definition put (q : nat) (item : QueueItem) (w : Worker) : Worker :=
  mkWorker (session_id w)
    (<[q := default [] (queues w !! q) ++ [item]]> (queues w))
    (client w).

(** The session id carried by an [init] system message. *)
Definition capture_session_id (msg : SDKMessage) (w : Worker) : Worker :=
  match msg with
  | SystemMessage subtype data =>
      if String.eqb subtype "init" then
        match data !! "session_id" with
        | Some sid =>
            if truthy_str sid then mkWorker (Some sid) (queues w) (client w)
            else w
        | None => w
        end
      else w
  | _ => w
  end.

(** [async for msg in client.receive_response(): ... put(msg)] *)
Fixpoint forward (msgs : list SDKMessage) (q : nat) (w : Worker) : Worker :=
  match msgs with
  | [] => w
  | msg :: rest => forward rest q (put q (QMsg msg) (capture_session_id msg w))
  end.

(** One iteration of the [while True] loop for a dequeued turn. *)
Definition serve_turn (prompt sid : string) (q : nat) (w : Worker) : Worker :=
  let '(turn, c) := client_turn (client w) prompt sid in
  let w0 := mkWorker (session_id w) (queues w) c in
  let w1 :=
    match turn with
    | QueryRaises exc => put q (WorkerError exc) w0
    | Responds msgs Exhausted => forward msgs q w0
    | Responds msgs (Raises exc) => put q (WorkerError exc) (forward msgs q w0)
    end in
  put q QNone w1.

(** The loop of [_run] over the items that arrive on the input queue. *)
Fixpoint run_loop (items : list InputItem) (w : Worker) : Worker :=
  match items with
  | [] => w
  | _SHUTDOWN :: _ => w
  | Turn prompt sid q :: rest => run_loop rest (serve_turn prompt sid q w)
  end.

(** [_run]: when [client.connect()] raises, no item is served. *)
Definition _run (connect : option PyExc) (items : list InputItem)
    (w : Worker) : Worker :=
  match connect with
  | Some _ => w
  | None => run_loop items w
  end.

End Worker.

Arguments session_id {ClientState} _.
Arguments queues {ClientState} _.
Arguments client {ClientState} _.
Arguments put {ClientState} q item w.
Arguments capture_session_id {ClientState} msg w.
Arguments forward {ClientState} msgs q w.
Arguments serve_turn {ClientState} client_turn prompt sid q w.
Arguments run_loop {ClientState} client_turn items w.
Arguments _run {ClientState} client_turn connect items w.

(** [query]: the stream a caller reads from the items of its output
    queue; [None] when it waits for ever on an item that never comes. *)
Fixpoint query (items : list QueueItem)
    : option (list SDKMessage * StreamEnd) :=
  match items with
  | [] => None
  | QNone :: _ => Some ([], Exhausted)
  | WorkerError exc :: _ => Some ([], Raises exc)
  | QMsg msg :: rest =>
      match query rest with
      | Some (msgs, e) => Some (msg :: msgs, e)
      | None => None
      end
  end.

End SessionWorker.

(** ** session.py: the manager of the workers *)

Module SessionManager.

Section Manager.

(** [Options] is the type of the vendor options a worker is created
    with; [new_client options] is the client its task creates. *)
Context {Options ClientState : Type}.
Variable new_client : Options -> ClientState.

(** A [SessionWorker] object as the manager holds it: the arguments of
    its constructor, whether its task is running ([_task is not None]),
    and the state its task works on. *)
Record WorkerObj : Type := mkWorkerObj {
  w_thread_id : string;
  w_options : Options;
  w_api_key : string;
  w_started : bool;
  w_state : SessionWorker.Worker ClientState;
}.

Definition w_session_id (w : WorkerObj) : option string :=
  SessionWorker.session_id (w_state w).

(** The three dictionaries of the manager. A lock is known by its
    identity: [next_lock] counts the [asyncio.Lock()] objects created so
    far. [stopped] lists, in order, the threads whose running worker was
    told to stop. *)
Record Manager : Type := mkManager {
  _workers : gmap string WorkerObj;
  _locks : gmap string nat;
  _session_ids : gmap string string;
  next_lock : nat;
  stopped : list string;
}.

(** [SessionManager()] *)
Definition new_manager : Manager := mkManager ∅ ∅ ∅ 0 [].

(** [SessionWorker(thread_id, options, api_key)] followed by [start()]. *)
Definition started_worker (tid : string) (options : Options)
    (api_key : string) : WorkerObj :=
  mkWorkerObj tid options api_key true
    (SessionWorker.mkWorker ClientState None ∅ (new_client options)).

Definition get_or_create (tid : string) (options : Options)
    (api_key : string) (m : Manager) : WorkerObj * Manager :=
  match _workers m !! tid with
  | Some w => (w, m)
  | None =>
      let worker := started_worker tid options api_key in
      (worker,
       mkManager (<[tid := worker]> (_workers m))
         (<[tid := next_lock m]> (_locks m)) (_session_ids m)
         (S (next_lock m)) (stopped m))
  end.

Definition get_existing (tid : string) (m : Manager) : option WorkerObj :=
  _workers m !! tid.

Definition get_lock (tid : string) (m : Manager) : nat * Manager :=
  match _locks m !! tid with
  | Some lock => (lock, m)
  | None =>
      (next_lock m,
       mkManager (_workers m) (<[tid := next_lock m]> (_locks m))
         (_session_ids m) (S (next_lock m)) (stopped m))
  end.

Definition get_session_id (tid : string) (m : Manager) : option string :=
  match _workers m !! tid with
  | Some worker =>
      if truthy_ostr (w_session_id worker) then w_session_id worker
      else _session_ids m !! tid
  | None => _session_ids m !! tid
  end.

(** [destroy]; [worker.stop()] does nothing when the task is not
    running. *)
Definition destroy (tid : string) (m : Manager) : Manager :=
  match _workers m !! tid with
  | Some worker =>
      mkManager (delete tid (_workers m)) (delete tid (_locks m))
        (if truthy_ostr (w_session_id worker)
         then <[tid := default "" (w_session_id worker)]> (_session_ids m)
         else _session_ids m)
        (next_lock m)
        (if w_started worker then stopped m ++ [tid] else stopped m)
  | None =>
      mkManager (_workers m) (delete tid (_locks m)) (_session_ids m)
        (next_lock m) (stopped m)
  end.

(** [shutdown]: [destroy] for every key of [_workers], in the order the
    dictionary lists them. *)
Definition shutdown (m : Manager) : Manager :=
  foldl (fun acc tid => destroy tid acc) m (map fst (map_to_list (_workers m))).

(** bridge.py, [ClaudeBridge.run], steps 4 and 5: the worker, the session
    label of the query and the lock of the thread. *)
Definition open_session (tid : string) (options : Options)
    (api_key : string) (m : Manager)
    : WorkerObj * string * nat * Manager :=
  let '(worker, m1) := get_or_create tid options api_key m in
  let session_label := or_ostr (get_session_id tid m1) tid in
  let '(lock, m2) := get_lock tid m1 in
  (worker, session_label, lock, m2).

End Manager.

Arguments WorkerObj : clear implicits.
Arguments Manager : clear implicits.

End SessionManager.

(** The locks handed out so far are older than the next one, and no two
    threads share a lock. *)
Definition locks_wf {Options ClientState : Type}
    (m : SessionManager.Manager Options ClientState) : Prop :=
  (forall k l, SessionManager._locks m !! k = Some l ->
               l < SessionManager.next_lock m)
  /\ (forall k1 k2 l,
        SessionManager._locks m !! k1 = Some l ->
        SessionManager._locks m !! k2 = Some l -> k1 = k2).

(** Whether the worker of a thread is running. *)
Definition running {Options ClientState : Type}
    (m : SessionManager.Manager Options ClientState) (tid : string) : bool :=
  match SessionManager._workers m !! tid with
  | Some w => SessionManager.w_started w
  | None => false
  end.


(** An [init] system message that carries a non-empty session id. *)
Definition carries_session_id (msg : SDKMessage) : bool :=
  match msg with
  | SystemMessage subtype data =>
      String.eqb subtype "init"
      && match data !! "session_id" with
         | Some sid => truthy_str sid
         | None => false
         end
  | _ => false
  end.


(** ** config.py and utils.py: the options of a run *)

Definition ALLOWED_FORWARDED_PROPS : gset string :=
  list_to_set
    ["resume"; "fork_session"; "resume_session_at";
     "model"; "fallback_model"; "temperature"; "max_tokens";
     "max_thinking_tokens"; "max_turns"; "max_budget_usd";
     "output_format"; "include_partial_messages";
     "enable_file_checkpointing"; "strict_mcp_config"; "betas"].

Definition AG_UI_MCP_SERVER_NAME : string := "ag_ui".

(** [value is None] *)
Definition is_none (v : JSON) : bool :=
  match v with
  | JNull => true
  | _ => false
  end.

(** [apply_forwarded_props]: the options dictionary [merged_kwargs] after
    the loop over the items of [forwarded_props]. *)
Definition apply_forwarded_props (forwarded_props : JSON)
    (merged_kwargs : gmap string JSON) (allowed_keys : gset string)
    : gmap string JSON :=
  match forwarded_props with
  | JObj props =>
      if map_is_empty props then merged_kwargs
      else
        map_fold
          (fun key value acc =>
             if bool_decide (key ∈ allowed_keys) && negb (is_none value)
             then <[key := value]> acc
             else acc)
          merged_kwargs props
  | _ => merged_kwargs
  end.

(** adapter.py, [build_options]: the block that grants the tools of the
    [ag_ui] server, for an [allowed_tools] option that is a list of names;
    the result is the option afterwards. *)
Definition grant_ag_ui_tools (allowed_tools : list string)
    (input_data : RunAgentInput) : list string :=
  let has_tools := match tools input_data with [] => false | _ => true end in
  if truthy (state input_data) || has_tools then
    let state_tool :=
      if truthy (state input_data)
         && negb (existsb (String.eqb STATE_MANAGEMENT_TOOL_FULL_NAME)
                    allowed_tools)
      then [STATE_MANAGEMENT_TOOL_FULL_NAME] else [] in
    let frontend_tools :=
      List.filter (fun prefixed_name =>
                     negb (existsb (String.eqb prefixed_name) allowed_tools))
        (map (fun tool_name => "mcp__ag_ui__" +:+ tool_name)
           (extract_tool_names (tools input_data))) in
    allowed_tools ++ state_tool ++ frontend_tools
  else allowed_tools.

Section Addendum.

(** [json_dumps_indent v] is [json.dumps(v, indent=2)], [None] when it
    raises [TypeError] or [ValueError]; [str_of v] is [str(v)]. *)
Variable json_dumps_indent : JSON -> option string.
Variable str_of : JSON -> string.

Definition newline : string := String "010" "".

(** [build_state_context_addendum]; a context item is its description
    and its value. *)
Definition build_state_context_addendum (input_data : RunAgentInput)
    : string :=
  let context_parts :=
    match context input_data with
    | [] => []
    | _ :: _ =>
        ["## Context from the application"]
        ++ map (fun ctx => "- " +:+ fst ctx +:+ ": " +:+ snd ctx)
             (context input_data)
        ++ [""]
    end in
  let state_parts :=
    if truthy (state input_data) then
      ["## Current Shared State";
       "This state is shared with the frontend UI and can be updated.";
       match json_dumps_indent (state input_data) with
       | Some state_json =>
           "```json" +:+ newline +:+ state_json +:+ newline +:+ "```"
       | None => "State: " +:+ str_of (state input_data)
       end;
       "";
       "To update this state, use the `ag_ui_update_state` tool with your changes.";
       ""]
    else [] in
  String.concat newline (context_parts ++ state_parts).

End Addendum.


Section Translator.

(** *** The environment

    [uuid4 n] is the [n]-th identifier returned by [str(uuid.uuid4())];
    [json_loads] is [json.loads] ([None] when it raises
    [JSONDecodeError]); [json_dumps] is [json.dumps]; [py_str] is [str];
    [block_type b] is [getattr(b, "type", None)] of a vendor block. *)
Variable uuid4 : nat -> string.
Variable json_loads : string -> option JSON.
Variable json_dumps : JSON -> string.
Variable py_str : JSON -> string.
Variable block_type : ContentBlock -> option string.

(** ** utils.py, continued *)

Definition block_text (b : ContentBlock) : string :=
  match b with
  | TextBlock t => t
  | _ => ""
  end.

(** The loop of [build_agui_assistant_message] over the content blocks. *)
Fixpoint assistant_parts (blocks : list ContentBlock)
    (text_content : string) (tool_calls : list AguiToolCall)
    : string * list AguiToolCall :=
  match blocks with
  | [] => (text_content, tool_calls)
  | b :: rest =>
      match block_type b with
      | Some ty =>
          if String.eqb ty "text" then
            assistant_parts rest (text_content +:+ block_text b) tool_calls
          else if String.eqb ty "tool_use" then
            match b with
            | ToolUseBlock id name input =>
                let raw_name := default "unknown" name in
                if _is_state_management_tool raw_name then
                  assistant_parts rest text_content tool_calls
                else
                  assistant_parts rest text_content
                    (tool_calls ++
                     [mkToolCall (or_ostr id "") "function"
                        (strip_mcp_prefix raw_name)
                        (json_dumps (JObj input))])
            | _ =>
                assistant_parts rest text_content
                  (tool_calls ++
                   [mkToolCall "" "function" (strip_mcp_prefix "unknown")
                      (json_dumps (JObj ∅))])
            end
          else assistant_parts rest text_content tool_calls
      | None => assistant_parts rest text_content tool_calls
      end
  end.

Definition build_agui_assistant_message (content : list ContentBlock)
    (message_id : string) : option AguiMessage :=
  let '(text_content, tool_calls) := assistant_parts content "" [] in
  if negb (truthy_str text_content) && (length tool_calls =? 0)%nat then None
  else Some (AguiAssistantMessage message_id
               (if truthy_str text_content then Some text_content else None)
               (match tool_calls with [] => None | _ => Some tool_calls end)).

(** [first_block.get("type") == "text"]. *)
Definition is_text_dict (fb : gmap string JSON) : bool :=
  match fb !! "type" with
  | Some (JStr t) => String.eqb t "text"
  | _ => false
  end.

Definition build_agui_tool_message (tool_use_id : string) (content : JSON)
    : AguiMessage :=
  let result_str :=
    match content with
    | JArr (JObj first_block :: _) =>
        if is_text_dict first_block then
          match default (JStr "") (first_block !! "text") with
          | JStr text =>
              match json_loads text with
              | Some v => json_dumps v
              | None => text
              end
          | _ => py_str content          (* TypeError *)
          end
        else json_dumps content
    | JNull => ""
    | _ => json_dumps content
    end in
  ToolMessage (tool_use_id +:+ "-result") result_str tool_use_id.

(** ** handlers.py *)

(** [state_updates = tool_input.get("state_updates", {})], parsed when it
    is a string, [{}] when the string is not JSON. *)
Definition state_updates_of_input (tool_input : gmap string JSON) : JSON :=
  match default (JObj ∅) (tool_input !! "state_updates") with
  | JStr s =>
      match json_loads s with
      | Some v => v
      | None => JObj ∅
      end
  | v => v
  end.

(** The update of the state shared by both paths: merge when both sides
    are dictionaries, replace otherwise. *)
Definition merge_state (current_state updates : JSON) : JSON :=
  match current_state, updates with
  | JObj c, JObj u => JObj (dict_merge c u)
  | _, _ => updates
  end.

(** The generator [event_gen] of [handle_tool_use_block]: the value of its
    [nonlocal current_state] when it finishes, and the events it yields. *)
Definition event_gen (tool_name : string) (tool_input : gmap string JSON)
    (tool_id tool_display_name : string) (parent_tool_use_id : option string)
    (tid rid : string) (current_state : JSON) : JSON * list Event :=
  if _is_state_management_tool tool_name then
    let current_state' :=
      merge_state current_state (state_updates_of_input tool_input) in
    (current_state', [StateSnapshotEvent current_state'])
  else
    (current_state,
     ToolCallStartEvent tid rid tool_id tool_display_name parent_tool_use_id
     :: (if map_is_empty tool_input then []
         else [ToolCallArgsEvent tid rid tool_id
                 (json_dumps (JObj tool_input))])).

(** [handle_tool_use_block] returns [current_state] before the generator
    has run, together with the generator; [n] counts the identifiers
    drawn. *)
Definition handle_tool_use_block (id name : option string)
    (input : gmap string JSON) (parent_tool_use_id : option string)
    (tid rid : string) (current_state : JSON) (n : nat)
    : JSON * list Event * nat :=
  let tool_name := or_ostr name "unknown" in
  let '(tool_id, n') :=
    if truthy_ostr id then (default "" id, n) else (uuid4 n, S n) in
  let tool_display_name := strip_mcp_prefix tool_name in
  (current_state,
   snd (event_gen tool_name input tool_id tool_display_name
          parent_tool_use_id tid rid current_state),
   n').

Definition handle_tool_result_block (tool_use_id : option string)
    (content : JSON) (tid rid : string) : list Event :=
  let result_str :=
    match content with
    | JNull => ""
    | JArr (JObj first_block :: _) =>
        if is_text_dict first_block then
          match default (JStr "") (first_block !! "text") with
          | JStr text_content =>
              match json_loads text_content with
              | Some parsed_json => json_dumps parsed_json
              | None => text_content
              end
          | _ => py_str content          (* TypeError *)
          end
        else json_dumps content
    | _ => json_dumps content
    end in
  match tool_use_id with
  | Some i =>
      if truthy_str i then
        [ToolCallEndEvent tid rid i;
         ToolCallResultEvent tid rid (i +:+ "-result") i result_str]
      else []
  | None => []
  end.

(** [emit_system_message_events]; [msg_id] is drawn by the function. *)
Definition emit_system_message_events (tid rid message msg_id : string)
    : list Event :=
  [TextMessageStartEvent tid rid msg_id "system";
   TextMessageContentEvent tid rid msg_id message;
   TextMessageEndEvent tid rid msg_id].

(** ** adapter.py: [_stream_claude_sdk] *)

Section Run.

Variables tid rid : string.
Variable input_data : RunAgentInput.
Variable frontend_tool_names : gset string.

(** [upsert_message]: replace the first message with the same id, append
    otherwise. *)
Fixpoint upsert_message (msg : AguiMessage) (run_msgs : list AguiMessage)
    : list AguiMessage :=
  match run_msgs with
  | [] => [msg]
  | m :: rest =>
      if String.eqb (msg_id m) (msg_id msg) then msg :: rest
      else m :: upsert_message msg rest
  end.

Definition upsert (msg : AguiMessage) (st : TState) : TState :=
  set_run_messages (upsert_message msg (run_messages st)) st.

Definition flush_pending_msg (st : TState) : TState :=
  match pending_msg st with
  | None => st
  | Some p =>
      let has_content := truthy_str (p_content p) in
      let has_tools := match p_tool_calls p with [] => false | _ => true end in
      let st1 :=
        if has_content || has_tools then
          upsert (AguiAssistantMessage (p_id p)
                    (if has_content then Some (p_content p) else None)
                    (if has_tools then Some (p_tool_calls p) else None)) st
        else st in
      set_pending_msg None st1
  end.

(** [event_type == 'message_start'] *)
Definition on_message_start (st : TState) : TState * list Event :=
  let id := uuid4 (uuid_next st) in
  (set_pending_msg (Some (mkPending id "" []))
     (set_has_streamed_text false
        (set_current_message_id (Some id)
           (set_uuid_next (S (uuid_next st)) st))),
   []).

(** [delta_type == 'text_delta'] *)
Definition on_text_delta (text_chunk : string) (st : TState)
    : TState * list Event :=
  match current_message_id st with
  | Some mid =>
      if truthy_str text_chunk && truthy_str mid then
        let start :=
          if has_streamed_text st then []
          else [TextMessageStartEvent tid rid mid "assistant"] in
        let st1 := set_has_streamed_text true st in
        let st2 :=
          match pending_msg st1 with
          | Some p =>
              set_pending_msg
                (Some (mkPending (p_id p) (p_content p +:+ text_chunk)
                         (p_tool_calls p))) st1
          | None => st1
          end in
        (st2, start ++ [TextMessageContentEvent tid rid mid text_chunk])
      else (st, [])
  | None => (st, [])
  end.

(** [delta_type == 'thinking_delta'] *)
Definition on_thinking_delta (thinking_chunk : string) (st : TState)
    : TState * list Event :=
  if truthy_str thinking_chunk then
    (set_accumulated_thinking_text
       (accumulated_thinking_text st +:+ thinking_chunk) st,
     [ThinkingTextMessageContentEvent thinking_chunk])
  else (st, []).

(** [delta_type == 'input_json_delta'] *)
Definition on_input_json_delta (partial_json : string) (st : TState)
    : TState * list Event :=
  match current_tool_call_id st with
  | Some id =>
      if truthy_str partial_json && truthy_str id then
        (set_accumulated_tool_json
           (accumulated_tool_json st +:+ partial_json) st,
         [ToolCallArgsEvent tid rid id partial_json])
      else (st, [])
  | None => (st, [])
  end.

(** [event_type == 'content_block_start'] *)
Definition on_content_block_start (b : BlockStart) (st : TState)
    : TState * list Event :=
  match b with
  | thinking_start =>
      (set_in_thinking_block true st,
       [ThinkingStartEvent; ThinkingTextMessageStartEvent])
  | tool_use_start id name =>
      let tool_name := default "unknown" name in
      let st1 :=
        set_accumulated_tool_json ""
          (set_current_tool_call_name (Some tool_name)
             (set_current_tool_call_id id st)) in
      match id with
      | Some i =>
          if truthy_str i then
            let display := strip_mcp_prefix tool_name in
            (set_tool_name_by_id (<[i := display]> (tool_name_by_id st1))
               (set_processed_tool_ids ({[i]} ∪ processed_tool_ids st1)
                  (set_current_tool_display_name (Some display) st1)),
             [ToolCallStartEvent tid rid i display (current_message_id st)])
          else (st1, [])
      | None => (st1, [])
      end
  | other_block_start => (st, [])
  end.

(** What the [try] block of the state interception obtains from the
    accumulated argument text: an exception ([JSONDecodeError]), a value
    that is not a dictionary (nothing is done), or the updates. *)
Inductive StateUpdate : Type :=
  | SU_error
  | SU_not_a_dict
  | SU_updates (updates : JSON).

Definition parse_state_updates (accumulated : string) : StateUpdate :=
  match json_loads accumulated with
  | None => SU_error
  | Some (JObj state_updates) =>
      match default (JObj state_updates) (state_updates !! "state_updates")
      with
      | JStr s =>
          match json_loads s with
          | None => SU_error
          | Some updates => SU_updates updates
          end
      | updates => SU_updates updates
      end
  | Some _ => SU_not_a_dict
  end.

Definition is_state_tool (name : option string) : bool :=
  match name with
  | Some n => _is_state_management_tool n
  | None => false
  end.

Definition in_frontend_tools (display : option string) : bool :=
  match display with
  | Some d => bool_decide (d ∈ frontend_tool_names)
  | None => false
  end.

(** Closing a thinking block at [content_block_stop]. *)
Definition close_thinking (st : TState) : TState * list Event :=
  if in_thinking_block st then
    let st1 := set_in_thinking_block false st in
    let st2 :=
      if truthy_str (accumulated_thinking_text st1) then
        set_accumulated_thinking_text ""
          (upsert (DeveloperMessage (uuid4 (uuid_next st1))
                     (accumulated_thinking_text st1))
             (set_uuid_next (S (uuid_next st1)) st1))
      else st1 in
    (st2, [ThinkingTextMessageEndEvent; ThinkingEndEvent])
  else (st, []).

(** The interception of the state management tool. *)
Definition intercept_state (st : TState) : TState * list Event :=
  if is_state_tool (current_tool_call_name st) then
    match parse_state_updates (accumulated_tool_json st) with
    | SU_updates updates =>
        let s := merge_state (self_current_state st) updates in
        (set_self_current_state s st, [StateSnapshotEvent s])
    | SU_not_a_dict => (st, [])
    | SU_error => (st, [])
    end
  else (st, []).

(** Pushing the finished tool call onto the in-flight message. *)
Definition push_tool_call (id : string) (st : TState) : TState :=
  match pending_msg st, current_tool_display_name st with
  | Some p, Some display =>
      if truthy_str display
         && negb (is_state_tool (current_tool_call_name st))
      then
        set_pending_msg
          (Some (mkPending (p_id p) (p_content p)
                   (p_tool_calls p ++
                    [mkToolCall id "function" display
                       (accumulated_tool_json st)]))) st
      else st
  | _, _ => st
  end.

(** [event_type == 'content_block_stop'] *)
Definition on_content_block_stop (st : TState) : TState * list Event :=
  let '(st1, ev_think) := close_thinking st in
  match current_tool_call_id st1 with
  | Some id =>
      if truthy_str id then
        let '(st2, ev_state) := intercept_state st1 in
        let st3 := push_tool_call id st2 in
        if in_frontend_tools (current_tool_display_name st3) then
          let st4 := flush_pending_msg st3 in
          let text_open :=
            truthy_ostr (current_message_id st4) && has_streamed_text st4 in
          let ev_text :=
            if text_open
            then [TextMessageEndEvent tid rid
                    (default "" (current_message_id st4))]
            else [] in
          let st5 :=
            if text_open then set_current_message_id None st4 else st4 in
          (set_halt_event_stream true st5,
           ev_think ++ ev_state ++ [ToolCallEndEvent tid rid id] ++ ev_text)
        else
          (set_accumulated_tool_json ""
             (set_current_tool_display_name None
                (set_current_tool_call_name None
                   (set_current_tool_call_id None st3))),
           ev_think ++ ev_state)
      else (st1, ev_think)
  | None => (st1, ev_think)
  end.

(** [event_type == 'message_stop'] *)
Definition on_message_stop (st : TState) : TState * list Event :=
  let st1 := flush_pending_msg st in
  (set_current_message_id None st1,
   if truthy_ostr (current_message_id st1) && has_streamed_text st1
   then [TextMessageEndEvent tid rid (default "" (current_message_id st1))]
   else []).

Definition on_stream_event (ev : StreamEventData) (st : TState)
    : TState * list Event :=
  match ev with
  | message_start => on_message_start st
  | content_block_delta (text_delta t) => on_text_delta t st
  | content_block_delta (thinking_delta t) => on_thinking_delta t st
  | content_block_delta (input_json_delta j) => on_input_json_delta j st
  | content_block_delta other_delta => (st, [])
  | content_block_start b => on_content_block_start b st
  | content_block_stop => on_content_block_stop st
  | message_stop => on_message_stop st
  | message_delta _ => (st, [])
  | other_event => (st, [])
  end.

(** The blocks of a complete [AssistantMessage] or [UserMessage]
    (fallback path). *)
Definition on_tool_use_block (id name : option string)
    (input : gmap string JSON) (parent : option string) (st : TState)
    : TState * list Event :=
  if truthy_ostr id && bool_decide (default "" id ∈ processed_tool_ids st)
  then (st, [])
  else
    let raw_name := or_ostr name "unknown" in
    let st1 :=
      if truthy_ostr id then
        set_tool_name_by_id
          (<[default "" id := strip_mcp_prefix raw_name]> (tool_name_by_id st))
          st
      else st in
    let '(updated_state, tool_events, n) :=
      handle_tool_use_block id name input parent tid rid
        (self_current_state st1) (uuid_next st1) in
    let st2 := set_uuid_next n st1 in
    let st3 :=
      if truthy_ostr id then
        set_processed_tool_ids ({[default "" id]} ∪ processed_tool_ids st2) st2
      else st2 in
    let st4 :=
      match updated_state with
      | JNull => st3
      | _ => set_self_current_state updated_state st3
      end in
    (st4, tool_events).

Definition on_tool_result_block (tool_use_id : option string)
    (content : JSON) (st : TState) : TState * list Event :=
  let st1 :=
    if truthy_ostr tool_use_id then
      upsert (build_agui_tool_message (default "" tool_use_id) content) st
    else st in
  (st1, handle_tool_result_block tool_use_id content tid rid).

Fixpoint on_blocks (blocks : list ContentBlock) (parent : option string)
    (st : TState) : TState * list Event :=
  match blocks with
  | [] => (st, [])
  | b :: rest =>
      let '(st1, ev) :=
        match b with
        | ToolUseBlock id name input => on_tool_use_block id name input parent st
        | ToolResultBlock tool_use_id content _ =>
            on_tool_result_block tool_use_id content st
        | _ => (st, [])
        end in
      let '(st2, ev') := on_blocks rest parent st1 in
      (st2, ev ++ ev')
  end.

Definition on_assistant_message (content : list ContentBlock)
    (parent : option string) (st : TState) : TState * list Event :=
  let '(msg_id, st1) :=
    if truthy_ostr (current_message_id st)
    then (default "" (current_message_id st), st)
    else (uuid4 (uuid_next st), set_uuid_next (S (uuid_next st)) st) in
  let st2 :=
    match build_agui_assistant_message content msg_id with
    | Some agui_msg => upsert agui_msg st1
    | None => st1
    end in
  on_blocks content parent st2.

Definition on_system_message (data : gmap string string) (st : TState)
    : TState * list Event :=
  let msg_text := or_ostr (data !! "message") (or_ostr (data !! "text") "") in
  if truthy_str msg_text then
    let sys_msg_id := uuid4 (uuid_next st) in
    let msg_id := uuid4 (S (uuid_next st)) in
    (upsert (AguiSystemMessage sys_msg_id msg_text)
       (set_uuid_next (S (S (uuid_next st))) st),
     emit_system_message_events tid rid msg_text msg_id)
  else (st, []).

Definition on_result_message (result : option string) (meta : ResultData)
    (st : TState) : TState * list Event :=
  let st1 := set_self_last_result_data (Some meta) st in
  if negb (has_streamed_text st1) && truthy_ostr result then
    let result_text := default "" result in
    let result_msg_id := uuid4 (uuid_next st1) in
    (upsert (AguiAssistantMessage result_msg_id (Some result_text) None)
       (set_uuid_next (S (uuid_next st1)) st1),
     [TextMessageStartEvent tid rid result_msg_id "assistant";
      TextMessageContentEvent tid rid result_msg_id result_text;
      TextMessageEndEvent tid rid result_msg_id])
  else (st1, []).

(** The body of the [async for] loop after the halt check. *)
Definition on_message (message : SDKMessage) (st : TState)
    : TState * list Event :=
  match message with
  | StreamEvent event => on_stream_event event st
  | AssistantMessage content parent => on_assistant_message content parent st
  | UserMessage content parent => on_blocks content parent st
  | SystemMessage _ data => on_system_message data st
  | ResultMessage result meta => on_result_message result meta st
  | OtherMessage => (st, [])
  end.

(** How the [async for] loop is left: the iterator was asked for an item
    beyond the last one, or the loop broke with items left unread. *)
Inductive LoopExit : Type :=
  | ReachedEnd
  | Break (unconsumed : list SDKMessage).

Fixpoint loop (msgs : list SDKMessage) (st : TState)
    : TState * list Event * LoopExit :=
  match msgs with
  | [] => (st, [], ReachedEnd)
  | message :: rest =>
      let st1 := set_message_count (S (message_count st)) st in
      if halt_event_stream st1 then (st1, [], Break rest)
      else
        let '(st2, ev) := on_message message st1 in
        let '(st3, ev', ex) := loop rest st2 in
        (st3, ev ++ ev', ex)
  end.

(** The exception caught by [except Exception], if any. *)
Definition stream_error_of (ex : LoopExit) (e : StreamEnd) : option PyExc :=
  match ex, e with
  | ReachedEnd, Raises exc => Some exc
  | _, _ => None
  end.

(** The [finally] block. *)
Definition cleanup (st : TState) : TState * list Event :=
  let '(st1, ev_tool) :=
    if truthy_ostr (current_tool_call_id st) then
      (set_current_tool_call_id None st,
       [ToolCallEndEvent tid rid (default "" (current_tool_call_id st))])
    else (st, []) in
  let '(st2, ev_think) :=
    if in_thinking_block st1 then
      (set_in_thinking_block false st1,
       [ThinkingTextMessageEndEvent; ThinkingEndEvent])
    else (st1, []) in
  let ev_text :=
    if has_streamed_text st2 && truthy_ostr (current_message_id st2)
    then [TextMessageEndEvent tid rid (default "" (current_message_id st2))]
    else [] in
  (flush_pending_msg st2, ev_tool ++ ev_think ++ ev_text).

(** The enrichment of tool results with their display names. *)
Definition enrich (names : gmap string string) (msg : AguiMessage)
    : AguiMessage :=
  match msg_tool_call_id msg with
  | Some tcid =>
      if String.eqb (msg_role msg) "tool" && truthy_str tcid then
        match names !! tcid with
        | Some name =>
            mkMessage (msg_id msg) (msg_role msg) (msg_content msg)
              (msg_tool_calls msg) (msg_tool_call_id msg) (Some name)
        | None => msg
        end
      else msg
  | None => msg
  end.

Definition messages_snapshot (st : TState) : list Event :=
  match run_messages st with
  | [] => []
  | _ :: _ =>
      [MessagesSnapshotEvent
         (messages input_data
          ++ map (enrich (tool_name_by_id st)) (run_messages st))]
  end.

(** The locals at the start of [_stream_claude_sdk]; [current_state] and
    [last_result_data] are the fields of the adapter object, [n] the number
    of identifiers drawn so far. *)
Definition initial_state (current_state : JSON)
    (last_result_data : option ResultData) (n : nat) : TState :=
  mkTState None false false None None None "" ∅ ∅ false [] None "" 0
    current_state last_result_data n.

(** [_stream_claude_sdk], started in state [st]: the events it yields, its
    final state, and the exception it raises at the end, if any. *)
Definition stream_from (st : TState)
    (message_stream : list SDKMessage * StreamEnd)
    : list Event * TState * option PyExc :=
  let '(st1, ev_loop, ex) := loop (fst message_stream) st in
  let stream_error := stream_error_of ex (snd message_stream) in
  let '(st2, ev_cleanup) := cleanup st1 in
  (ev_loop ++ ev_cleanup ++ messages_snapshot st2, st2, stream_error).

Definition _stream_claude_sdk (message_stream : list SDKMessage * StreamEnd)
    (current_state : JSON) (last_result_data : option ResultData) (n : nat)
    : list Event * TState * option PyExc :=
  stream_from (initial_state current_state last_result_data n) message_stream.

End Run.

(** ** adapter.py: [ClaudeAgentAdapter.run] *)

(** [thread_id = input_data.thread_id or str(uuid.uuid4())], the same for
    [run_id], and the number of identifiers drawn after both. *)
Definition resolve_ids (input_data : RunAgentInput) (n : nat)
    : string * string * nat :=
  let '(tid, n1) :=
    if truthy_str (thread_id input_data) then (thread_id input_data, n)
    else (uuid4 n, S n) in
  let '(rid, n2) :=
    if truthy_str (run_id input_data) then (run_id input_data, n1)
    else (uuid4 n1, S n1) in
  (tid, rid, n2).

(** The names of the frontend tools declared by the caller. *)
Definition frontend_tools_of (input_data : RunAgentInput) : gset string :=
  list_to_set (extract_tool_names (tools input_data)).

Definition run (input_data : RunAgentInput)
    (message_stream : list SDKMessage * StreamEnd) (n : nat) : list Event :=
  let '(tid, rid, n2) := resolve_ids input_data n in
  let started :=
    RunStartedEvent tid rid (parent_run_id input_data)
      (mkInput tid rid (parent_run_id input_data) (messages input_data)
         (tools input_data) (state input_data) (context input_data)
         (forwarded_props input_data)) in
  let user_message := fst (process_messages input_data) in
  let frontend_tool_names := frontend_tools_of input_data in
  if negb (truthy_str user_message) then
    [started; RunFinishedEvent tid rid None]
  else
    let ev_state :=
      if truthy (state input_data)
      then [StateSnapshotEvent (state input_data)] else [] in
    let '(ev_stream, st, stream_error) :=
      _stream_claude_sdk tid rid input_data frontend_tool_names
        message_stream (state input_data) None n2 in
    started :: ev_state ++ ev_stream ++
      match stream_error with
      | None => [RunFinishedEvent tid rid (self_last_result_data st)]
      | Some e => [RunErrorEvent tid rid (exc_str e)]
      end.

(** ** Sample inputs *)

Definition user_hi : AguiMessage :=
  mkMessage "u1" "user" (ContentStr "hi") None None None.

Definition input_hi : RunAgentInput :=
  mkInput "thread-1" "run-1" None [user_hi] [] JNull [] JNull.

Definition hi_stream : list SDKMessage :=
  [StreamEvent message_start;
   StreamEvent (content_block_delta (text_delta "Hi"));
   StreamEvent (content_block_delta (text_delta " there"));
   StreamEvent message_stop].


(** The [type] field of an event ([EventType]). *)
Inductive EventType : Type :=
  | RUN_STARTED | RUN_FINISHED | RUN_ERROR
  | TEXT_MESSAGE_START | TEXT_MESSAGE_CONTENT | TEXT_MESSAGE_END
  | TOOL_CALL_START | TOOL_CALL_ARGS | TOOL_CALL_END | TOOL_CALL_RESULT
  | STATE_SNAPSHOT | MESSAGES_SNAPSHOT
  | THINKING_START | THINKING_TEXT_MESSAGE_START
  | THINKING_TEXT_MESSAGE_CONTENT | THINKING_TEXT_MESSAGE_END | THINKING_END.

#[global] Instance EventType_eq_dec : EqDecision EventType.
Proof. solve_decision. Defined.

Definition event_type (e : Event) : EventType :=
  match e with
  | RunStartedEvent _ _ _ _ => RUN_STARTED
  | RunFinishedEvent _ _ _ => RUN_FINISHED
  | RunErrorEvent _ _ _ => RUN_ERROR
  | TextMessageStartEvent _ _ _ _ => TEXT_MESSAGE_START
  | TextMessageContentEvent _ _ _ _ => TEXT_MESSAGE_CONTENT
  | TextMessageEndEvent _ _ _ => TEXT_MESSAGE_END
  | ToolCallStartEvent _ _ _ _ _ => TOOL_CALL_START
  | ToolCallArgsEvent _ _ _ _ => TOOL_CALL_ARGS
  | ToolCallEndEvent _ _ _ => TOOL_CALL_END
  | ToolCallResultEvent _ _ _ _ _ => TOOL_CALL_RESULT
  | StateSnapshotEvent _ => STATE_SNAPSHOT
  | MessagesSnapshotEvent _ => MESSAGES_SNAPSHOT
  | ThinkingStartEvent => THINKING_START
  | ThinkingTextMessageStartEvent => THINKING_TEXT_MESSAGE_START
  | ThinkingTextMessageContentEvent _ => THINKING_TEXT_MESSAGE_CONTENT
  | ThinkingTextMessageEndEvent => THINKING_TEXT_MESSAGE_END
  | ThinkingEndEvent => THINKING_END
  end.

(** The events of a given type, in order. *)
Definition of_type (t : EventType) (evs : list Event) : list Event :=
  List.filter (fun e => bool_decide (event_type e = t)) evs.

(** The stream items of a run of content deltas, and the argument text
    their [input_json_delta]s carry. *)
Definition delta_msgs (args : list Delta) : list SDKMessage :=
  map (fun d => StreamEvent (content_block_delta d)) args.

Fixpoint partial_jsons (args : list Delta) : string :=
  match args with
  | [] => ""
  | input_json_delta j :: rest => j +:+ partial_jsons rest
  | _ :: rest => partial_jsons rest
  end.

(** What a content delta leaves alone in the state. *)
Definition same_frame (st st' : TState) : Prop :=
  current_message_id st' = current_message_id st
  /\ in_thinking_block st' = in_thinking_block st
  /\ current_tool_call_id st' = current_tool_call_id st
  /\ current_tool_call_name st' = current_tool_call_name st
  /\ current_tool_display_name st' = current_tool_display_name st
  /\ halt_event_stream st' = halt_event_stream st
  /\ run_messages st' = run_messages st
  /\ self_current_state st' = self_current_state st
  /\ uuid_next st' = uuid_next st.

(** The event types a content delta can produce. *)
Definition delta_event (e : Event) : bool :=
  match event_type e with
  | TEXT_MESSAGE_START | TEXT_MESSAGE_CONTENT | TOOL_CALL_ARGS
  | THINKING_TEXT_MESSAGE_CONTENT => true
  | _ => false
  end.


(** The stream items of a tool call delivered in chunks: the start of the
    [tool_use] block and its deltas, and the same closed by
    [content_block_stop]. *)
Definition tool_use_open (id name : string) (args : list Delta)
    : list SDKMessage :=
  StreamEvent (content_block_start (tool_use_start (Some id) (Some name)))
  :: delta_msgs args.

Definition tool_use_block (id name : string) (args : list Delta)
    : list SDKMessage :=
  tool_use_open id name args ++ [StreamEvent content_block_stop].


(** The events of the run itself, which only [run] yields. *)
Definition run_event (e : Event) : bool :=
  match event_type e with
  | RUN_STARTED | RUN_FINISHED | RUN_ERROR => true
  | _ => false
  end.


(** The message id of a text-message event, and the text-message events
    that carry a given id, in order. *)
Definition text_event_id (e : Event) : option string :=
  match e with
  | TextMessageStartEvent _ _ m _ => Some m
  | TextMessageContentEvent _ _ m _ => Some m
  | TextMessageEndEvent _ _ m => Some m
  | _ => None
  end.

Definition text_events_of (id : string) (evs : list Event) : list Event :=
  List.filter (fun e => bool_decide (text_event_id e = Some id)) evs.

(** The non-empty text chunks carried by the items of a stream. *)
Fixpoint text_chunks (msgs : list SDKMessage) : list string :=
  match msgs with
  | [] => []
  | StreamEvent (content_block_delta (text_delta t)) :: rest =>
      if truthy_str t then t :: text_chunks rest else text_chunks rest
  | _ :: rest => text_chunks rest
  end.

(** An item that neither starts nor stops a message. *)
Definition inside_message (m : SDKMessage) : bool :=
  match m with
  | StreamEvent message_start | StreamEvent message_stop => false
  | _ => true
  end.

(** The text-message events seen so far for a message whose chunks so far
    are [ds]: nothing before the first chunk, then the start and one
    content event per chunk. *)
Definition framed_prefix (tid rid id : string) (ds : list string)
    : list Event :=
  match ds with
  | [] => []
  | _ :: _ =>
      TextMessageStartEvent tid rid id "assistant"
      :: map (TextMessageContentEvent tid rid id) ds
  end.

(** The state of the translator inside the message [id] after the chunks
    [ds]; [fresh j] says that the identifier drawn at [j] is not [id]. *)
Definition in_message (fresh : nat -> Prop) (id : string) (ds : list string)
    (st : TState) : Prop :=
  current_message_id st = Some id
  /\ (exists p,
        pending_msg st = Some p /\ p_id p = id
        /\ p_content p = String.concat "" ds)
  /\ has_streamed_text st = (match ds with [] => false | _ => true end)
  /\ halt_event_stream st = false
  /\ forall j, uuid_next st <= j -> fresh j.


(** A state, a result and streams to run the model on. *)
Definition sample_block_type (b : ContentBlock) : option string :=
  match b with
  | TextBlock _ => Some "text"
  | ThinkingBlock _ _ => Some "thinking"
  | ToolUseBlock _ _ _ => Some "tool_use"
  | ToolResultBlock _ _ _ => Some "tool_result"
  | OtherBlock => None
  end.

Definition counter_state : JSON :=
  JObj (<["count" := JNum 1]> {["name" := JStr "a"]}).

Definition input_no_messages : RunAgentInput :=
  mkInput "thread-1" "run-1" None [] [] counter_state [] JNull.

Definition input_pick : RunAgentInput :=
  mkInput "thread-1" "run-1" None [user_hi] [mkToolDef (Some "pick") ""]
    JNull [] JNull.

Definition result_done : SDKMessage :=
  ResultMessage (Some "done")
    (mkResultData (Some false) None None (Some 1%Z) JNull JNull JNull).

(** A message with a text, a thinking block and a backend tool call,
    preceded by a system message and followed by the result. *)
Definition framed_pre : list SDKMessage :=
  [SystemMessage "init" (<["session_id" := "sess-1"]> {["message" := "hello"]})].

Definition framed_mid : list SDKMessage :=
  [StreamEvent (content_block_start other_block_start);
   StreamEvent (content_block_delta (text_delta "Hi"));
   StreamEvent (content_block_delta (text_delta ""));
   StreamEvent (content_block_delta (text_delta " there"));
   StreamEvent content_block_stop]
  ++ tool_use_block "A" "Read" [input_json_delta "{}"].

(** Two tool calls in one message, the stream stopping inside the second. *)
Definition two_tools_stream : list SDKMessage :=
  StreamEvent message_start
  :: tool_use_block "A" "Read" [input_json_delta "{}"]
  ++ tool_use_open "B" "Write" [input_json_delta "{"].

(** A frontend tool call delivered in chunks, then more items. *)
Definition halting_stream : list SDKMessage :=
  StreamEvent message_start
  :: tool_use_block "t1" "mcp__ag_ui__pick" [input_json_delta "{}"].

Definition after_halt : list SDKMessage :=
  [StreamEvent message_stop; result_done].

(** The same frontend tool call delivered in a complete message. *)
Definition fallback_frontend_stream : list SDKMessage :=
  [AssistantMessage [ToolUseBlock (Some "t1") (Some "mcp__ag_ui__pick") ∅] None;
   result_done].

(** A message abandoned by a second [message_start]. *)
Definition nested_stream : list SDKMessage :=
  [StreamEvent message_start;
   StreamEvent (content_block_delta (text_delta "a"));
   StreamEvent message_start;
   StreamEvent (content_block_delta (text_delta "b"));
   StreamEvent message_stop].

(** A frontend tool call delivered in chunks before the text of its
    message, and one delivered after a text chunk. *)
Definition late_text_stream : list SDKMessage :=
  halting_stream
  ++ [StreamEvent (content_block_delta (text_delta "x"));
      StreamEvent message_stop].

Definition text_then_frontend_tool : list SDKMessage :=
  StreamEvent (content_block_delta (text_delta "Hi"))
  :: tool_use_block "t1" "mcp__ag_ui__pick" [input_json_delta "{}"].

(** A state-tool call delivered in chunks, and its result. *)
Definition state_tool_stream : list SDKMessage :=
  tool_use_block "s1" STATE_MANAGEMENT_TOOL_FULL_NAME
    [input_json_delta "{count"; input_json_delta ":2}"]
  ++ [UserMessage
        [ToolResultBlock (Some "s1") (JStr "State updated successfully") None]
        None].

(** A state-tool call in a complete message whose [state_updates] string
    is not JSON. *)
Definition malformed_fallback : SDKMessage :=
  AssistantMessage
    [ToolUseBlock (Some "s1") (Some STATE_MANAGEMENT_TOOL_FULL_NAME)
       {["state_updates" := JStr "{oops"]}]
    None.

(** Every tool-call-start is followed by a tool-call-end with its id. *)
Definition is_tool_call_end (id : string) (e : Event) : bool :=
  match e with
  | ToolCallEndEvent _ _ i => String.eqb i id
  | _ => false
  end.

Fixpoint tool_calls_closed (evs : list Event) : bool :=
  match evs with
  | [] => true
  | ToolCallStartEvent _ _ id _ _ :: rest =>
      existsb (is_tool_call_end id) rest && tool_calls_closed rest
  | _ :: rest => tool_calls_closed rest
  end.

(** A vendor client whose first turn answers and whose later turns raise
    in the middle of the response. *)
Definition sample_client (c : nat) (prompt sid : string)
    : SessionWorker.VendorTurn * nat :=
  (match c with
   | O => SessionWorker.Responds [OtherMessage] Exhausted
   | S _ => SessionWorker.Responds hi_stream (Raises (Exc "boom"))
   end, S c).

(** A vendor client whose query raises. *)
Definition failing_client (c : unit) (prompt sid : string)
    : SessionWorker.VendorTurn * unit :=
  (SessionWorker.QueryRaises (Exc "boom"), tt).

(** A vendor client whose response raises inside a message, after a text
    chunk and the start of a tool call. *)
Definition interrupted_stream : list SDKMessage :=
  StreamEvent message_start
  :: StreamEvent (content_block_delta (text_delta "Hi"))
  :: tool_use_open "A" "Read" [input_json_delta "{"].

Definition interrupted_client (c : unit) (prompt sid : string)
    : SessionWorker.VendorTurn * unit :=
  (SessionWorker.Responds interrupted_stream (Raises (Exc "boom")), tt).


(** The thread and run identifiers an event carries, if it has the
    fields. *)
Definition event_run_ids (e : Event) : option (string * string) :=
  match e with
  | RunStartedEvent t r _ _ => Some (t, r)
  | RunFinishedEvent t r _ => Some (t, r)
  | RunErrorEvent t r _ => Some (t, r)
  | TextMessageStartEvent t r _ _ => Some (t, r)
  | TextMessageContentEvent t r _ _ => Some (t, r)
  | TextMessageEndEvent t r _ => Some (t, r)
  | ToolCallStartEvent t r _ _ _ => Some (t, r)
  | ToolCallArgsEvent t r _ _ => Some (t, r)
  | ToolCallEndEvent t r _ => Some (t, r)
  | ToolCallResultEvent t r _ _ _ => Some (t, r)
  | StateSnapshotEvent _ | MessagesSnapshotEvent _
  | ThinkingStartEvent | ThinkingTextMessageStartEvent
  | ThinkingTextMessageContentEvent _ | ThinkingTextMessageEndEvent
  | ThinkingEndEvent => None
  end.

Definition of_run (tid rid : string) (e : Event) : Prop :=
  event_run_ids e = None \/ event_run_ids e = Some (tid, rid).


(** The stream items of a thinking block delivered in chunks. *)
Definition thinking_msgs (chunks : list string) : list SDKMessage :=
  map (fun t => StreamEvent (content_block_delta (thinking_delta t))) chunks.

Definition thinking_block (chunks : list string) : list SDKMessage :=
  StreamEvent (content_block_start thinking_start)
  :: thinking_msgs chunks ++ [StreamEvent content_block_stop].


(** The bookkeeping of the run that only a few branches write: the ids of
    the tool calls already announced, their display names and the result
    metadata. *)
Definition tracking_kept (st st' : TState) : Prop :=
  processed_tool_ids st' = processed_tool_ids st
  /\ tool_name_by_id st' = tool_name_by_id st
  /\ self_last_result_data st' = self_last_result_data st.


(** A stream item that announces the tool call [id]: the start of a
    tool-use block with that id, or a complete message holding a tool-use
    block with it. *)
Definition is_tool_use_of (id : string) (b : ContentBlock) : bool :=
  match b with
  | ToolUseBlock (Some i) _ _ => String.eqb i id
  | _ => false
  end.

Definition announces (id : string) (m : SDKMessage) : bool :=
  match m with
  | StreamEvent (content_block_start (tool_use_start (Some i) _)) =>
      String.eqb i id
  | AssistantMessage content _ | UserMessage content _ =>
      existsb (is_tool_use_of id) content
  | _ => false
  end.

(** A block of a complete message that repeats the tool call [id] or
    carries no tool data. *)
Definition repeats_only (id : string) (b : ContentBlock) : bool :=
  match b with
  | ToolUseBlock _ _ _ => is_tool_use_of id b
  | ToolResultBlock _ _ _ => false
  | _ => true
  end.


(** The messages recorded by the run have pairwise distinct ids. *)
Definition ids_unique (st : TState) : Prop :=
  NoDup (map msg_id (run_messages st)).


(** A server name that splits off cleanly: no double underscore inside,
    no underscore at its end. *)
Fixpoint plain (s : string) : bool :=
  match s with
  | EmptyString => true
  | String c rest =>
      match rest with
      | EmptyString => negb (Ascii.eqb c "_")
      | String c' _ =>
          negb (Ascii.eqb c "_" && Ascii.eqb c' "_") && plain rest
      end
  end.





(** * Properties *)

(** ** The loop *)

Section Loop.

Variables tid rid : string.
Variable input_data : RunAgentInput.
Variable frontend_tool_names : gset string.

#[local] Abbreviation loop := (loop tid rid frontend_tool_names).
#[local] Abbreviation on_message := (on_message tid rid frontend_tool_names).
#[local] Abbreviation cleanup := (cleanup tid rid).
#[local] Abbreviation stream_from :=
  (stream_from tid rid input_data frontend_tool_names).
#[local] Abbreviation on_content_block_stop :=
  (on_content_block_stop tid rid frontend_tool_names).
#[local] Abbreviation in_frontend_tools :=
  (in_frontend_tools frontend_tool_names).
#[local] Abbreviation _stream_claude_sdk :=
  (_stream_claude_sdk tid rid input_data frontend_tool_names).
#[local] Abbreviation messages_snapshot := (messages_snapshot input_data).
#[local] Abbreviation on_tool_use_block := (on_tool_use_block tid rid).
#[local] Abbreviation on_blocks := (on_blocks tid rid).
#[local] Abbreviation on_tool_result_block := (on_tool_result_block tid rid).
#[local] Abbreviation on_assistant_message := (on_assistant_message tid rid).

Lemma loop_nil st : loop [] st = (st, [], ReachedEnd).
Proof. reflexivity. Qed.

Lemma loop_cons_halted m rest st :
  halt_event_stream st = true ->
  loop (m :: rest) st
  = (set_message_count (S (message_count st)) st, [], Break rest).
Proof. intros H. simpl. rewrite H. reflexivity. Qed.

Lemma loop_cons_running m rest st :
  halt_event_stream st = false ->
  loop (m :: rest) st
  = let '(st2, ev) :=
      on_message m (set_message_count (S (message_count st)) st) in
    let '(st3, ev', ex) := loop rest st2 in
    (st3, ev ++ ev', ex).
Proof. intros H. simpl. rewrite H. reflexivity. Qed.

(** The loop over a concatenation: the second part is read only when the
    first part was read to its end. *)
Lemma loop_app a b st :
  loop (a ++ b) st
  = let '(st1, ev1, ex1) := loop a st in
    match ex1 with
    | ReachedEnd =>
        let '(st2, ev2, ex2) := loop b st1 in (st2, ev1 ++ ev2, ex2)
    | Break u => (st1, ev1, Break (u ++ b))
    end.
Proof.
  revert st. induction a as [|m a IH]; intros st.
  - simpl. destruct (loop b st) as [[st2 ev2] ex2]. reflexivity.
  - cbn [app]. destruct (halt_event_stream st) eqn:Hh.
    + rewrite !loop_cons_halted by assumption. reflexivity.
    + rewrite !loop_cons_running by assumption.
      destruct (on_message m _) as [st2 ev].
      rewrite IH. destruct (loop a st2) as [[st1 ev1] ex1].
      destruct ex1 as [|u]; [|reflexivity].
      destruct (loop b st1) as [[st3 ev3] ex3].
      rewrite app_assoc. reflexivity.
Qed.

(** ** Strings and event filters *)

Lemma append_nil_l (s : string) : "" +:+ s = s.
Proof. reflexivity. Qed.

Lemma append_cons c (s t : string) : String c s +:+ t = String c (s +:+ t).
Proof. reflexivity. Qed.

Lemma append_nil_r (s : string) : s +:+ "" = s.
Proof.
  induction s as [|c s IH]; [reflexivity|].
  rewrite append_cons, IH. reflexivity.
Qed.

Lemma append_assoc (a b c : string) : (a +:+ b) +:+ c = a +:+ (b +:+ c).
Proof.
  induction a as [|x a IH]; [reflexivity|].
  rewrite !append_cons, IH. reflexivity.
Qed.

Lemma of_type_app t a b : of_type t (a ++ b) = of_type t a ++ of_type t b.
Proof. apply List.filter_app. Qed.

Lemma of_type_none t evs :
  Forall (fun e => event_type e <> t) evs -> of_type t evs = [].
Proof.
  induction 1 as [|e evs He _ IH]; [reflexivity|].
  unfold of_type in *. simpl. rewrite bool_decide_eq_false_2 by assumption.
  exact IH.
Qed.

Lemma delta_events_of_type t evs :
  delta_event (StateSnapshotEvent JNull) = false ->
  (forall e, event_type e = t -> delta_event e = false) ->
  Forall (fun e => delta_event e = true) evs -> of_type t evs = [].
Proof.
  intros _ Ht H. apply of_type_none.
  induction H as [|e evs He _ IH]; constructor; [|exact IH].
  intros Heq. apply Ht in Heq. congruence.
Qed.

(** ** Content deltas keep the open tool call *)

Lemma same_frame_refl st : same_frame st st.
Proof. unfold same_frame. repeat split. Qed.

Lemma same_frame_trans a b c : same_frame a b -> same_frame b c -> same_frame a c.
Proof. unfold same_frame. intuition congruence. Qed.

Lemma same_frame_message_count k st : same_frame st (set_message_count k st).
Proof. unfold same_frame. repeat split. Qed.

Lemma on_delta_frame d st :
  let '(st', evs) := on_message (StreamEvent (content_block_delta d)) st in
  same_frame st st'
  /\ accumulated_tool_json st'
     = accumulated_tool_json st +:+
       (if truthy_ostr (current_tool_call_id st) then partial_jsons [d] else "")
  /\ Forall (fun e => delta_event e = true) evs.
Proof.
  assert (Hnil : forall (b : bool) s, s = s +:+ (if b then "" else "")).
  { intros [] s; rewrite append_nil_r; reflexivity. }
  destruct d as [t|t|j|]; simpl.
  - unfold on_text_delta.
    destruct (current_message_id st) as [mid|] eqn:Hm;
      [destruct (truthy_str t && truthy_str mid)|];
      [destruct (has_streamed_text st); destruct (pending_msg st) as [p|] eqn:Hp|..];
      simpl; rewrite ?Hp; simpl;
      (split; [unfold same_frame; simpl; repeat split; congruence|]);
      (split; [apply Hnil|]); repeat constructor.
  - unfold on_thinking_delta. destruct (truthy_str t); simpl;
      (split; [unfold same_frame; simpl; repeat split|]);
      (split; [apply Hnil|]); repeat constructor.
  - unfold on_input_json_delta. rewrite append_nil_r.
    destruct (current_tool_call_id st) as [id|] eqn:Hid; simpl.
    + destruct (truthy_str j) eqn:Hj; destruct (truthy_str id) eqn:Hi; simpl;
        (split; [unfold same_frame; simpl; repeat split; congruence|]);
        (split; [|repeat constructor]);
        rewrite ?append_nil_r; try reflexivity.
      unfold truthy_str in Hj. apply negb_false_iff, String.eqb_eq in Hj.
      subst j. rewrite append_nil_r. reflexivity.
    + split; [apply same_frame_refl|]. rewrite append_nil_r.
      split; [reflexivity|constructor].
  - split; [apply same_frame_refl|]. split; [apply Hnil|constructor].
Qed.

Lemma loop_deltas args st :
  halt_event_stream st = false ->
  exists st' evs,
    loop (delta_msgs args) st = (st', evs, ReachedEnd)
    /\ same_frame st st'
    /\ accumulated_tool_json st'
       = accumulated_tool_json st +:+
         (if truthy_ostr (current_tool_call_id st) then partial_jsons args
          else "")
    /\ Forall (fun e => delta_event e = true) evs.
Proof.
  revert st. induction args as [|d args IH]; intros st Hh.
  - exists st, []. simpl. split; [reflexivity|].
    split; [apply same_frame_refl|]. split; [|constructor].
    destruct (truthy_ostr _); rewrite append_nil_r; reflexivity.
  - unfold delta_msgs. cbn [map]. fold (delta_msgs args).
    rewrite loop_cons_running by assumption.
    pose proof (on_delta_frame d (set_message_count (S (message_count st)) st))
      as Hd.
    destruct (on_message _ _) as [st2 ev].
    destruct Hd as (Hf & Hacc & Hev).
    destruct (IH st2) as (st' & evs & Hl & Hf' & Hacc' & Hev').
    { destruct Hf as (_ & _ & _ & _ & _ & -> & _). exact Hh. }
    exists st', (ev ++ evs). rewrite Hl.
    split; [reflexivity|]. split.
    { eapply same_frame_trans; [apply same_frame_message_count|].
      eapply same_frame_trans; eassumption. }
    split; [|apply Forall_app; split; assumption].
    rewrite Hacc', Hacc.
    assert (Hid : current_tool_call_id st2 = current_tool_call_id st).
    { destruct Hf as (_ & _ & -> & _). reflexivity. }
    rewrite Hid. simpl.
    destruct (truthy_ostr (current_tool_call_id st)).
    + rewrite append_assoc. f_equal.
      destruct d; simpl; rewrite ?append_nil_r; reflexivity.
    + rewrite !append_nil_r. reflexivity.
Qed.


(** ** Opening and closing a tool call *)

Lemma on_tool_use_start_spec id name st :
  truthy_str id = true ->
  exists st',
    on_message
      (StreamEvent (content_block_start (tool_use_start (Some id) (Some name))))
      st
    = (st', [ToolCallStartEvent tid rid id (strip_mcp_prefix name)
               (current_message_id st)])
    /\ current_tool_call_id st' = Some id
    /\ current_tool_call_name st' = Some name
    /\ current_tool_display_name st' = Some (strip_mcp_prefix name)
    /\ accumulated_tool_json st' = ""
    /\ halt_event_stream st' = halt_event_stream st
    /\ in_thinking_block st' = in_thinking_block st
    /\ current_message_id st' = current_message_id st
    /\ has_streamed_text st' = has_streamed_text st
    /\ self_current_state st' = self_current_state st
    /\ pending_msg st' = pending_msg st
    /\ run_messages st' = run_messages st
    /\ uuid_next st' = uuid_next st.
Proof.
  intros Hid. eexists. simpl. rewrite Hid. simpl.
  split; [reflexivity|]. repeat split.
Qed.

(** What closing a thinking block changes. *)
Lemma close_thinking_spec st :
  let '(st1, ev) := close_thinking st in
  current_tool_call_id st1 = current_tool_call_id st
  /\ current_tool_call_name st1 = current_tool_call_name st
  /\ current_tool_display_name st1 = current_tool_display_name st
  /\ accumulated_tool_json st1 = accumulated_tool_json st
  /\ halt_event_stream st1 = halt_event_stream st
  /\ current_message_id st1 = current_message_id st
  /\ has_streamed_text st1 = has_streamed_text st
  /\ self_current_state st1 = self_current_state st
  /\ pending_msg st1 = pending_msg st
  /\ in_thinking_block st1 = false
  /\ ev = (if in_thinking_block st
           then [ThinkingTextMessageEndEvent; ThinkingEndEvent] else []).
Proof.
  unfold close_thinking. destruct (in_thinking_block st) eqn:Hth.
  - simpl. destruct (truthy_str (accumulated_thinking_text st)); simpl;
      repeat split.
  - rewrite Hth. repeat split.
Qed.

(** What the interception of the state tool changes. *)
Lemma intercept_state_spec st :
  let '(st2, ev) := intercept_state st in
  current_tool_call_id st2 = current_tool_call_id st
  /\ current_tool_call_name st2 = current_tool_call_name st
  /\ current_tool_display_name st2 = current_tool_display_name st
  /\ accumulated_tool_json st2 = accumulated_tool_json st
  /\ halt_event_stream st2 = halt_event_stream st
  /\ current_message_id st2 = current_message_id st
  /\ has_streamed_text st2 = has_streamed_text st
  /\ pending_msg st2 = pending_msg st
  /\ in_thinking_block st2 = in_thinking_block st
  /\ run_messages st2 = run_messages st
  /\ (if is_state_tool (current_tool_call_name st) then
        match parse_state_updates (accumulated_tool_json st) with
        | SU_updates updates =>
            self_current_state st2
            = merge_state (self_current_state st) updates
            /\ ev = [StateSnapshotEvent
                       (merge_state (self_current_state st) updates)]
        | _ => self_current_state st2 = self_current_state st /\ ev = []
        end
      else self_current_state st2 = self_current_state st /\ ev = []).
Proof.
  unfold intercept_state.
  destruct (is_state_tool (current_tool_call_name st)).
  - destruct (parse_state_updates (accumulated_tool_json st)); simpl;
      repeat split.
  - repeat split.
Qed.

Lemma push_tool_call_spec id st :
  current_tool_call_id (push_tool_call id st) = current_tool_call_id st
  /\ current_tool_call_name (push_tool_call id st) = current_tool_call_name st
  /\ current_tool_display_name (push_tool_call id st)
     = current_tool_display_name st
  /\ halt_event_stream (push_tool_call id st) = halt_event_stream st
  /\ current_message_id (push_tool_call id st) = current_message_id st
  /\ has_streamed_text (push_tool_call id st) = has_streamed_text st
  /\ self_current_state (push_tool_call id st) = self_current_state st
  /\ in_thinking_block (push_tool_call id st) = in_thinking_block st
  /\ run_messages (push_tool_call id st) = run_messages st.
Proof.
  unfold push_tool_call.
  destruct (pending_msg st) as [p|]; [|repeat split].
  destruct (current_tool_display_name st) as [d|] eqn:Hd;
    [|repeat split; assumption].
  destruct (truthy_str d && _); simpl; repeat split; assumption.
Qed.

Lemma flush_pending_msg_spec st :
  current_tool_call_id (flush_pending_msg st) = current_tool_call_id st
  /\ current_tool_call_name (flush_pending_msg st) = current_tool_call_name st
  /\ current_tool_display_name (flush_pending_msg st)
     = current_tool_display_name st
  /\ halt_event_stream (flush_pending_msg st) = halt_event_stream st
  /\ current_message_id (flush_pending_msg st) = current_message_id st
  /\ has_streamed_text (flush_pending_msg st) = has_streamed_text st
  /\ self_current_state (flush_pending_msg st) = self_current_state st
  /\ in_thinking_block (flush_pending_msg st) = in_thinking_block st
  /\ uuid_next (flush_pending_msg st) = uuid_next st
  /\ tool_name_by_id (flush_pending_msg st) = tool_name_by_id st
  /\ pending_msg (flush_pending_msg st) = None.
Proof.
  unfold flush_pending_msg.
  destruct (pending_msg st) as [p|] eqn:Hp; [|repeat split; assumption].
  destruct (truthy_str (p_content p) || _); simpl; repeat split.
Qed.


Lemma loop_step m rest st st2 ev :
  halt_event_stream st = false ->
  on_message m (set_message_count (S (message_count st)) st) = (st2, ev) ->
  loop (m :: rest) st
  = let '(st3, ev', ex) := loop rest st2 in (st3, ev ++ ev', ex).
Proof. intros Hh Hm. rewrite loop_cons_running by assumption. rewrite Hm. reflexivity. Qed.

Lemma loop_after_halt rest st :
  halt_event_stream st = true ->
  exists k,
    loop rest st
    = (set_message_count k st, [],
       match rest with [] => ReachedEnd | _ :: r => Break r end).
Proof.
  intros Hh. destruct rest as [|m r].
  - exists (message_count st). destruct st; reflexivity.
  - exists (S (message_count st)). apply loop_cons_halted, Hh.
Qed.

Lemma stream_from_unfold st msgs e st1 ev ex st2 evc :
  loop msgs st = (st1, ev, ex) ->
  cleanup st1 = (st2, evc) ->
  stream_from st (msgs, e)
  = (ev ++ evc ++ messages_snapshot st2, st2, stream_error_of ex e).
Proof.
  intros Hl Hc. unfold stream_from. cbn [fst snd]. rewrite Hl, Hc. reflexivity.
Qed.

(** A stream that is exhausted lets the translator finish without an
    exception. *)
Lemma stream_from_exhausted st msgs :
  snd (stream_from st (msgs, Exhausted)) = None.
Proof.
  unfold stream_from. cbn [fst snd].
  destruct (loop msgs st) as [[st1 ev1] ex].
  destruct (cleanup st1) as [st2 evc]. destruct ex; reflexivity.
Qed.

(** The number of items read does not matter to the [finally] block. *)
Lemma cleanup_message_count k st :
  cleanup (set_message_count k st)
  = (set_message_count k (fst (cleanup st)), snd (cleanup st)).
Proof.
  destruct st as [cm th hs tci tcn tdn atj pti tnb halt rm pm att mc scs lrd un].
  unfold cleanup, flush_pending_msg, upsert. simpl.
  destruct (truthy_ostr tci); destruct th; simpl;
    destruct pm as [p|]; simpl; try reflexivity;
    destruct (truthy_str (p_content p) || _); reflexivity.
Qed.

Lemma messages_snapshot_message_count k st :
  messages_snapshot (set_message_count k st) = messages_snapshot st.
Proof. reflexivity. Qed.

(** Closing the block of a frontend tool: the tool call is ended, an open
    text message is ended, and the run is halted with the tool call still
    recorded as the current one. *)
Lemma content_block_stop_frontend st id display :
  current_tool_call_id st = Some id ->
  truthy_str id = true ->
  current_tool_display_name st = Some display ->
  display ∈ frontend_tool_names ->
  exists st' before text_end,
    on_content_block_stop st
    = (st', before ++ [ToolCallEndEvent tid rid id] ++ text_end)
    /\ halt_event_stream st' = true
    /\ current_tool_call_id st' = Some id
    /\ in_thinking_block st' = false
    /\ has_streamed_text st' && truthy_ostr (current_message_id st') = false
    /\ pending_msg st' = None
    /\ (text_end = [] \/ exists m, text_end = [TextMessageEndEvent tid rid m]).
Proof.
  intros Hid Ht Hd Hin. unfold on_content_block_stop.
  pose proof (close_thinking_spec st) as H1.
  destruct (close_thinking st) as [st1 ev_think].
  destruct H1 as (E1 & _ & E3 & _ & _ & _ & _ & _ & _ & E10 & _).
  rewrite E1, Hid, Ht.
  pose proof (intercept_state_spec st1) as H2.
  destruct (intercept_state st1) as [st2 ev_state].
  destruct H2 as (F1 & _ & F3 & _ & _ & _ & _ & _ & F9 & _).
  pose proof (push_tool_call_spec id st2) as (G1 & _ & G3 & _ & _ & _ & _ & G8 & _).
  pose proof (flush_pending_msg_spec (push_tool_call id st2))
    as (K1 & _ & _ & _ & K5 & K6 & _ & K8 & _ & _ & K11).
  unfold in_frontend_tools. rewrite G3, F3, E3, Hd.
  rewrite bool_decide_eq_true_2 by assumption.
  set (st4 := flush_pending_msg (push_tool_call id st2)) in *.
  destruct (truthy_ostr (current_message_id st4) && has_streamed_text st4)
    eqn:Hopen.
  - eexists _, (ev_think ++ ev_state), _. split.
    { rewrite <- app_assoc. reflexivity. }
    simpl. rewrite K1, G1, F1, E1, K8, G8, F9, E10, K11.
    repeat split; try assumption. { apply andb_false_r. }
    right. eexists. reflexivity.
  - eexists _, (ev_think ++ ev_state), _. split.
    { rewrite <- app_assoc. reflexivity. }
    simpl. rewrite K1, G1, F1, E1, K8, G8, F9, E10, K11.
    repeat split; try assumption. { rewrite andb_comm. exact Hopen. }
    left. reflexivity.
Qed.

(** The [finally] block after a halt: the tool call is ended once more. *)
Lemma cleanup_after_halt st id :
  current_tool_call_id st = Some id ->
  truthy_str id = true ->
  in_thinking_block st = false ->
  has_streamed_text st && truthy_ostr (current_message_id st) = false ->
  pending_msg st = None ->
  cleanup st = (set_current_tool_call_id None st, [ToolCallEndEvent tid rid id]).
Proof.
  destruct st as [cm th hs tci tcn tdn atj pti tnb halt rm pm att mc scs lrd un].
  simpl. intros -> Ht -> Htext ->.
  unfold cleanup, flush_pending_msg. simpl. rewrite Ht. simpl.
  rewrite Htext. reflexivity.
Qed.


(** A tool call delivered in chunks, up to its last delta. *)
Lemma loop_tool_use_open id name args st :
  halt_event_stream st = false ->
  truthy_str id = true ->
  exists st' evs,
    loop (tool_use_open id name args) st
    = (st',
       ToolCallStartEvent tid rid id (strip_mcp_prefix name)
         (current_message_id st) :: evs,
       ReachedEnd)
    /\ current_tool_call_id st' = Some id
    /\ current_tool_call_name st' = Some name
    /\ current_tool_display_name st' = Some (strip_mcp_prefix name)
    /\ accumulated_tool_json st' = partial_jsons args
    /\ halt_event_stream st' = false
    /\ in_thinking_block st' = in_thinking_block st
    /\ current_message_id st' = current_message_id st
    /\ self_current_state st' = self_current_state st
    /\ Forall (fun e => delta_event e = true) evs.
Proof.
  intros Hh Hid. unfold tool_use_open.
  destruct (on_tool_use_start_spec id name
              (set_message_count (S (message_count st)) st) Hid)
    as (st2 & Hstart & A1 & A2 & A3 & A4 & A5 & A6 & A7 & _ & A9 & _).
  rewrite (loop_step _ _ _ _ _ Hh Hstart).
  destruct (loop_deltas args st2) as (st3 & evs & Hl & Hf & Hacc & Hev).
  { rewrite A5. exact Hh. }
  rewrite Hl. exists st3, evs.
  destruct Hf as (B1 & B2 & B3 & B4 & B5 & B6 & _ & B8 & _).
  split; [reflexivity|].
  rewrite B3, B4, B5, B6, B2, B1, B8, Hacc, A1, A2, A3, A4, A5, A6, A7, A9.
  simpl. rewrite Hid. repeat split; assumption.
Qed.

(** X25. A tool call delivered in chunks whose id is not empty and whose
    display name is a declared frontend tool halts the run when its block
    closes: after its tool-call-end the translator yields only the end of
    an open text message, the tool-call-end once more (the [finally] block
    finds [current_tool_call_id] still set, since the halting branch does
    not reset it), and the messages snapshot; whatever follows the block in
    the stream is not translated. *)
Theorem frontend_tool_halts pre id name args cur lrd n st1 ev1 :
  loop pre (initial_state cur lrd n) = (st1, ev1, ReachedEnd) ->
  halt_event_stream st1 = false ->
  truthy_str id = true ->
  strip_mcp_prefix name ∈ frontend_tool_names ->
  exists before text_end snapshot,
    (text_end = [] \/ exists m, text_end = [TextMessageEndEvent tid rid m])
    /\ (snapshot = [] \/ exists msgs, snapshot = [MessagesSnapshotEvent msgs])
    /\ forall rest e, exists st',
         _stream_claude_sdk (pre ++ tool_use_block id name args ++ rest, e)
           cur lrd n
         = (before ++ [ToolCallEndEvent tid rid id] ++ text_end
              ++ [ToolCallEndEvent tid rid id] ++ snapshot,
            st',
            stream_error_of
              match rest with [] => ReachedEnd | _ :: r => Break r end e)
         /\ halt_event_stream st' = true
         /\ snapshot = messages_snapshot st'.
Proof.
  intros Hpre Hh Hid Hfront.
  destruct (loop_tool_use_open id name args st1 Hh Hid)
    as (st2 & evs & Hopen & A1 & _ & A3 & _ & A5 & _).
  destruct (content_block_stop_frontend
              (set_message_count (S (message_count st2)) st2) id
              (strip_mcp_prefix name) A1 Hid A3 Hfront)
    as (st3 & before & text_end & Hstop & B1 & B2 & B3 & B4 & B5 & B6).
  exists (ev1 ++ ToolCallStartEvent tid rid id (strip_mcp_prefix name)
                   (current_message_id st1) :: evs ++ before),
    text_end, (messages_snapshot st3).
  split; [exact B6|]. split.
  { unfold messages_snapshot.
    destruct (run_messages st3); [left; reflexivity|right; eexists; reflexivity]. }
  intros rest e.
  destruct (loop_after_halt rest st3 B1) as (k & Hrest).
  exists (set_current_tool_call_id None (set_message_count k st3)).
  split; [|split; [exact B1|reflexivity]].
  unfold _stream_claude_sdk.
  eapply eq_trans.
  { eapply stream_from_unfold.
    - rewrite loop_app, Hpre. unfold tool_use_block.
      rewrite <- app_assoc, loop_app, Hopen.
      cbn [app].
      rewrite (loop_step (StreamEvent content_block_stop) rest _ _ _ A5 Hstop).
      rewrite Hrest. reflexivity.
    - rewrite cleanup_message_count.
      rewrite (cleanup_after_halt st3 id B2 Hid B3 B4 B5). reflexivity. }
  f_equal. f_equal.
  rewrite app_nil_r. rewrite <- !app_assoc. cbn [app].
  rewrite <- !app_assoc. reflexivity.
Qed.


(** ** The [finally] block *)

Lemma cleanup_spec st :
  let '(st', evs) := cleanup st in
  evs
  = (if truthy_ostr (current_tool_call_id st)
     then [ToolCallEndEvent tid rid (default "" (current_tool_call_id st))]
     else [])
    ++ (if in_thinking_block st
        then [ThinkingTextMessageEndEvent; ThinkingEndEvent] else [])
    ++ (if has_streamed_text st && truthy_ostr (current_message_id st)
        then [TextMessageEndEvent tid rid (default "" (current_message_id st))]
        else [])
  /\ (truthy_ostr (current_tool_call_id st) = true ->
      current_tool_call_id st' = None)
  /\ in_thinking_block st' = false
  /\ pending_msg st' = None
  /\ has_streamed_text st' = has_streamed_text st
  /\ halt_event_stream st' = halt_event_stream st
  /\ self_current_state st' = self_current_state st
  /\ run_messages st' = run_messages (flush_pending_msg st).
Proof.
  destruct st as [cm th hs tci tcn tdn atj pti tnb halt rm pm att mc scs lrd un].
  unfold cleanup, flush_pending_msg, upsert. simpl.
  destruct (truthy_ostr tci); destruct th; simpl;
    destruct pm as [p|]; simpl;
    try destruct (truthy_str (p_content p) || _); simpl;
    repeat split; intros; try discriminate; reflexivity.
Qed.

(** X24. When the stream ends or raises while a tool call delivered in
    chunks is still open, the [finally] block yields the tool-call-end of
    that call first, then the end of an open thinking block, then the end
    of an open text message, and flushes the pending message; the
    exception, if any, is raised afterwards. *)
Theorem open_tool_call_closed_by_cleanup pre id name args e cur lrd n st1 ev1 :
  loop pre (initial_state cur lrd n) = (st1, ev1, ReachedEnd) ->
  halt_event_stream st1 = false ->
  truthy_str id = true ->
  exists ev_args st2 st',
    loop (pre ++ tool_use_open id name args) (initial_state cur lrd n)
    = (st2,
       ev1 ++ ToolCallStartEvent tid rid id (strip_mcp_prefix name)
                (current_message_id st1) :: ev_args,
       ReachedEnd)
    /\ Forall (fun ev => delta_event ev = true) ev_args
    /\ _stream_claude_sdk (pre ++ tool_use_open id name args, e) cur lrd n
       = ((ev1 ++ ToolCallStartEvent tid rid id (strip_mcp_prefix name)
                    (current_message_id st1) :: ev_args)
          ++ [ToolCallEndEvent tid rid id]
          ++ (if in_thinking_block st1
              then [ThinkingTextMessageEndEvent; ThinkingEndEvent] else [])
          ++ (if has_streamed_text st2 && truthy_ostr (current_message_id st1)
              then [TextMessageEndEvent tid rid
                      (default "" (current_message_id st1))]
              else [])
          ++ messages_snapshot st',
          st',
          match e with Raises exc => Some exc | Exhausted => None end)
    /\ current_tool_call_id st' = None
    /\ pending_msg st' = None
    /\ run_messages st' = run_messages (flush_pending_msg st2).
Proof.
  intros Hpre Hh Hid.
  destruct (loop_tool_use_open id name args st1 Hh Hid)
    as (st2 & evs & Hopen & A1 & _ & _ & _ & _ & A6 & A7 & _ & Hev).
  pose proof (cleanup_spec st2) as Hc.
  destruct (cleanup st2) as [st' evc] eqn:Hcl.
  destruct Hc as (C1 & C2 & _ & C4 & _ & _ & _ & C8).
  assert (Hloop : loop (pre ++ tool_use_open id name args)
                    (initial_state cur lrd n)
                  = (st2, ev1 ++ ToolCallStartEvent tid rid id
                                   (strip_mcp_prefix name)
                                   (current_message_id st1) :: evs,
                     ReachedEnd)).
  { rewrite loop_app, Hpre, Hopen. reflexivity. }
  exists evs, st2, st'. split; [exact Hloop|]. split; [exact Hev|].
  rewrite A1, A6, A7 in C1. simpl in C1. rewrite Hid in C1.
  split.
  { unfold _stream_claude_sdk.
    rewrite (stream_from_unfold _ _ e _ _ _ _ _ Hloop Hcl).
    rewrite C1. rewrite <- !app_assoc. destruct e; reflexivity. }
  split; [|split; assumption].
  apply C2. rewrite A1. exact Hid.
Qed.


(** ** The state management tool *)

Lemma state_tool_display name :
  _is_state_management_tool name = true ->
  strip_mcp_prefix name = STATE_MANAGEMENT_TOOL_NAME.
Proof.
  unfold _is_state_management_tool. intros H.
  apply orb_true_iff in H as [H|H]; apply String.eqb_eq in H; subst name;
    reflexivity.
Qed.

(** Closing the block of the state management tool. *)
Lemma content_block_stop_state_tool st id name :
  current_tool_call_id st = Some id ->
  truthy_str id = true ->
  current_tool_call_name st = Some name ->
  _is_state_management_tool name = true ->
  let '(st', evs) := on_content_block_stop st in
  match parse_state_updates (accumulated_tool_json st) with
  | SU_updates updates =>
      self_current_state st' = merge_state (self_current_state st) updates
      /\ of_type STATE_SNAPSHOT evs
         = [StateSnapshotEvent (merge_state (self_current_state st) updates)]
  | _ =>
      self_current_state st' = self_current_state st
      /\ of_type STATE_SNAPSHOT evs = []
  end
  /\ of_type TOOL_CALL_RESULT evs = []
  /\ (in_frontend_tools (current_tool_display_name st) = false ->
      halt_event_stream st' = halt_event_stream st).
Proof.
  intros Hid Ht Hname Hstate. unfold on_content_block_stop.
  pose proof (close_thinking_spec st) as H1.
  destruct (close_thinking st) as [st1 ev_think].
  destruct H1 as (E1 & E2 & E3 & E4 & E5 & _ & _ & E8 & _ & _ & E11).
  rewrite E1, Hid, Ht.
  pose proof (intercept_state_spec st1) as H2.
  destruct (intercept_state st1) as [st2 ev_state].
  destruct H2 as (_ & _ & F3 & _ & F5 & _ & _ & _ & _ & _ & F11).
  rewrite E2, Hname in F11. cbn [is_state_tool] in F11.
  rewrite Hstate, E4, E8 in F11.
  pose proof (push_tool_call_spec id st2) as (_ & _ & G3 & G4 & _ & _ & G7 & _).
  pose proof (flush_pending_msg_spec (push_tool_call id st2))
    as (_ & _ & _ & K4 & _ & _ & K7 & _).
  rewrite G3, F3, E3.
  assert (Hth : of_type STATE_SNAPSHOT ev_think = []
                /\ of_type TOOL_CALL_RESULT ev_think = []).
  { subst ev_think. destruct (in_thinking_block st); split; reflexivity. }
  destruct Hth as [Hth1 Hth2].
  destruct (in_frontend_tools (current_tool_display_name st)) eqn:Hfront.
  - set (st4 := flush_pending_msg (push_tool_call id st2)) in *.
    rewrite !of_type_app, Hth1, Hth2.
    destruct (truthy_ostr (current_message_id st4) && has_streamed_text st4);
      cbn [self_current_state set_halt_event_stream set_current_message_id];
      rewrite K7, G7;
      (split; [|split; [|discriminate]]).
    all: destruct (parse_state_updates (accumulated_tool_json st));
      destruct F11 as [Fa Fb]; rewrite ?Fa, ?Fb;
      try (split; reflexivity); reflexivity.
  - rewrite !of_type_app, Hth1, Hth2. simpl. rewrite G7.
    split; [|split].
    + destruct (parse_state_updates (accumulated_tool_json st));
        destruct F11 as [Fa Fb]; rewrite ?Fa, ?Fb; split; reflexivity.
    + destruct (parse_state_updates (accumulated_tool_json st));
        destruct F11 as [Fa Fb]; rewrite ?Fb; reflexivity.
    + intros _. rewrite G4, F5, E5. reflexivity.
Qed.

(** A whole state-tool call delivered in chunks. *)
Lemma loop_state_tool_block id name args st :
  halt_event_stream st = false ->
  truthy_str id = true ->
  _is_state_management_tool name = true ->
  exists st' evs,
    loop (tool_use_block id name args) st = (st', evs, ReachedEnd)
    /\ match parse_state_updates (partial_jsons args) with
       | SU_updates updates =>
           self_current_state st'
           = merge_state (self_current_state st) updates
           /\ of_type STATE_SNAPSHOT evs
              = [StateSnapshotEvent
                   (merge_state (self_current_state st) updates)]
       | _ =>
           self_current_state st' = self_current_state st
           /\ of_type STATE_SNAPSHOT evs = []
       end
    /\ of_type TOOL_CALL_RESULT evs = []
    /\ (STATE_MANAGEMENT_TOOL_NAME ∉ frontend_tool_names ->
        halt_event_stream st' = false).
Proof.
  intros Hh Hid Hstate.
  destruct (loop_tool_use_open id name args st Hh Hid)
    as (st2 & evs & Hopen & A1 & A2 & A3 & A4 & A5 & _ & _ & A8 & Hev).
  pose proof (content_block_stop_state_tool
                (set_message_count (S (message_count st2)) st2) id name
                A1 Hid A2 Hstate) as Hstop.
  destruct (on_content_block_stop _) as [st3 ev3] eqn:Hs.
  cbn [accumulated_tool_json self_current_state current_tool_display_name
       halt_event_stream set_message_count] in Hstop.
  rewrite A4, A8, A3, A5 in Hstop.
  destruct Hstop as (S1 & S2 & S3).
  exists st3, (ToolCallStartEvent tid rid id (strip_mcp_prefix name)
                 (current_message_id st) :: evs ++ ev3).
  split.
  { unfold tool_use_block. rewrite loop_app, Hopen.
    rewrite (loop_step (StreamEvent content_block_stop) [] _ _ _ A5 Hs).
    rewrite loop_nil, app_nil_r. reflexivity. }
  assert (D1 : of_type STATE_SNAPSHOT evs = []).
  { eapply delta_events_of_type; [reflexivity| |exact Hev].
    intros e He. unfold delta_event. rewrite He. reflexivity. }
  assert (D2 : of_type TOOL_CALL_RESULT evs = []).
  { eapply delta_events_of_type; [reflexivity| |exact Hev].
    intros e He. unfold delta_event. rewrite He. reflexivity. }
  change (ToolCallStartEvent tid rid id (strip_mcp_prefix name)
            (current_message_id st) :: evs ++ ev3)
    with ([ToolCallStartEvent tid rid id (strip_mcp_prefix name)
             (current_message_id st)] ++ evs ++ ev3).
  rewrite !of_type_app, D1, D2. cbn [of_type List.filter event_type app].
  rewrite !bool_decide_eq_false_2 by discriminate. cbn [app].
  split; [exact S1|]. split; [exact S2|].
  intros Hnot. apply S3. cbn [in_frontend_tools].
  rewrite (state_tool_display name Hstate).
  apply bool_decide_eq_false_2. exact Hnot.
Qed.

(** X26. When the arguments of a state-tool call delivered in chunks parse
    to a dictionary of updates and the current state is a dictionary, the
    new state is their shallow merge (a key of the updates takes the
    update's value, any other key keeps the value it had), and the items of
    the call, from the start of its block to its close, yield exactly one
    state snapshot, carrying the merged state, and no tool-call-result. *)
Theorem state_update_merged id name args st s u :
  halt_event_stream st = false ->
  truthy_str id = true ->
  _is_state_management_tool name = true ->
  self_current_state st = JObj s ->
  parse_state_updates (partial_jsons args) = SU_updates (JObj u) ->
  exists st' evs,
    loop (tool_use_block id name args) st = (st', evs, ReachedEnd)
    /\ self_current_state st' = JObj (dict_merge s u)
    /\ of_type STATE_SNAPSHOT evs = [StateSnapshotEvent (JObj (dict_merge s u))]
    /\ of_type TOOL_CALL_RESULT evs = []
    /\ forall k,
         dict_merge s u !! k
         = match u !! k with
           | Some v => Some v
           | None => s !! k
           end.
Proof.
  intros Hh Hid Hstate Hs Hparse.
  destruct (loop_state_tool_block id name args st Hh Hid Hstate)
    as (st' & evs & Hl & Hm & Hr & _).
  rewrite Hparse, Hs in Hm. cbn [merge_state] in Hm. destruct Hm as [M1 M2].
  exists st', evs. repeat split; try assumption.
  intros k. unfold dict_merge. rewrite lookup_union.
  destruct (u !! k), (s !! k); reflexivity.
Qed.


Lemma merge_state_empty cur :
  merge_state cur (JObj ∅)
  = match cur with JObj c => JObj c | _ => JObj ∅ end.
Proof.
  destruct cur; try reflexivity. simpl. unfold dict_merge.
  rewrite (left_id_L ∅ (∪)). reflexivity.
Qed.

(** The fallback path: a state-tool call inside a complete message. *)
Lemma on_tool_use_block_state_malformed id name input parent text st :
  truthy_ostr id && bool_decide (default "" id ∈ processed_tool_ids st) = false ->
  _is_state_management_tool (or_ostr name "unknown") = true ->
  input !! "state_updates" = Some (JStr text) ->
  json_loads text = None ->
  exists st',
    on_tool_use_block id name input parent st
    = (st', [StateSnapshotEvent
               match self_current_state st with
               | JObj c => JObj c
               | _ => JObj ∅
               end])
    /\ self_current_state st' = self_current_state st.
Proof.
  intros Hseen Hstate Hin Hbad. unfold on_tool_use_block. rewrite Hseen.
  unfold handle_tool_use_block, event_gen. rewrite Hstate.
  unfold state_updates_of_input. rewrite Hin.
  cbn [from_option Datatypes.id]. rewrite Hbad.
  rewrite <- merge_state_empty.
  destruct (truthy_ostr id); cbn [self_current_state set_tool_name_by_id snd];
    destruct (self_current_state st) eqn:Hs;
    eexists; (split; [reflexivity|]); simpl; congruence.
Qed.

Lemma fallback_state_tool_malformed id name input parent text st :
  truthy_ostr id && bool_decide (default "" id ∈ processed_tool_ids st) = false ->
  _is_state_management_tool (or_ostr name "unknown") = true ->
  input !! "state_updates" = Some (JStr text) ->
  json_loads text = None ->
  let '(st', evs) :=
    on_message (AssistantMessage [ToolUseBlock id name input] parent) st in
  self_current_state st' = self_current_state st
  /\ evs = [StateSnapshotEvent
              match self_current_state st with
              | JObj c => JObj c
              | _ => JObj ∅
              end].
Proof.
  intros Hseen Hstate Hin Hbad.
  unfold on_message. unfold on_assistant_message.
  set (p := if truthy_ostr (current_message_id st) then _ else _).
  assert (Hp : processed_tool_ids (snd p) = processed_tool_ids st
               /\ self_current_state (snd p) = self_current_state st).
  { subst p. destruct (truthy_ostr (current_message_id st)); split; reflexivity. }
  destruct p as [msg_id st1]. cbn [snd] in Hp. destruct Hp as [P1 P2].
  set (st2 := match build_agui_assistant_message _ _ with
              | Some m => upsert m st1
              | None => st1
              end).
  assert (Hq : processed_tool_ids st2 = processed_tool_ids st
               /\ self_current_state st2 = self_current_state st).
  { subst st2. destruct (build_agui_assistant_message _ _); split; assumption. }
  destruct Hq as [Q1 Q2]. cbn [on_blocks].
  destruct (on_tool_use_block_state_malformed id name input parent text st2)
    as (st' & Hb & Hs); try assumption.
  { rewrite Q1. exact Hseen. }
  rewrite Hb, Q2, app_nil_r. split; [congruence|reflexivity].
Qed.

(** C8 (as amended). A state-tool call whose argument text is not JSON:
    on the chunked path the state is kept, no state snapshot is yielded
    for the call and the stream goes on without an exception; on the
    fallback path (a [state_updates] string that is not JSON inside a
    complete message) the adapter's state is kept as well, and one state
    snapshot is yielded, carrying the previous state when it is a
    dictionary and the empty dictionary otherwise. *)
Theorem malformed_state_update
    id name args st idf namef input parent text stf :
  halt_event_stream st = false ->
  truthy_str id = true ->
  _is_state_management_tool name = true ->
  json_loads (partial_jsons args) = None ->
  truthy_ostr idf && bool_decide (default "" idf ∈ processed_tool_ids stf)
  = false ->
  _is_state_management_tool (or_ostr namef "unknown") = true ->
  input !! "state_updates" = Some (JStr text) ->
  json_loads text = None ->
  (exists st' evs,
     loop (tool_use_block id name args) st = (st', evs, ReachedEnd)
     /\ self_current_state st' = self_current_state st
     /\ of_type STATE_SNAPSHOT evs = []
     /\ (STATE_MANAGEMENT_TOOL_NAME ∉ frontend_tool_names ->
         halt_event_stream st' = false)
     /\ forall rest,
          snd (stream_from st (tool_use_block id name args ++ rest, Exhausted))
          = None)
  /\ (let '(st', evs) :=
        on_message (AssistantMessage [ToolUseBlock idf namef input] parent) stf
      in
      self_current_state st' = self_current_state stf
      /\ evs = [StateSnapshotEvent
                  match self_current_state stf with
                  | JObj c => JObj c
                  | _ => JObj ∅
                  end]).
Proof.
  intros Hh Hid Hstate Hbad Hseen Hstatef Hin Hbadf. split.
  - destruct (loop_state_tool_block id name args st Hh Hid Hstate)
      as (st' & evs & Hl & Hm & _ & Hhalt).
    unfold parse_state_updates in Hm. rewrite Hbad in Hm.
    destruct Hm as [M1 M2].
    exists st', evs. repeat split; try assumption.
    intros rest. apply stream_from_exhausted.
  - apply (fallback_state_tool_malformed idf namef input parent text stf);
      assumption.
Qed.


(** ** After a halt *)

(** C6 (as amended). Once the halt flag is set, the loop fetches one more
    item of the stream and breaks: that item is not translated, the items
    after it are never read, and the translator yields what it would have
    yielded had the stream ended where the flag was set. *)
Theorem halted_stream_not_drained pre m rest e st st1 ev1 :
  loop pre st = (st1, ev1, ReachedEnd) ->
  halt_event_stream st1 = true ->
  loop (pre ++ m :: rest) st
  = (set_message_count (S (message_count st1)) st1, ev1, Break rest)
  /\ fst (fst (stream_from st (pre ++ m :: rest, e)))
     = fst (fst (stream_from st (pre, Exhausted))).
Proof.
  intros Hpre Hh.
  assert (Hl : loop (pre ++ m :: rest) st
               = (set_message_count (S (message_count st1)) st1, ev1,
                  Break rest)).
  { rewrite loop_app, Hpre, (loop_cons_halted _ _ _ Hh), app_nil_r.
    reflexivity. }
  split; [exact Hl|].
  destruct (cleanup st1) as [st2 evc] eqn:Hc.
  erewrite (stream_from_unfold _ _ _ _ _ _ _ _ Hpre Hc).
  erewrite (stream_from_unfold _ _ _ _ _ _ _ _ Hl).
  2:{ rewrite cleanup_message_count, Hc. reflexivity. }
  reflexivity.
Qed.

(** ** The translator yields no event of the run itself *)

Ltac no_run_events :=
  cbn [snd fst];
  repeat
    (match goal with
     | |- Forall _ [] => constructor
     | |- Forall _ (_ :: _) => constructor; [reflexivity|]
     | |- Forall _ (_ ++ _) => apply Forall_app; split
     | |- Forall _ ?l =>
         match l with
         | context [if ?b then _ else _] => destruct b
         | context [match ?x with _ => _ end] =>
             lazymatch type of x with
             | prod _ _ => fail
             | _ => destruct x
             end
         end
     end; cbn [snd fst]).

Lemma on_blocks_no_run_event blocks parent st :
  Forall (fun e => run_event e = false) (snd (on_blocks blocks parent st)).
Proof.
  revert st. induction blocks as [|b blocks IH]; intros st.
  - constructor.
  - cbn [Translator.on_blocks].
    match goal with
    | |- context [let '(st1, ev) := ?x in _] =>
        assert (Hb : Forall (fun e => run_event e = false) (snd x));
        [|destruct x as [st1 ev]]
    end.
    { destruct b; cbn [snd]; try constructor.
      - unfold on_tool_use_block, handle_tool_use_block, event_gen.
        destruct (truthy_ostr id); cbn [andb];
          try destruct (bool_decide _); cbn [snd fst]; try constructor.
        all: no_run_events.
      - unfold on_tool_result_block, handle_tool_result_block. cbn [snd].
        no_run_events. }
    specialize (IH st1). destruct (on_blocks blocks parent st1) as [st2 ev'].
    cbn [snd] in *. apply Forall_app. split; assumption.
Qed.

Lemma on_message_no_run_event m st :
  Forall (fun e => run_event e = false) (snd (on_message m st)).
Proof.
  destruct m as [ev|content parent|content parent|subtype data|result meta|].
  - cbn [Translator.on_message].
    unfold on_stream_event, on_message_start, on_text_delta, on_thinking_delta,
      on_input_json_delta, on_content_block_start, on_content_block_stop,
      on_message_stop, close_thinking, intercept_state.
    no_run_events.
  - cbn [Translator.on_message]. unfold on_assistant_message.
    destruct (truthy_ostr (current_message_id st));
      destruct (build_agui_assistant_message _ _);
      apply on_blocks_no_run_event.
  - apply on_blocks_no_run_event.
  - cbn [Translator.on_message]. unfold on_system_message,
      emit_system_message_events. no_run_events.
  - cbn [Translator.on_message]. unfold on_result_message. no_run_events.
  - constructor.
Qed.

Lemma loop_no_run_event msgs st :
  Forall (fun e => run_event e = false) (snd (fst (loop msgs st))).
Proof.
  revert st. induction msgs as [|m msgs IH]; intros st.
  - constructor.
  - destruct (halt_event_stream st) eqn:Hh.
    + rewrite loop_cons_halted by assumption. constructor.
    + rewrite loop_cons_running by assumption.
      pose proof (on_message_no_run_event m
                    (set_message_count (S (message_count st)) st)) as Hm.
      destruct (on_message m _) as [st2 ev]. specialize (IH st2).
      destruct (loop msgs st2) as [[st3 ev'] ex]. cbn [fst snd] in *.
      apply Forall_app. split; assumption.
Qed.

Lemma stream_from_no_run_event st stream :
  Forall (fun e => run_event e = false) (fst (fst (stream_from st stream))).
Proof.
  unfold stream_from.
  pose proof (loop_no_run_event (fst stream) st) as Hl.
  destruct (loop (fst stream) st) as [[st1 ev] ex]. cbn [fst snd] in Hl.
  pose proof (cleanup_spec st1) as Hc.
  destruct (cleanup st1) as [st2 evc]. destruct Hc as (-> & _).
  cbn [fst]. apply Forall_app. split; [exact Hl|].
  unfold messages_snapshot. no_run_events.
Qed.


(** ** Text messages are framed *)

(** What the blocks of a complete message leave alone. *)
Lemma on_tool_use_block_frame id name input parent st :
  let '(st', evs) := on_tool_use_block id name input parent st in
  uuid_next st <= uuid_next st'
  /\ Forall (fun e => text_event_id e = None) evs
  /\ current_message_id st' = current_message_id st
  /\ pending_msg st' = pending_msg st
  /\ has_streamed_text st' = has_streamed_text st
  /\ halt_event_stream st' = halt_event_stream st.
Proof.
  unfold on_tool_use_block, handle_tool_use_block, event_gen.
  destruct (truthy_ostr id); cbn [andb];
    try destruct (bool_decide _);
    try destruct (_is_state_management_tool _);
    destruct (self_current_state st) eqn:Hs;
    try destruct (map_is_empty input);
    cbn; rewrite ?Hs; cbn;
    repeat split; try lia; repeat constructor.
Qed.

Lemma on_blocks_frame blocks parent st :
  let '(st', evs) := on_blocks blocks parent st in
  uuid_next st <= uuid_next st'
  /\ Forall (fun e => text_event_id e = None) evs
  /\ current_message_id st' = current_message_id st
  /\ pending_msg st' = pending_msg st
  /\ has_streamed_text st' = has_streamed_text st
  /\ halt_event_stream st' = halt_event_stream st.
Proof.
  revert st. induction blocks as [|b blocks IH]; intros st.
  - cbn. repeat split; [lia|constructor].
  - cbn [Translator.on_blocks].
    assert (Hb :
      let '(st1, ev) :=
        match b with
        | ToolUseBlock id name input => on_tool_use_block id name input parent st
        | ToolResultBlock tool_use_id content _ =>
            on_tool_result_block tool_use_id content st
        | _ => (st, [])
        end in
      uuid_next st <= uuid_next st1
      /\ Forall (fun e => text_event_id e = None) ev
      /\ current_message_id st1 = current_message_id st
      /\ pending_msg st1 = pending_msg st
      /\ has_streamed_text st1 = has_streamed_text st
      /\ halt_event_stream st1 = halt_event_stream st).
    { destruct b; try (cbn; repeat split; [lia|constructor]).
      - apply on_tool_use_block_frame.
      - unfold on_tool_result_block, handle_tool_result_block, upsert.
        destruct tool_use_id as [i|]; cbn; [destruct (truthy_str i)|];
          cbn; repeat split; try lia; repeat constructor. }
    destruct (match b with ToolUseBlock _ _ _ => _ | _ => _ end) as [st1 ev].
    specialize (IH st1). destruct (on_blocks blocks parent st1) as [st2 ev'].
    destruct Hb as (B1 & B2 & B3 & B4 & B5 & B6).
    destruct IH as (I1 & I2 & I3 & I4 & I5 & I6).
    repeat split; try congruence; [lia|].
    apply Forall_app. split; assumption.
Qed.


Lemma close_thinking_uuid st :
  uuid_next st <= uuid_next (fst (close_thinking st))
  /\ Forall (fun e => text_event_id e = None) (snd (close_thinking st)).
Proof.
  unfold close_thinking. destruct (in_thinking_block st); cbn.
  - destruct (truthy_str (accumulated_thinking_text st)); cbn;
      split; try lia; repeat constructor.
  - split; [lia|constructor].
Qed.

Lemma intercept_state_uuid st :
  uuid_next (fst (intercept_state st)) = uuid_next st
  /\ Forall (fun e => text_event_id e = None) (snd (intercept_state st)).
Proof.
  unfold intercept_state.
  destruct (is_state_tool _); [destruct (parse_state_updates _)|]; cbn;
    split; try reflexivity; repeat constructor.
Qed.

Lemma push_tool_call_pending id st :
  uuid_next (push_tool_call id st) = uuid_next st
  /\ match pending_msg st with
     | Some p =>
         exists p',
           pending_msg (push_tool_call id st) = Some p'
           /\ p_id p' = p_id p /\ p_content p' = p_content p
     | None => pending_msg (push_tool_call id st) = None
     end.
Proof.
  unfold push_tool_call.
  destruct (pending_msg st) as [p|] eqn:Hp; [|split; [reflexivity|exact Hp]].
  destruct (current_tool_display_name st) as [d|];
    [destruct (truthy_str d && _)|]; cbn; (split; [reflexivity|]);
    eexists; repeat split; try eassumption; reflexivity.
Qed.

(** The ids carried by the text-message events of one step: the id of the
    current message, or an identifier drawn during the step. *)
Lemma on_message_text_ids m st :
  let '(st', evs) := on_message m st in
  uuid_next st <= uuid_next st'
  /\ Forall (fun e => forall x, text_event_id e = Some x ->
               current_message_id st = Some x
               \/ exists j, uuid_next st <= j < uuid_next st' /\ x = uuid4 j)
       evs
  /\ (current_message_id st' = current_message_id st
      \/ current_message_id st' = None
      \/ exists j, uuid_next st <= j < uuid_next st'
                   /\ current_message_id st' = Some (uuid4 j)).
Proof.
  assert (Hnone : forall (l : list Event) lo hi (cm : option string),
            Forall (fun e => text_event_id e = None) l ->
            Forall (fun e => forall x, text_event_id e = Some x ->
                      cm = Some x
                      \/ exists j, lo <= j < hi /\ x = uuid4 j) l).
  { intros l lo hi cm H. eapply Forall_impl; [exact H|].
    cbn. intros e He x Hx. congruence. }
  destruct m as [ev|content parent|content parent|subtype data|result meta|].
  - destruct ev as [|[t|t|j|]|[|id name|]| | | |];
      cbn [Translator.on_message on_stream_event].
    + (* message_start *)
      cbn. split; [lia|]. split; [constructor|].
      right. right. exists (uuid_next st). split; [lia|reflexivity].
    + unfold on_text_delta.
      destruct (current_message_id st) as [mid|] eqn:Hm;
        [destruct (truthy_str t && truthy_str mid)|]; cbn;
        [destruct (has_streamed_text st); destruct (pending_msg st)|..];
        cbn; rewrite ?Hm;
        (split; [lia|]); (split; [|left; reflexivity]);
        repeat (constructor; [intros x [= <-]; left; reflexivity|]);
        constructor.
    + unfold on_thinking_delta. destruct (truthy_str t); cbn;
        (split; [lia|]); (split; [|left; reflexivity]);
        repeat (constructor; [intros x [=]|]); constructor.
    + unfold on_input_json_delta.
      destruct (current_tool_call_id st) as [i|];
        [destruct (truthy_str j && truthy_str i)|]; cbn;
        (split; [lia|]); (split; [|left; reflexivity]);
        repeat (constructor; [intros x [=]|]); constructor.
    + cbn. split; [lia|]. split; [constructor|left; reflexivity].
    + cbn. split; [lia|]. split; [|left; reflexivity].
      repeat (constructor; [intros x [=]|]); constructor.
    + unfold on_content_block_start.
      destruct id as [i|]; [destruct (truthy_str i)|]; cbn;
        (split; [lia|]); (split; [|left; reflexivity]);
        repeat (constructor; [intros x [=]|]); constructor.
    + cbn. split; [lia|]. split; [constructor|left; reflexivity].
    + (* content_block_stop *)
      unfold on_content_block_stop.
      pose proof (close_thinking_spec st) as H1.
      pose proof (close_thinking_uuid st) as [U1 T1].
      destruct (close_thinking st) as [st1 ev_think]. cbn [fst snd] in U1, T1.
      destruct H1 as (_ & _ & _ & _ & _ & E6 & _).
      destruct (current_tool_call_id st1) as [i|];
        [destruct (truthy_str i)|].
      2,3: split; [exact U1|]; split; [|left; exact E6];
           apply Hnone; exact T1.
      pose proof (intercept_state_spec st1) as H2.
      pose proof (intercept_state_uuid st1) as [U2 T2].
      destruct (intercept_state st1) as [st2 ev_state]. cbn [fst snd] in U2, T2.
      destruct H2 as (_ & _ & _ & _ & _ & F6 & _).
      pose proof (push_tool_call_spec i st2)
        as (_ & _ & _ & _ & G5 & _).
      pose proof (push_tool_call_pending i st2) as [U3 _].
      pose proof (flush_pending_msg_spec (push_tool_call i st2))
        as (_ & _ & _ & _ & K5 & _ & _ & _ & K9 & _).
      destruct (in_frontend_tools _).
      * set (st4 := flush_pending_msg (push_tool_call i st2)) in *.
        assert (Hcm : current_message_id st4 = current_message_id st)
          by congruence.
        assert (Hu : uuid_next st <= uuid_next st4) by lia.
        destruct (current_message_id st4) as [mid|] eqn:Hm4;
          [destruct (truthy_ostr (Some mid) && has_streamed_text st4)|];
          cbn; (split; [exact Hu|]).
        -- split; [|right; left; reflexivity].
           apply Forall_app. split; [apply Hnone; exact T1|].
           apply Forall_app. split; [apply Hnone; exact T2|].
           constructor; [intros x [=]|].
           constructor; [|constructor].
           intros x [= <-]. left. congruence.
        -- split; [|left; congruence].
           apply Forall_app. split; [apply Hnone; exact T1|].
           apply Forall_app. split; [apply Hnone; exact T2|].
           constructor; [intros x [=]|]. constructor.
        -- split; [|left; congruence].
           apply Forall_app. split; [apply Hnone; exact T1|].
           apply Forall_app. split; [apply Hnone; exact T2|].
           constructor; [intros x [=]|]. constructor.
      * cbn. split; [lia|]. split; [|left; congruence].
        apply Forall_app. split; apply Hnone; assumption.
    + (* message_stop *)
      unfold on_message_stop.
      pose proof (flush_pending_msg_spec st)
        as (_ & _ & _ & _ & K5 & _ & _ & _ & K9 & _).
      cbn. rewrite K9. split; [lia|]. split; [|right; left; reflexivity].
      rewrite K5.
      destruct (current_message_id st) as [mid|];
        [destruct (truthy_ostr (Some mid) && _)|]; cbn;
        repeat (constructor; [intros x [= <-]; left; reflexivity|]);
        constructor.
    + cbn. split; [lia|]. split; [constructor|left; reflexivity].
    + cbn. split; [lia|]. split; [constructor|left; reflexivity].
  - (* AssistantMessage *)
    cbn [Translator.on_message]. unfold on_assistant_message.
    set (p := if truthy_ostr (current_message_id st) then _ else _).
    assert (Hp : uuid_next st <= uuid_next (snd p)
                 /\ current_message_id (snd p) = current_message_id st).
    { subst p. destruct (truthy_ostr (current_message_id st)); cbn;
        split; try lia; reflexivity. }
    destruct p as [msg_id st1]. cbn [snd] in Hp. destruct Hp as [P1 P2].
    set (st2 := match build_agui_assistant_message _ _ with
                | Some m => upsert m st1
                | None => st1
                end).
    assert (Hq : uuid_next st2 = uuid_next st1
                 /\ current_message_id st2 = current_message_id st1).
    { subst st2. destruct (build_agui_assistant_message _ _); split; reflexivity. }
    destruct Hq as [Q1 Q2].
    pose proof (on_blocks_frame content parent st2) as Hb.
    destruct (on_blocks content parent st2) as [st3 evs].
    destruct Hb as (B1 & B2 & B3 & _).
    split; [lia|]. split; [apply Hnone; exact B2|left; congruence].
  - (* UserMessage *)
    cbn [Translator.on_message].
    pose proof (on_blocks_frame content parent st) as Hb.
    destruct (on_blocks content parent st) as [st3 evs].
    destruct Hb as (B1 & B2 & B3 & _).
    split; [lia|]. split; [apply Hnone; exact B2|left; congruence].
  - (* SystemMessage *)
    cbn [Translator.on_message]. unfold on_system_message.
    destruct (truthy_str _); cbn.
    + split; [lia|]. split; [|left; reflexivity].
      repeat (constructor;
              [intros x [= <-]; right; exists (S (uuid_next st));
               split; [lia|reflexivity]|]).
      constructor.
    + split; [lia|]. split; [constructor|left; reflexivity].
  - (* ResultMessage *)
    cbn [Translator.on_message]. unfold on_result_message.
    destruct (negb _ && truthy_ostr result); cbn.
    + split; [lia|]. split; [|left; reflexivity].
      repeat (constructor;
              [intros x [= <-]; right; exists (uuid_next st);
               split; [lia|reflexivity]|]).
      constructor.
    + split; [lia|]. split; [constructor|left; reflexivity].
  - cbn. split; [lia|]. split; [constructor|left; reflexivity].
Qed.


Lemma text_events_of_app id a b :
  text_events_of id (a ++ b) = text_events_of id a ++ text_events_of id b.
Proof. apply List.filter_app. Qed.

Lemma text_events_of_none id evs :
  Forall (fun e => text_event_id e <> Some id) evs -> text_events_of id evs = [].
Proof.
  induction 1 as [|e evs He _ IH]; [reflexivity|].
  unfold text_events_of in *. cbn [List.filter].
  rewrite bool_decide_eq_false_2 by assumption. exact IH.
Qed.

Lemma text_events_of_no_text id evs :
  Forall (fun e => text_event_id e = None) evs -> text_events_of id evs = [].
Proof.
  intros H. apply text_events_of_none.
  eapply Forall_impl; [exact H|]. cbn. intros e He. congruence.
Qed.

Lemma text_events_of_same id evs :
  Forall (fun e => text_event_id e = Some id) evs -> text_events_of id evs = evs.
Proof.
  induction 1 as [|e evs He _ IH]; [reflexivity|].
  unfold text_events_of in *. cbn [List.filter].
  rewrite bool_decide_eq_true_2 by assumption. rewrite IH. reflexivity.
Qed.

(** Outside of the message [id]: while the current message is another one
    and no identifier drawn equals [id], no text-message event carries
    [id]. *)
Lemma loop_avoids_id id msgs st :
  let '(st', evs, ex) := loop msgs st in
  uuid_next st <= uuid_next st'
  /\ (current_message_id st <> Some id ->
      (forall j, uuid_next st <= j < uuid_next st' -> uuid4 j <> id) ->
      text_events_of id evs = [] /\ current_message_id st' <> Some id).
Proof.
  revert st. induction msgs as [|m msgs IH]; intros st.
  - cbn. split; [lia|]. intros Hcm _. split; [reflexivity|exact Hcm].
  - destruct (halt_event_stream st) eqn:Hh.
    + rewrite loop_cons_halted by assumption. cbn. split; [lia|].
      intros Hcm _. split; [reflexivity|exact Hcm].
    + rewrite loop_cons_running by assumption.
      pose proof (on_message_text_ids m
                    (set_message_count (S (message_count st)) st)) as Hm.
      destruct (on_message m _) as [st2 ev].
      cbn [uuid_next current_message_id set_message_count] in Hm.
      destruct Hm as (M1 & M2 & M3).
      specialize (IH st2). destruct (loop msgs st2) as [[st3 ev'] ex].
      destruct IH as (I1 & I2).
      split; [lia|]. intros Hcm Hfresh.
      assert (Hcm2 : current_message_id st2 <> Some id).
      { destruct M3 as [->|[->|(j & Hj & ->)]];
          [exact Hcm|discriminate|].
        intros [= Heq]. apply (Hfresh j); [lia|exact Heq]. }
      destruct I2 as [I2 I3]; [exact Hcm2|intros j Hj; apply Hfresh; lia|].
      split; [|exact I3].
      rewrite text_events_of_app, I2, app_nil_r.
      apply text_events_of_none.
      eapply Forall_impl; [exact M2|]. cbn.
      intros e He Heq. destruct (He id Heq) as [Hc|(j & Hj & Hj')].
      * contradiction.
      * apply (Hfresh j); [lia|]. symmetry. exact Hj'.
Qed.


Lemma concat_cons (x : string) l :
  String.concat "" (x :: l) = x +:+ String.concat "" l.
Proof. destruct l; [symmetry; apply append_nil_r|reflexivity]. Qed.

Lemma concat_snoc l (t : string) :
  String.concat "" (l ++ [t]) = String.concat "" l +:+ t.
Proof.
  induction l as [|x l IH]; [reflexivity|].
  cbn [app]. rewrite !concat_cons, IH, append_assoc. reflexivity.
Qed.

Lemma concat_truthy ds :
  Forall (fun d => truthy_str d = true) ds -> ds <> [] ->
  truthy_str (String.concat "" ds) = true.
Proof.
  intros H Hne. destruct H as [|d ds Hd _]; [contradiction|].
  rewrite concat_cons. destruct d as [|c d]; [discriminate|reflexivity].
Qed.

Lemma text_chunks_truthy msgs :
  Forall (fun d => truthy_str d = true) (text_chunks msgs).
Proof.
  induction msgs as [|m msgs IH]; [constructor|].
  destruct m as [[|[t| | |]| | | | |]| | | | |]; cbn; try exact IH.
  destruct (truthy_str t) eqn:Ht; [constructor; assumption|exact IH].
Qed.

Lemma text_chunks_app a b : text_chunks (a ++ b) = text_chunks a ++ text_chunks b.
Proof.
  induction a as [|m a IH]; [reflexivity|].
  destruct m as [[|[t| | |]| | | | |]| | | | |]; cbn; try exact IH.
  destruct (truthy_str t); [rewrite IH|]; auto.
Qed.

Lemma In_upsert_message msg l : In msg (upsert_message msg l).
Proof.
  induction l as [|m l IH]; cbn; [left; reflexivity|].
  destruct (String.eqb (msg_id m) (msg_id msg)); [left|right]; auto.
Qed.

#[local] Abbreviation InMsg id ds st :=
  (in_message (fun j => uuid4 j <> id%string) id%string ds st).

Lemma in_message_message_count id ds k st :
  InMsg id ds st -> InMsg id ds (set_message_count k st).
Proof. intros H. exact H. Qed.

(** A step that yields no text-message event for [id] and keeps the
    in-flight message. *)
Lemma in_message_quiet id ds st st' evs :
  InMsg id ds st ->
  current_message_id st' = current_message_id st ->
  match pending_msg st with
  | Some p =>
      exists p', pending_msg st' = Some p'
                 /\ p_id p' = p_id p /\ p_content p' = p_content p
  | None => True
  end ->
  has_streamed_text st' = has_streamed_text st ->
  halt_event_stream st' = false ->
  uuid_next st <= uuid_next st' ->
  Forall (fun e => text_event_id e <> Some id) evs ->
  InMsg id (ds ++ []) st'
  /\ framed_prefix tid rid id ds ++ text_events_of id evs
     = framed_prefix tid rid id (ds ++ []).
Proof.
  intros (Hcm & (p & Hp & Hpid & Hpc) & Hhs & Hh & Hfresh) E1 E2 E3 E4 E5 E6.
  rewrite !app_nil_r, (text_events_of_none _ _ E6), app_nil_r.
  split; [|reflexivity]. unfold in_message.
  rewrite E1, E3. rewrite Hp in E2. destruct E2 as (p' & Hp' & I1 & I2).
  repeat split; try assumption.
  - exists p'. repeat split; congruence.
  - intros j Hj. apply Hfresh. lia.
Qed.


Ltac quiet_side Hkeep :=
  first [ assumption | reflexivity | apply Hkeep; reflexivity
        | cbn; assumption | cbn; lia
        | solve [repeat (constructor; [discriminate|]); constructor] ].

(** One step inside the message [id] that does not halt the run. *)
Lemma in_message_step id ds m st :
  truthy_str id = true ->
  InMsg id ds st ->
  inside_message m = true ->
  let '(st', evs) := on_message m st in
  halt_event_stream st' = false ->
  InMsg id (ds ++ text_chunks [m]) st'
  /\ framed_prefix tid rid id ds ++ text_events_of id evs
     = framed_prefix tid rid id (ds ++ text_chunks [m]).
Proof.
  intros Hid Hin Hinside.
  pose proof Hin as (Hcm & (p & Hp & Hpid & Hpc) & Hhs & Hh & Hfresh).
  assert (Hkeep : forall st', pending_msg st' = pending_msg st ->
            match pending_msg st with
            | Some p0 =>
                exists p', pending_msg st' = Some p'
                           /\ p_id p' = p_id p0 /\ p_content p' = p_content p0
            | None => True
            end).
  { intros st' E. rewrite Hp. exists p. rewrite E, Hp. repeat split. }
  destruct m as [ev|content parent|content parent|subtype data|result meta|].
  - destruct ev as [|[t|t|j|]|b| | | |]; try discriminate Hinside;
      cbn [Translator.on_message on_stream_event text_chunks].
    + (* text_delta *)
      unfold on_text_delta. rewrite Hcm, Hid, andb_true_r.
      destruct (truthy_str t) eqn:Ht.
      2:{ intros _. apply (in_message_quiet id ds st); quiet_side Hkeep. }
      cbn. rewrite Hp. cbn. intros _. split.
      * unfold in_message. cbn. repeat split; try assumption.
        -- eexists. split; [reflexivity|]. cbn. split; [exact Hpid|].
           rewrite Hpc. symmetry. apply concat_snoc.
        -- destruct ds; reflexivity.
      * rewrite Hhs. destruct ds as [|d ds].
        -- cbn [app framed_prefix map]. apply text_events_of_same.
           repeat constructor.
        -- cbn [app framed_prefix map].
           rewrite text_events_of_same by repeat constructor.
           rewrite map_app. reflexivity.
    + unfold on_thinking_delta. destruct (truthy_str t); intros _;
        apply (in_message_quiet id ds st); quiet_side Hkeep.
    + unfold on_input_json_delta.
      destruct (current_tool_call_id st) as [i|];
        [destruct (truthy_str j && truthy_str i)|]; intros _;
        apply (in_message_quiet id ds st); quiet_side Hkeep.
    + intros _. apply (in_message_quiet id ds st); quiet_side Hkeep.
    + unfold on_content_block_start.
      destruct b as [|i name|]; [| destruct i as [i|]; [destruct (truthy_str i)|] |];
        intros _; apply (in_message_quiet id ds st); quiet_side Hkeep.
    + (* content_block_stop *)
      unfold on_content_block_stop.
      pose proof (close_thinking_spec st) as H1.
      pose proof (close_thinking_uuid st) as [U1 T1].
      destruct (close_thinking st) as [st1 ev_think]. cbn [fst snd] in U1, T1.
      destruct H1 as (_ & _ & _ & _ & E5 & E6 & E7 & _ & E9 & _).
      assert (Q1 : Forall (fun e => text_event_id e <> Some id) ev_think).
      { eapply Forall_impl; [exact T1|]. cbn. intros e He. congruence. }
      destruct (current_tool_call_id st1) as [i|];
        [destruct (truthy_str i)|].
      2,3: intros _; apply (in_message_quiet id ds st); try assumption;
           [apply Hkeep; exact E9|congruence].
      pose proof (intercept_state_spec st1) as H2.
      pose proof (intercept_state_uuid st1) as [U2 T2].
      destruct (intercept_state st1) as [st2 ev_state]. cbn [fst snd] in U2, T2.
      destruct H2 as (_ & _ & _ & _ & F5 & F6 & F7 & F8 & _).
      pose proof (push_tool_call_spec i st2)
        as (_ & _ & _ & G4 & G5 & G6 & _).
      pose proof (push_tool_call_pending i st2) as [U3 P3].
      destruct (in_frontend_tools _).
      * destruct (truthy_ostr _ && _); cbn; discriminate.
      * cbn. intros _. apply (in_message_quiet id ds st); try assumption; cbn;
          try congruence; try lia.
        -- rewrite Hp. rewrite F8, E9, Hp in P3. exact P3.
        -- apply Forall_app. split; [exact Q1|].
           eapply Forall_impl; [exact T2|]. cbn. intros e He. congruence.
    + intros _. apply (in_message_quiet id ds st); quiet_side Hkeep.
    + intros _. apply (in_message_quiet id ds st); quiet_side Hkeep.
  - (* AssistantMessage *)
    cbn [Translator.on_message text_chunks]. unfold on_assistant_message.
    rewrite Hcm. cbn [truthy_ostr]. rewrite Hid. cbn [from_option Datatypes.id].
    set (st2 := match build_agui_assistant_message _ _ with
                | Some m => upsert m st
                | None => st
                end).
    assert (Hq : uuid_next st2 = uuid_next st
                 /\ current_message_id st2 = current_message_id st
                 /\ pending_msg st2 = pending_msg st
                 /\ has_streamed_text st2 = has_streamed_text st
                 /\ halt_event_stream st2 = halt_event_stream st).
    { subst st2. destruct (build_agui_assistant_message _ _); repeat split. }
    destruct Hq as (Q1 & Q2 & Q3 & Q4 & Q5).
    pose proof (on_blocks_frame content parent st2) as Hb.
    destruct (on_blocks content parent st2) as [st3 evs].
    destruct Hb as (B1 & B2 & B3 & B4 & B5 & B6).
    intros _. apply (in_message_quiet id ds st); try assumption; try congruence; try lia.
    + apply Hkeep. congruence.
    + eapply Forall_impl; [exact B2|]. cbn. intros e He. congruence.
  - (* UserMessage *)
    cbn [Translator.on_message text_chunks].
    pose proof (on_blocks_frame content parent st) as Hb.
    destruct (on_blocks content parent st) as [st3 evs].
    destruct Hb as (B1 & B2 & B3 & B4 & B5 & B6).
    intros _. apply (in_message_quiet id ds st); try assumption;
      try congruence; try lia.
    + apply Hkeep. congruence.
    + eapply Forall_impl; [exact B2|]. cbn. intros e He. congruence.
  - (* SystemMessage *)
    cbn [Translator.on_message text_chunks]. unfold on_system_message.
    destruct (truthy_str (or_ostr _ _)); intros _;
      apply (in_message_quiet id ds st);
      try quiet_side Hkeep.
    unfold emit_system_message_events.
    repeat (constructor;
            [cbn; intros [= Heq]; apply (Hfresh (S (uuid_next st)));
             [lia|exact Heq]|]).
    constructor.
  - (* ResultMessage *)
    cbn [Translator.on_message text_chunks]. unfold on_result_message.
    destruct (negb _ && truthy_ostr result); intros _;
      apply (in_message_quiet id ds st); try quiet_side Hkeep.
    repeat (constructor;
            [cbn; intros [= Heq]; apply (Hfresh (uuid_next st));
             [lia|exact Heq]|]).
    constructor.
  - intros _. apply (in_message_quiet id ds st); quiet_side Hkeep.
Qed.


(** A loop that reads its items to the end never met the halt flag. *)
Lemma loop_cons_inv m rest st st' ev :
  loop (m :: rest) st = (st', ev, ReachedEnd) ->
  halt_event_stream st = false
  /\ exists st2 ev1 ev2,
       on_message m (set_message_count (S (message_count st)) st) = (st2, ev1)
       /\ loop rest st2 = (st', ev2, ReachedEnd)
       /\ ev = ev1 ++ ev2.
Proof.
  intros H. destruct (halt_event_stream st) eqn:Hh.
  - rewrite loop_cons_halted in H by assumption. discriminate.
  - split; [reflexivity|]. rewrite loop_cons_running in H by assumption.
    destruct (on_message m _) as [st2 ev1] eqn:Hm.
    destruct (loop rest st2) as [[st3 ev2] ex] eqn:Hr.
    injection H as -> <- ->. exists st2, ev1, ev2. repeat split.
    exact Hr.
Qed.

Lemma loop_end_not_halted rest st st' ev :
  loop rest st = (st', ev, ReachedEnd) ->
  halt_event_stream st' = false -> halt_event_stream st = false.
Proof.
  destruct rest as [|m rest]; intros H Hh.
  - cbn in H. injection H as <- _. exact Hh.
  - apply loop_cons_inv in H as [H _]. exact H.
Qed.

(** The items between [message_start] and [message_stop]. *)
Lemma loop_in_message id mid :
  truthy_str id = true ->
  forall ds st st' ev,
    InMsg id ds st ->
    forallb inside_message mid = true ->
    loop mid st = (st', ev, ReachedEnd) ->
    halt_event_stream st' = false ->
    InMsg id (ds ++ text_chunks mid) st'
    /\ framed_prefix tid rid id ds ++ text_events_of id ev
       = framed_prefix tid rid id (ds ++ text_chunks mid).
Proof.
  intros Hid. induction mid as [|m mid IH]; intros ds st st' ev Hin Hall Hl Hh.
  - cbn in Hl. injection Hl as <- <-. cbn. rewrite !app_nil_r.
    split; [exact Hin|reflexivity].
  - cbn [forallb] in Hall. apply andb_true_iff in Hall as [Hm Hall].
    apply loop_cons_inv in Hl as (_ & st2 & ev1 & ev2 & Hstep & Hrest & ->).
    pose proof (loop_end_not_halted _ _ _ _ Hrest Hh) as Hh2.
    pose proof (in_message_step id ds m
                  (set_message_count (S (message_count st)) st) Hid
                  (in_message_message_count id ds _ st Hin) Hm) as Hs.
    rewrite Hstep in Hs. destruct (Hs Hh2) as [Hin2 Hev].
    destruct (IH _ _ _ _ Hin2 Hall Hrest Hh) as [Hin3 Hev3].
    change (m :: mid) with ([m] ++ mid).
    rewrite text_chunks_app, app_assoc. split; [exact Hin3|].
    rewrite text_events_of_app, app_assoc, Hev. exact Hev3.
Qed.

(** [message_start] opens the message whose id is the next identifier. *)
Lemma message_start_in_message st :
  (forall i j, uuid4 i = uuid4 j -> i = j) ->
  halt_event_stream st = false ->
  exists st',
    on_message (StreamEvent message_start) st = (st', [])
    /\ InMsg (uuid4 (uuid_next st)) [] st'.
Proof.
  intros Hinj Hh. eexists. split; [reflexivity|].
  unfold in_message. cbn. repeat split; try assumption.
  - eexists. repeat split.
  - intros j Hj Heq. apply Hinj in Heq. lia.
Qed.

(** [message_stop] closes it: the pending message is flushed with the
    accumulated text, and the text message is ended. *)
Lemma message_stop_in_message id ds st :
  truthy_str id = true ->
  InMsg id ds st ->
  ds <> [] ->
  Forall (fun d => truthy_str d = true) ds ->
  exists st' tool_calls,
    on_message (StreamEvent message_stop) st
    = (st', [TextMessageEndEvent tid rid id])
    /\ current_message_id st' = None
    /\ uuid_next st' = uuid_next st
    /\ In (AguiAssistantMessage id (Some (String.concat "" ds)) tool_calls)
         (run_messages st').
Proof.
  intros Hid (Hcm & (p & Hp & Hpid & Hpc) & Hhs & Hh & Hfresh) Hne Htr.
  pose proof (concat_truthy ds Htr Hne) as Hc.
  cbn [Translator.on_message on_stream_event]. unfold on_message_stop.
  pose proof (flush_pending_msg_spec st)
    as (_ & _ & _ & _ & K5 & K6 & _ & _ & K9 & _).
  rewrite K5, K6, Hcm, Hhs. cbn [truthy_ostr from_option Datatypes.id].
  rewrite Hid. destruct ds as [|d ds]; [contradiction|]. cbn [andb].
  eexists _, _. split; [reflexivity|]. cbn.
  split; [reflexivity|]. split; [exact K9|].
  unfold flush_pending_msg. rewrite Hp, Hpc, Hc. cbn.
  rewrite Hpid. apply In_upsert_message.
Qed.


Lemma cleanup_avoids_id id st :
  current_message_id st <> Some id ->
  text_events_of id (snd (cleanup st)) = [].
Proof.
  intros Hcm. pose proof (cleanup_spec st) as Hc.
  destruct (cleanup st) as [st' evs]. destruct Hc as (-> & _). cbn [snd].
  apply text_events_of_none.
  destruct (truthy_ostr (current_tool_call_id st));
    destruct (in_thinking_block st);
    destruct (current_message_id st) as [x|];
    try destruct (has_streamed_text st && truthy_ostr (Some x));
    rewrite ?andb_false_r; cbn;
    repeat (constructor; [first [discriminate|exact Hcm]|]); constructor.
Qed.

Lemma messages_snapshot_no_text id st :
  text_events_of id (messages_snapshot st) = [].
Proof. unfold messages_snapshot. destruct (run_messages st); reflexivity. Qed.

(** Only the close of a content block can halt the run. *)
Lemma on_message_halt_other m st :
  m <> StreamEvent content_block_stop ->
  halt_event_stream (fst (on_message m st)) = halt_event_stream st.
Proof.
  intros Hm.
  destruct m as [ev|content parent|content parent|subtype data|result meta|];
    cbn [Translator.on_message].
  - destruct ev as [|d|b| | | |]; cbn [on_stream_event]; try reflexivity.
    + change (halt_event_stream
                (fst (on_message (StreamEvent (content_block_delta d)) st))
              = halt_event_stream st).
      pose proof (on_delta_frame d st) as Hd.
      destruct (on_message (StreamEvent (content_block_delta d)) st)
        as [st' evs].
      cbn [fst]. destruct Hd as [Hf _]. apply Hf.
    + unfold on_content_block_start.
      destruct b as [|id name|]; try reflexivity.
      destruct id as [i|]; [destruct (truthy_str i)|]; reflexivity.
    + contradiction.
    + unfold on_message_stop. cbn [fst].
      apply (flush_pending_msg_spec st).
  - unfold Translator.on_assistant_message.
    destruct (truthy_ostr (current_message_id st));
      destruct (build_agui_assistant_message _ _);
      match goal with
      | |- context [Translator.on_blocks _ _ ?c ?p ?s] =>
          pose proof (on_blocks_frame c p s) as Hb;
          destruct (Translator.on_blocks _ _ c p s) as [st' evs]
      end; cbn [fst]; destruct Hb as (_ & _ & _ & _ & _ & ->); reflexivity.
  - pose proof (on_blocks_frame content parent st) as Hb.
    destruct (Translator.on_blocks _ _ content parent st) as [st' evs].
    cbn [fst]. apply Hb.
  - unfold on_system_message. destruct (truthy_str _); reflexivity.
  - unfold on_result_message. destruct (_ && _); reflexivity.
  - reflexivity.
Qed.

(** The step that halts the run inside the message [id] is the close of
    the block of a frontend tool: a text message that has begun is ended,
    and the pending message is flushed with the text so far. *)
Lemma in_message_halting_step id ds m st st' evs :
  truthy_str id = true ->
  InMsg id ds st ->
  Forall (fun d => truthy_str d = true) ds ->
  on_message m st = (st', evs) ->
  halt_event_stream st' = true ->
  m = StreamEvent content_block_stop
  /\ text_events_of id evs
     = match ds with [] => [] | _ :: _ => [TextMessageEndEvent tid rid id] end
  /\ (ds <> [] ->
      current_message_id st' = None
      /\ exists tool_calls,
           In (AguiAssistantMessage id (Some (String.concat "" ds)) tool_calls)
             (run_messages st')).
Proof.
  intros Hid (Hcm & (p & Hp & Hpid & Hpc) & Hhs & Hh & Hfresh) Htr Hstep Hhalt.
  assert (Hm : m = StreamEvent content_block_stop).
  { destruct m as [[| | | | | |]| | | | |]; try reflexivity;
      match goal with
      | |- ?x = _ =>
          pose proof (on_message_halt_other x st ltac:(discriminate)) as Hk
      end;
      rewrite Hstep in Hk; cbn [fst] in Hk; congruence. }
  subst m. split; [reflexivity|].
  cbn [Translator.on_message on_stream_event] in Hstep.
  unfold Translator.on_content_block_stop in Hstep.
  pose proof (close_thinking_spec st) as H1.
  pose proof (close_thinking_uuid st) as [U1 T1].
  destruct (close_thinking st) as [st1 ev_think]. cbn [fst snd] in U1, T1.
  destruct H1 as (_ & _ & _ & _ & E5 & E6 & E7 & _ & E9 & _).
  destruct (current_tool_call_id st1) as [i|];
    [destruct (truthy_str i)|].
  2,3: injection Hstep as <- <-; congruence.
  pose proof (intercept_state_spec st1) as H2.
  pose proof (intercept_state_uuid st1) as [U2 T2].
  destruct (intercept_state st1) as [st2 ev_state]. cbn [fst snd] in U2, T2.
  destruct H2 as (_ & _ & _ & _ & F5 & F6 & F7 & F8 & _).
  pose proof (push_tool_call_spec i st2)
    as (_ & _ & _ & G4 & G5 & G6 & _).
  pose proof (push_tool_call_pending i st2) as [U3 P3].
  rewrite F8, E9, Hp in P3. destruct P3 as (p' & Hp' & Hpid' & Hpc').
  pose proof (flush_pending_msg_spec (push_tool_call i st2))
    as (_ & _ & _ & _ & K5 & K6 & _).
  destruct (in_frontend_tools _).
  2:{ injection Hstep as <- <-. cbn in Hhalt. congruence. }
  set (st4 := flush_pending_msg (push_tool_call i st2)) in *.
  assert (Hcm4 : current_message_id st4 = Some id) by congruence.
  assert (Hhs4 : has_streamed_text st4
                 = match ds with [] => false | _ :: _ => true end) by congruence.
  assert (Hquiet : text_events_of id (ev_think ++ ev_state) = []).
  { apply text_events_of_no_text, Forall_app. split; assumption. }
  rewrite Hcm4, Hhs4 in Hstep. cbn [truthy_ostr default] in Hstep.
  rewrite Hid in Hstep. cbn [andb] in Hstep.
  destruct ds as [|d ds].
  - injection Hstep as <- <-. split; [|intros Hne; contradiction].
    rewrite app_assoc, text_events_of_app, Hquiet. reflexivity.
  - injection Hstep as <- <-. split.
    + rewrite app_assoc, text_events_of_app, Hquiet. cbn [app].
      change ([ToolCallEndEvent tid rid i; TextMessageEndEvent tid rid id])
        with ([ToolCallEndEvent tid rid i] ++ [TextMessageEndEvent tid rid id]).
      rewrite text_events_of_app.
      rewrite (text_events_of_same id [TextMessageEndEvent tid rid id])
        by repeat constructor.
      reflexivity.
    + intros _. split; [reflexivity|].
      cbn [run_messages set_halt_event_stream set_current_message_id].
      subst st4. unfold flush_pending_msg. rewrite Hp'.
      rewrite Hpc', Hpc.
      rewrite (concat_truthy (d :: ds) Htr) by discriminate.
      cbn [orb]. rewrite Hpid', Hpid.
      eexists. cbn [run_messages set_pending_msg upsert set_run_messages].
      apply In_upsert_message.
Qed.

(** The items of the message [id] up to the one that halts the run. *)
Lemma loop_in_message_halted id mid :
  truthy_str id = true ->
  forall ds st st' ev,
    InMsg id ds st ->
    Forall (fun d => truthy_str d = true) ds ->
    forallb inside_message mid = true ->
    loop mid st = (st', ev, ReachedEnd) ->
    halt_event_stream st' = true ->
    ds ++ text_chunks mid <> [] ->
    framed_prefix tid rid id ds ++ text_events_of id ev
    = framed_prefix tid rid id (ds ++ text_chunks mid)
      ++ [TextMessageEndEvent tid rid id]
    /\ current_message_id st' = None
    /\ exists tool_calls,
         In (AguiAssistantMessage id
               (Some (String.concat "" (ds ++ text_chunks mid))) tool_calls)
           (run_messages st').
Proof.
  intros Hid. induction mid as [|m mid IH];
    intros ds st st' ev Hin Htr Hall Hl Hhalt Hne.
  - cbn in Hl. injection Hl as <- <-.
    destruct Hin as (_ & _ & _ & Hh & _). congruence.
  - cbn [forallb] in Hall. apply andb_true_iff in Hall as [Hm Hall].
    apply loop_cons_inv in Hl as (_ & st2 & ev1 & ev2 & Hstep & Hrest & ->).
    change (m :: mid) with ([m] ++ mid) in *.
    rewrite text_chunks_app, app_assoc in *.
    destruct (halt_event_stream st2) eqn:Hh2.
    + (* [m] halts the run: it is the last item read *)
      destruct mid as [|m' mid'].
      2:{ apply loop_cons_inv in Hrest as [Hrest _]. congruence. }
      cbn in Hrest. injection Hrest as <- <-.
      destruct (in_message_halting_step id ds m _ _ _ Hid
                  (in_message_message_count id ds _ st Hin) Htr Hstep Hh2)
        as (-> & Hev & Hrec).
      cbn [text_chunks] in *. rewrite !app_nil_r in *.
      destruct (Hrec Hne) as [Hcm Hmsg].
      split; [|split; assumption].
      rewrite Hev. destruct ds; [contradiction|reflexivity].
    + pose proof (in_message_step id ds m
                    (set_message_count (S (message_count st)) st) Hid
                    (in_message_message_count id ds _ st Hin) Hm) as Hs.
      rewrite Hstep in Hs. destruct (Hs Hh2) as [Hin2 Hev].
      assert (Htr2 : Forall (fun d => truthy_str d = true)
                       (ds ++ text_chunks [m])).
      { apply Forall_app. split; [exact Htr|apply text_chunks_truthy]. }
      destruct (IH _ _ _ _ Hin2 Htr2 Hall Hrest Hhalt Hne)
        as (Hev3 & Hcm & Hmsg).
      split; [|split; assumption].
      rewrite text_events_of_app, app_assoc, Hev. exact Hev3.
Qed.

(** C1 (as amended). The stream [message_start, text_delta "Hi",
    text_delta " there", message_stop] is translated to text-start, two
    text-contents, text-end and a messages snapshot whose new assistant
    message reads "Hi there". More generally, take a message opened by a
    [message_start] that the loop translates, and let [mid] be the items
    read after it, none of them a [message_start] or a [message_stop],
    with at least one non-empty text chunk among them: either the run is
    not halted after [mid] and the next item is [message_stop], or the
    last item of [mid] closed the block of a frontend tool and halted the
    run, and whatever follows is not translated. Then the text-message
    events carrying the message's id are exactly one start, one content
    event per chunk of [mid] in order, and one end; and the message
    recorded when the text message is ended has the concatenation of the
    chunks as its content. *)
Theorem text_message_framed
    pre mid post e cur lrd n st_pre ev_pre st_mid ev_mid :
  (forall k, truthy_str (uuid4 k) = true) ->
  (forall i j, uuid4 i = uuid4 j -> i = j) ->
  loop pre (initial_state cur lrd n) = (st_pre, ev_pre, ReachedEnd) ->
  loop (StreamEvent message_start :: mid) st_pre
  = (st_mid, ev_mid, ReachedEnd) ->
  forallb inside_message mid = true ->
  text_chunks mid <> [] ->
  let closing :=
    if halt_event_stream st_mid then [] else [StreamEvent message_stop] in
  (fst (fst (_stream_claude_sdk (hi_stream, Exhausted) cur lrd n))
   = [TextMessageStartEvent tid rid (uuid4 n) "assistant";
      TextMessageContentEvent tid rid (uuid4 n) "Hi";
      TextMessageContentEvent tid rid (uuid4 n) " there";
      TextMessageEndEvent tid rid (uuid4 n);
      MessagesSnapshotEvent
        (messages input_data
         ++ [AguiAssistantMessage (uuid4 n) (Some "Hi there") None])]
   /\ snd (_stream_claude_sdk (hi_stream, Exhausted) cur lrd n) = None)
  /\ text_events_of (uuid4 (uuid_next st_pre))
       (fst (fst (_stream_claude_sdk
                    (pre ++ StreamEvent message_start :: mid
                         ++ closing ++ post, e)
                    cur lrd n)))
     = TextMessageStartEvent tid rid (uuid4 (uuid_next st_pre)) "assistant"
       :: map (TextMessageContentEvent tid rid (uuid4 (uuid_next st_pre)))
            (text_chunks mid)
       ++ [TextMessageEndEvent tid rid (uuid4 (uuid_next st_pre))]
  /\ exists st_close ev_close tool_calls,
       loop (pre ++ StreamEvent message_start :: mid ++ closing)
         (initial_state cur lrd n)
       = (st_close, ev_close, ReachedEnd)
       /\ In (AguiAssistantMessage (uuid4 (uuid_next st_pre))
                (Some (String.concat "" (text_chunks mid))) tool_calls)
            (run_messages st_close).
Proof.
  intros Htruthy Hinj Hpre Hmid Hinside Hchunks closing. split.
  - split; [|apply stream_from_exhausted].
    pose proof (Htruthy n) as Hu. set (u := uuid4 n) in *.
    pose (s := fun hst content count =>
            mkTState (Some u) false hst None None None "" ∅ ∅ false []
              (Some (mkPending u content [])) "" count cur lrd (S n)).
    pose (s4 := mkTState None false true None None None "" ∅ ∅ false
                  [AguiAssistantMessage u (Some "Hi there") None] None "" 4
                  cur lrd (S n)).
    assert (H1 : on_message (StreamEvent message_start)
                   (set_message_count 1 (initial_state cur lrd n))
                 = (s false "" 1, [])) by reflexivity.
    assert (H2 : on_message (StreamEvent (content_block_delta (text_delta "Hi")))
                   (set_message_count 2 (s false "" 1))
                 = (s true "Hi" 2,
                    [TextMessageStartEvent tid rid u "assistant";
                     TextMessageContentEvent tid rid u "Hi"])).
    { cbn -[truthy_str]. unfold on_text_delta. cbn -[truthy_str].
      rewrite Hu. reflexivity. }
    assert (H3 : on_message
                   (StreamEvent (content_block_delta (text_delta " there")))
                   (set_message_count 3 (s true "Hi" 2))
                 = (s true "Hi there" 3,
                    [TextMessageContentEvent tid rid u " there"])).
    { cbn -[truthy_str]. unfold on_text_delta. cbn -[truthy_str].
      rewrite Hu. reflexivity. }
    assert (H4 : on_message (StreamEvent message_stop)
                   (set_message_count 4 (s true "Hi there" 3))
                 = (s4, [TextMessageEndEvent tid rid u])).
    { cbn -[truthy_str]. unfold on_message_stop, flush_pending_msg.
      cbn -[truthy_str].
      change (truthy_str "Hi there") with true. cbn -[truthy_str].
      rewrite Hu. reflexivity. }
    assert (Hl : loop hi_stream (initial_state cur lrd n)
                 = (s4,
                    [TextMessageStartEvent tid rid u "assistant";
                     TextMessageContentEvent tid rid u "Hi";
                     TextMessageContentEvent tid rid u " there";
                     TextMessageEndEvent tid rid u], ReachedEnd)).
    { unfold hi_stream.
      rewrite (loop_step _ _ (initial_state cur lrd n) _ _ eq_refl H1).
      rewrite (loop_step _ _ (s false "" 1) _ _ eq_refl H2).
      rewrite (loop_step _ _ (s true "Hi" 2) _ _ eq_refl H3).
      rewrite (loop_step _ _ (s true "Hi there" 3) _ _ eq_refl H4).
      reflexivity. }
    unfold _stream_claude_sdk.
    rewrite (stream_from_unfold _ _ _ _ _ _ s4 [] Hl eq_refl). reflexivity.
  - set (id := uuid4 (uuid_next st_pre)).
    (* inside the message *)
    apply loop_cons_inv in Hmid as (Hh_pre & st_a & ev_a & ev_m & Hstart & Hm & ->).
    destruct (message_start_in_message
                (set_message_count (S (message_count st_pre)) st_pre)
                Hinj Hh_pre) as (st_a' & Hstart' & Hin_a).
    rewrite Hstart in Hstart'. injection Hstart' as <- ->.
    cbn [uuid_next set_message_count] in Hin_a. fold id in Hin_a.
    (* before the message *)
    pose proof (loop_avoids_id id pre (initial_state cur lrd n)) as Hbefore.
    rewrite Hpre in Hbefore. destruct Hbefore as (_ & Hbefore).
    destruct Hbefore as [Hev_pre _].
    { discriminate. }
    { intros j Hj Heq. apply Hinj in Heq. lia. }
    subst closing. destruct (halt_event_stream st_mid) eqn:Hh.
    + (* the run is halted inside the message *)
      destruct (loop_in_message_halted id mid (Htruthy _) [] st_a st_mid ev_m
                  Hin_a (List.Forall_nil _) Hinside Hm Hh Hchunks)
        as (Hev_m & Hcm & tcs & Hrun).
      cbn [app framed_prefix] in Hev_m, Hrun.
      destruct (loop_after_halt post st_mid Hh) as (k & Hpost).
      assert (Hclose :
        loop (pre ++ StreamEvent message_start :: mid ++ [])
          (initial_state cur lrd n)
        = (st_mid, ev_pre ++ ev_m, ReachedEnd)).
      { rewrite app_nil_r, loop_app, Hpre.
        rewrite (loop_step _ _ _ _ _ Hh_pre Hstart), Hm. reflexivity. }
      split.
      * unfold _stream_claude_sdk. cbn [app].
        pose proof (cleanup_message_count k st_mid) as Hc.
        erewrite stream_from_unfold; [|
          rewrite loop_app, Hpre;
          rewrite (loop_step _ _ _ _ _ Hh_pre Hstart);
          rewrite loop_app, Hm, Hpost; reflexivity | exact Hc].
        cbn [fst].
        rewrite !text_events_of_app, Hev_pre, Hev_m.
        rewrite (cleanup_avoids_id id st_mid) by (rewrite Hcm; discriminate).
        rewrite messages_snapshot_no_text, !app_nil_r. cbn [app].
        destruct (text_chunks mid) as [|d ds] eqn:Hd; [contradiction|].
        reflexivity.
      * exists st_mid, (ev_pre ++ ev_m), tcs. split; [exact Hclose|exact Hrun].
    + (* the message is closed by [message_stop] *)
      destruct (loop_in_message id mid (Htruthy _) [] st_a st_mid ev_m
                  Hin_a Hinside Hm Hh) as [Hin_m Hev_m].
      cbn [app framed_prefix] in Hin_m, Hev_m.
      destruct (message_stop_in_message id (text_chunks mid)
                  (set_message_count (S (message_count st_mid)) st_mid)
                  (Htruthy _)
                  (in_message_message_count id _ _ st_mid Hin_m)
                  Hchunks (text_chunks_truthy mid))
        as (st_s & tcs & Hstop & Hcm_s & Hu_s & Hrun).
      (* after the message *)
      pose proof (loop_avoids_id id post st_s) as Hpost.
      destruct (loop post st_s) as [[st_f ev_post] ex] eqn:Hlp.
      destruct Hpost as (_ & Hpost).
      destruct Hpost as [Hev_post Hcm_f].
      { rewrite Hcm_s. discriminate. }
      { intros j Hj. destruct Hin_m as (_ & _ & _ & _ & Hfresh).
        apply Hfresh. cbn in Hu_s. lia. }
      (* the whole stream *)
      assert (Hstop_loop :
        loop (StreamEvent message_start :: mid ++ [StreamEvent message_stop])
          st_pre
        = (st_s, ev_m ++ [TextMessageEndEvent tid rid id], ReachedEnd)).
      { rewrite (loop_step _ _ _ _ _ Hh_pre Hstart).
        rewrite loop_app, Hm.
        rewrite (loop_step _ _ _ _ _ Hh Hstop). reflexivity. }
      assert (Hwhole :
        loop (pre ++ StreamEvent message_start :: mid
                  ++ [StreamEvent message_stop] ++ post)
          (initial_state cur lrd n)
        = (st_f, ev_pre ++ ev_m ++ TextMessageEndEvent tid rid id :: ev_post,
           ex)).
      { rewrite loop_app, Hpre.
        rewrite (loop_step _ _ _ _ _ Hh_pre Hstart).
        rewrite loop_app, Hm. cbn [app].
        rewrite (loop_step _ _ _ _ _ Hh Hstop), Hlp. reflexivity. }
      split.
      * unfold _stream_claude_sdk.
        destruct (cleanup st_f) as [st_c ev_c] eqn:Hc.
        rewrite (stream_from_unfold _ _ _ _ _ _ _ _ Hwhole Hc). cbn [fst].
        rewrite !text_events_of_app, Hev_pre.
        change (TextMessageEndEvent tid rid id :: ev_post)
          with ([TextMessageEndEvent tid rid id] ++ ev_post).
        rewrite !text_events_of_app, Hev_post.
        pose proof (cleanup_avoids_id id st_f Hcm_f) as Hcl.
        rewrite Hc in Hcl. cbn [snd] in Hcl.
        rewrite Hcl, messages_snapshot_no_text, !app_nil_r. cbn [app].
        destruct (text_chunks mid) as [|d ds] eqn:Hd; [contradiction|].
        cbn [framed_prefix] in Hev_m. rewrite Hev_m.
        rewrite (text_events_of_same id [_]) by repeat constructor.
        reflexivity.
      * exists st_s, (ev_pre ++ ev_m ++ [TextMessageEndEvent tid rid id]), tcs.
        split; [|exact Hrun].
        rewrite loop_app, Hpre, Hstop_loop. reflexivity.
Qed.



(** ** Properties of every event of a run *)

(** A property of the events of each item holds of the events of the
    loop. *)
Lemma loop_events_forall (P : Event -> Prop) :
  (forall m st, Forall P (snd (on_message m st))) ->
  forall msgs st, Forall P (snd (fst (loop msgs st))).
Proof.
  intros Hm msgs. induction msgs as [|m msgs IH]; intros st.
  - constructor.
  - destruct (halt_event_stream st) eqn:Hh.
    + rewrite loop_cons_halted by assumption. constructor.
    + rewrite loop_cons_running by assumption.
      specialize (Hm m (set_message_count (S (message_count st)) st)).
      destruct (on_message m _) as [st2 ev]. specialize (IH st2).
      destruct (loop msgs st2) as [[st3 ev'] ex]. cbn [fst snd] in *.
      apply Forall_app. split; assumption.
Qed.

Ltac events_forall tac :=
  cbn [snd fst];
  repeat
    (match goal with
     | |- Forall _ [] => constructor
     | |- Forall _ (_ :: _) => constructor; [tac|]
     | |- Forall _ (_ ++ _) => apply Forall_app; split
     | |- Forall _ ?l =>
         match l with
         | context [if ?b then _ else _] => destruct b
         | context [match ?x with _ => _ end] =>
             lazymatch type of x with
             | prod _ _ => fail
             | _ => destruct x
             end
         end
     end; cbn [snd fst]).

Ltac of_run_tac := first [left; reflexivity | right; reflexivity].

Lemma on_blocks_of_run blocks parent st :
  Forall (of_run tid rid) (snd (on_blocks blocks parent st)).
Proof.
  revert st. induction blocks as [|b blocks IH]; intros st.
  - constructor.
  - cbn [Translator.on_blocks].
    match goal with
    | |- context [let '(st1, ev) := ?x in _] =>
        assert (Hb : Forall (of_run tid rid) (snd x));
        [|destruct x as [st1 ev]]
    end.
    { destruct b; cbn [snd]; try constructor.
      - unfold on_tool_use_block, handle_tool_use_block, event_gen.
        destruct (truthy_ostr id); cbn [andb];
          try destruct (bool_decide _); cbn [snd fst]; try constructor.
        all: events_forall of_run_tac.
      - unfold on_tool_result_block, handle_tool_result_block. cbn [snd].
        events_forall of_run_tac. }
    specialize (IH st1). destruct (on_blocks blocks parent st1) as [st2 ev'].
    cbn [snd] in *. apply Forall_app. split; assumption.
Qed.

Lemma on_message_of_run m st : Forall (of_run tid rid) (snd (on_message m st)).
Proof.
  destruct m as [ev|content parent|content parent|subtype data|result meta|].
  - cbn [Translator.on_message].
    unfold on_stream_event, on_message_start, on_text_delta, on_thinking_delta,
      on_input_json_delta, on_content_block_start, on_content_block_stop,
      on_message_stop, close_thinking, intercept_state.
    events_forall of_run_tac.
  - cbn [Translator.on_message]. unfold on_assistant_message.
    destruct (truthy_ostr (current_message_id st));
      destruct (build_agui_assistant_message _ _);
      apply on_blocks_of_run.
  - apply on_blocks_of_run.
  - cbn [Translator.on_message]. unfold on_system_message,
      emit_system_message_events. events_forall of_run_tac.
  - cbn [Translator.on_message]. unfold on_result_message.
    events_forall of_run_tac.
  - constructor.
Qed.

(** Every event the translator yields that has thread and run fields
    carries the thread id and the run id it was given: the events of the
    loop, those of the [finally] block and the messages snapshot. *)
Lemma stream_from_of_run st stream :
  Forall (of_run tid rid) (fst (fst (stream_from st stream))).
Proof.
  unfold stream_from.
  pose proof (loop_events_forall _ on_message_of_run (fst stream) st) as Hl.
  destruct (loop (fst stream) st) as [[st1 ev] ex]. cbn [fst snd] in Hl.
  pose proof (cleanup_spec st1) as Hc.
  destruct (cleanup st1) as [st2 evc]. destruct Hc as (-> & _).
  cbn [fst]. apply Forall_app. split; [exact Hl|].
  unfold messages_snapshot. events_forall of_run_tac.
Qed.


(** ** Without frontend tools the loop never halts *)

Lemma in_frontend_tools_none display :
  (forall d, d ∉ frontend_tool_names) -> in_frontend_tools display = false.
Proof.
  intros Hnone. destruct display as [d|]; [|reflexivity].
  cbn. apply bool_decide_eq_false_2. apply Hnone.
Qed.

Lemma on_content_block_stop_halt st :
  in_frontend_tools (current_tool_display_name st) = false ->
  halt_event_stream (fst (on_content_block_stop st)) = halt_event_stream st.
Proof.
  intros Hf. unfold Translator.on_content_block_stop.
  pose proof (close_thinking_spec st) as Hct.
  destruct (close_thinking st) as [st1 ev_think].
  destruct Hct as (Hid & Hname & Hdisp & Hjson & Hhalt & _).
  destruct (current_tool_call_id st1) as [id|]; [|exact Hhalt].
  destruct (truthy_str id); [|exact Hhalt].
  pose proof (intercept_state_spec st1) as His.
  destruct (intercept_state st1) as [st2 ev_state].
  destruct His as (_ & _ & Hdisp2 & _ & Hhalt2 & _).
  pose proof (push_tool_call_spec id st2) as (_ & _ & Hdisp3 & Hhalt3 & _).
  rewrite Hdisp3, Hdisp2, Hdisp, Hf. cbn [fst].
  cbn. congruence.
Qed.

Lemma on_message_halt m st :
  (forall d, d ∉ frontend_tool_names) ->
  halt_event_stream (fst (on_message m st)) = halt_event_stream st.
Proof.
  intros Hnone.
  destruct m as [ev|content parent|content parent|subtype data|result meta|];
    cbn [Translator.on_message].
  - destruct ev as [|d|b| | | |]; cbn [on_stream_event]; try reflexivity.
    + change (halt_event_stream
                (fst (on_message (StreamEvent (content_block_delta d)) st))
              = halt_event_stream st).
      pose proof (on_delta_frame d st) as Hd.
      destruct (on_message (StreamEvent (content_block_delta d)) st)
        as [st' evs].
      cbn [fst]. destruct Hd as [Hf _]. apply Hf.
    + unfold on_content_block_start.
      destruct b as [|id name|]; try reflexivity.
      destruct id as [i|]; [destruct (truthy_str i)|]; reflexivity.
    + apply on_content_block_stop_halt, in_frontend_tools_none, Hnone.
    + unfold on_message_stop. cbn [fst].
      apply (flush_pending_msg_spec st).
  - unfold Translator.on_assistant_message.
    destruct (truthy_ostr (current_message_id st));
      destruct (build_agui_assistant_message _ _);
      match goal with
      | |- context [Translator.on_blocks _ _ ?c ?p ?s] =>
          pose proof (on_blocks_frame c p s) as Hb;
          destruct (Translator.on_blocks _ _ c p s) as [st' evs]
      end; cbn [fst]; destruct Hb as (_ & _ & _ & _ & _ & ->); reflexivity.
  - pose proof (on_blocks_frame content parent st) as Hb.
    destruct (Translator.on_blocks _ _ content parent st) as [st' evs].
    cbn [fst]. apply Hb.
  - unfold on_system_message. destruct (truthy_str _); reflexivity.
  - unfold on_result_message. destruct (_ && _); reflexivity.
  - reflexivity.
Qed.


(** X2. When the caller declares no frontend tool, the loop never halts:
    it reads the whole vendor stream, and an exception raised by the stream
    is raised again after the cleanup. *)
Theorem no_frontend_tools_no_halt msgs e cur lrd n :
  (forall d, d ∉ frontend_tool_names) ->
  snd (loop msgs (initial_state cur lrd n)) = ReachedEnd
  /\ halt_event_stream (snd (fst (_stream_claude_sdk (msgs, e) cur lrd n)))
     = false
  /\ snd (_stream_claude_sdk (msgs, e) cur lrd n)
     = match e with Raises exc => Some exc | Exhausted => None end.
Proof.
  intros Hnone.
  assert (Hloop : forall l st,
            halt_event_stream st = false ->
            snd (loop l st) = ReachedEnd
            /\ halt_event_stream (fst (fst (loop l st))) = false).
  { induction l as [|m l IH]; intros st Hh; [split; [reflexivity|exact Hh]|].
    rewrite loop_cons_running by exact Hh.
    pose proof (on_message_halt m
                  (set_message_count (S (message_count st)) st) Hnone) as Hm.
    destruct (on_message m _) as [st2 ev]. cbn [fst] in Hm.
    destruct (IH st2) as [Hex Hh2]; [rewrite Hm; exact Hh|].
    destruct (loop l st2) as [[st3 ev'] ex]. cbn [fst snd] in *.
    split; assumption. }
  destruct (Hloop msgs (initial_state cur lrd n) eq_refl) as [Hex Hh].
  split; [exact Hex|].
  unfold Translator._stream_claude_sdk, Translator.stream_from. cbn [fst snd].
  destruct (loop msgs (initial_state cur lrd n)) as [[st1 ev] ex].
  cbn [fst snd] in *. subst ex.
  pose proof (cleanup_spec st1) as Hc.
  destruct (cleanup st1) as [st2 evc].
  destruct Hc as (_ & _ & _ & _ & _ & Hh2 & _). cbn [fst snd].
  split; [congruence|]. destruct e; reflexivity.
Qed.

(** ** Thinking blocks *)

Lemma on_thinking_delta_spec t st :
  exists st',
    on_message (StreamEvent (content_block_delta (thinking_delta t))) st
    = (st', if truthy_str t then [ThinkingTextMessageContentEvent t] else [])
    /\ same_frame st st'
    /\ in_thinking_block st' = in_thinking_block st
    /\ accumulated_thinking_text st' = accumulated_thinking_text st +:+ t.
Proof.
  cbn [Translator.on_message on_stream_event]. unfold on_thinking_delta.
  unfold truthy_str. destruct (String.eqb_spec t "") as [->|Hne]; cbn [negb].
  - exists st. rewrite append_nil_r.
    repeat split; reflexivity.
  - eexists. split; [reflexivity|]. repeat split; reflexivity.
Qed.

Lemma loop_thinking_deltas chunks st :
  halt_event_stream st = false ->
  exists st',
    loop (thinking_msgs chunks) st
    = (st', map ThinkingTextMessageContentEvent (List.filter truthy_str chunks),
       ReachedEnd)
    /\ same_frame st st'
    /\ in_thinking_block st' = in_thinking_block st
    /\ accumulated_thinking_text st'
       = accumulated_thinking_text st +:+ String.concat "" chunks.
Proof.
  revert st. induction chunks as [|t chunks IH]; intros st Hh.
  - exists st. rewrite append_nil_r.
    repeat split; reflexivity.
  - destruct (on_thinking_delta_spec t
                (set_message_count (S (message_count st)) st))
      as (st1 & Hstep & Hframe & Hin & Hacc).
    assert (Hh1 : halt_event_stream st1 = false).
    { destruct Hframe as (_ & _ & _ & _ & _ & -> & _). exact Hh. }
    destruct (IH st1 Hh1) as (st2 & Hloop & Hframe2 & Hin2 & Hacc2).
    exists st2. split.
    { cbn [thinking_msgs map].
      rewrite (loop_step _ _ _ _ _ Hh Hstep).
      fold (thinking_msgs chunks). rewrite Hloop.
      cbn [List.filter]. destruct (truthy_str t); reflexivity. }
    split.
    { eapply same_frame_trans; [|exact Hframe2].
      eapply same_frame_trans; [apply same_frame_message_count|exact Hframe]. }
    split; [rewrite Hin2, Hin; reflexivity|].
    rewrite Hacc2, Hacc, concat_cons, append_assoc. reflexivity.
Qed.

(** X3. A thinking block delivered in chunks while no tool call is open
    and no thinking text is pending: the events are thinking-start, the
    start of the thinking text, one content event per non-empty chunk, the
    end of the text and thinking-end; when the text is not empty it is
    recorded as one developer message under a fresh identifier. *)
Theorem thinking_block_framed chunks st :
  halt_event_stream st = false ->
  current_tool_call_id st = None ->
  accumulated_thinking_text st = "" ->
  exists st',
    loop (thinking_block chunks) st
    = (st',
       ThinkingStartEvent :: ThinkingTextMessageStartEvent
       :: map ThinkingTextMessageContentEvent (List.filter truthy_str chunks)
       ++ [ThinkingTextMessageEndEvent; ThinkingEndEvent],
       ReachedEnd)
    /\ in_thinking_block st' = false
    /\ accumulated_thinking_text st' = ""
    /\ halt_event_stream st' = false
    /\ run_messages st'
       = if truthy_str (String.concat "" chunks)
         then upsert_message
                (DeveloperMessage (uuid4 (uuid_next st))
                   (String.concat "" chunks))
                (run_messages st)
         else run_messages st.
Proof.
  intros Hh Hid Hacc.
  set (st0 := set_in_thinking_block true
                (set_message_count (S (message_count st)) st)).
  destruct (loop_thinking_deltas chunks st0 Hh)
    as (st1 & Hloop & Hframe & Hin & Hacc1).
  destruct Hframe as (_ & _ & Hid1 & _ & _ & Hh1 & Hmsgs1 & _ & Huuid1).
  cbn in Hin, Hid1, Hh1, Hmsgs1, Huuid1, Hacc1.
  rewrite Hacc, append_nil_l in Hacc1.
  unfold thinking_block.
  rewrite Hh in Hh1.
  rewrite (loop_step (StreamEvent (content_block_start thinking_start)) _ st
             st0 [ThinkingStartEvent; ThinkingTextMessageStartEvent] Hh
             eq_refl).
  rewrite loop_app, Hloop.
  set (st1c := set_message_count (S (message_count st1)) st1).
  assert (Hstop : exists st2,
            on_message (StreamEvent content_block_stop) st1c
            = (st2, [ThinkingTextMessageEndEvent; ThinkingEndEvent])
            /\ in_thinking_block st2 = false
            /\ accumulated_thinking_text st2 = ""
            /\ halt_event_stream st2 = false
            /\ run_messages st2
               = if truthy_str (String.concat "" chunks)
                 then upsert_message
                        (DeveloperMessage (uuid4 (uuid_next st))
                           (String.concat "" chunks))
                        (run_messages st)
                 else run_messages st).
  { cbn [Translator.on_message on_stream_event].
    unfold Translator.on_content_block_stop, close_thinking.
    subst st1c. cbn -[truthy_str upsert_message String.concat].
    rewrite Hin, Hacc1.
    destruct (truthy_str (String.concat "" chunks)) eqn:Ht;
      cbn -[truthy_str upsert_message String.concat];
      rewrite Hid, Hid1 || rewrite Hid1, Hid;
      eexists; (split; [reflexivity|]);
      cbn -[truthy_str upsert_message String.concat];
      rewrite ?Hmsgs1, ?Huuid1, ?Hh1, ?Hacc1; repeat split; try assumption.
    unfold truthy_str in Ht. apply negb_false_iff in Ht.
    apply String.eqb_eq in Ht. exact Ht. }
  destruct Hstop as (st2 & Hstop & Hin2 & Hacc2 & Hh2 & Hmsgs2).
  exists st2. split.
  { rewrite (loop_step _ _ _ _ _ Hh1 Hstop). rewrite loop_nil.
    rewrite app_nil_r. reflexivity. }
  repeat split; assumption.
Qed.


(** ** The bookkeeping of tool calls *)

Ltac kept := unfold tracking_kept; repeat split; reflexivity.

Lemma tracking_kept_refl st : tracking_kept st st.
Proof. kept. Qed.

Lemma tracking_kept_trans a b c :
  tracking_kept a b -> tracking_kept b c -> tracking_kept a c.
Proof. unfold tracking_kept. intuition congruence. Qed.

Lemma flush_pending_msg_kept st : tracking_kept st (flush_pending_msg st).
Proof.
  unfold flush_pending_msg. destruct (pending_msg st); [|kept].
  destruct (_ || _); kept.
Qed.

Lemma close_thinking_kept st : tracking_kept st (fst (close_thinking st)).
Proof.
  unfold close_thinking. destruct (in_thinking_block st); [|kept].
  cbn [fst]. destruct (truthy_str _); kept.
Qed.

Lemma intercept_state_kept st : tracking_kept st (fst (intercept_state st)).
Proof.
  unfold intercept_state. destruct (is_state_tool _); [|kept].
  destruct (parse_state_updates _); kept.
Qed.

Lemma push_tool_call_kept id st : tracking_kept st (push_tool_call id st).
Proof.
  unfold push_tool_call. destruct (pending_msg st); [|kept].
  destruct (current_tool_display_name st); [|kept].
  destruct (_ && _); kept.
Qed.

Lemma on_content_block_stop_kept st :
  tracking_kept st (fst (on_content_block_stop st)).
Proof.
  unfold Translator.on_content_block_stop.
  pose proof (close_thinking_kept st) as H1.
  destruct (close_thinking st) as [st1 ev_think]. cbn [fst] in H1.
  destruct (current_tool_call_id st1) as [id|]; [|exact H1].
  destruct (truthy_str id); [|exact H1].
  pose proof (intercept_state_kept st1) as H2.
  destruct (intercept_state st1) as [st2 ev_state]. cbn [fst] in H2.
  pose proof (push_tool_call_kept id st2) as H3.
  set (st3 := push_tool_call id st2) in *.
  pose proof (flush_pending_msg_kept st3) as H4.
  assert (H13 : tracking_kept st st3)
    by (eauto using tracking_kept_trans).
  destruct (in_frontend_tools _); cbn [fst].
  - eapply tracking_kept_trans; [exact H13|].
    eapply tracking_kept_trans; [exact H4|].
    destruct (_ && _); kept.
  - eapply tracking_kept_trans; [exact H13|]. kept.
Qed.

(** What a stream event does to the bookkeeping: only the start of a
    tool-use block with an id writes it. *)
Lemma on_stream_event_tracking ev st :
  let st' := fst (on_message (StreamEvent ev) st) in
  match ev with
  | content_block_start (tool_use_start (Some id) name) =>
      if truthy_str id then
        processed_tool_ids st' = {[id]} ∪ processed_tool_ids st
        /\ tool_name_by_id st'
           = <[id := strip_mcp_prefix (default "unknown" name)]>
               (tool_name_by_id st)
        /\ self_last_result_data st' = self_last_result_data st
      else tracking_kept st st'
  | _ => tracking_kept st st'
  end.
Proof.
  cbn [Translator.on_message]. destruct ev as [|d|b| | | |];
    cbn [on_stream_event]; try kept.
  - destruct d; cbn [fst]; try kept.
    + unfold on_text_delta. destruct (current_message_id st); [|kept].
      destruct (_ && _); [|kept]. cbn [fst].
      destruct (pending_msg _); kept.
    + unfold on_thinking_delta. destruct (truthy_str _); kept.
    + unfold on_input_json_delta. destruct (current_tool_call_id st); [|kept].
      destruct (_ && _); kept.
  - destruct b as [|id name|]; try kept.
    unfold on_content_block_start. destruct id as [i|]; [|kept].
    destruct (truthy_str i); [|kept]. cbn [fst]. repeat split; reflexivity.
  - apply on_content_block_stop_kept.
  - unfold on_message_stop. cbn [fst].
    eapply tracking_kept_trans; [apply flush_pending_msg_kept|kept].
Qed.

Lemma on_tool_use_block_processed id name input parent st :
  let st' := fst (on_tool_use_block id name input parent st) in
  processed_tool_ids st ⊆ processed_tool_ids st'
  /\ (truthy_ostr id = true -> default "" id ∈ processed_tool_ids st').
Proof.
  unfold Translator.on_tool_use_block.
  destruct (truthy_ostr id) eqn:Hid; cbn [andb].
  - destruct (bool_decide _) eqn:Hin.
    + cbn [fst]. split; [set_solver|]. intros _.
      apply bool_decide_eq_true_1 in Hin. exact Hin.
    + unfold handle_tool_use_block. rewrite Hid.
      cbn -[strip_mcp_prefix or_ostr].
      destruct (self_current_state st); cbn -[strip_mcp_prefix or_ostr];
        split; intros; set_solver.
  - unfold handle_tool_use_block. rewrite Hid.
    cbn -[strip_mcp_prefix or_ostr].
    destruct (self_current_state st); cbn -[strip_mcp_prefix or_ostr];
      split; intros; try discriminate; set_solver.
Qed.

Lemma on_blocks_processed blocks parent st :
  let st' := fst (on_blocks blocks parent st) in
  processed_tool_ids st ⊆ processed_tool_ids st'
  /\ forall id name input,
       In (ToolUseBlock (Some id) name input) blocks ->
       truthy_str id = true -> id ∈ processed_tool_ids st'.
Proof.
  revert st. induction blocks as [|b blocks IH]; intros st.
  - cbn. split; [set_solver|]. intros ? ? ? [].
  - cbn [Translator.on_blocks].
    assert (Hb : exists st1 ev,
              match b with
              | ToolUseBlock id name input =>
                  on_tool_use_block id name input parent st
              | ToolResultBlock tool_use_id content _ =>
                  on_tool_result_block tool_use_id content st
              | _ => (st, [])
              end = (st1, ev)
              /\ processed_tool_ids st ⊆ processed_tool_ids st1
              /\ forall id name input,
                   b = ToolUseBlock (Some id) name input ->
                   truthy_str id = true -> id ∈ processed_tool_ids st1).
    { destruct b as [t|t s|id name input|tuid content ie|].
      1,2,5: exists st, []; split; [reflexivity|]; split; [set_solver|];
             intros; discriminate.
      - pose proof (on_tool_use_block_processed id name input parent st)
          as [Hsub Hin].
        destruct (on_tool_use_block id name input parent st) as [st1 ev].
        exists st1, ev. split; [reflexivity|]. split; [exact Hsub|].
        intros i nm inp Heq Ht. injection Heq as -> -> ->.
        apply (Hin Ht).
      - eexists _, _. split; [reflexivity|].
        unfold on_tool_result_block.
        split; [destruct (truthy_ostr tuid); cbn; set_solver|].
        intros; discriminate. }
    destruct Hb as (st1 & ev & -> & Hsub & Hin).
    destruct (IH st1) as [Hsub2 Hin2].
    destruct (on_blocks blocks parent st1) as [st2 ev']. cbn [fst] in *.
    split; [etransitivity; eassumption|].
    intros id name input [Heq|Hrest] Ht.
    + apply Hsub2. eapply Hin; eauto.
    + eapply Hin2; eauto.
Qed.

Lemma on_message_processed m st :
  processed_tool_ids st ⊆ processed_tool_ids (fst (on_message m st)).
Proof.
  destruct m as [ev|content parent|content parent|subtype data|result meta|].
  - pose proof (on_stream_event_tracking ev st) as H. cbn zeta in H.
    destruct ev as [|d|b| | | |]; try (destruct H as [-> _]; set_solver).
    destruct b as [|[i|] name|]; try (destruct H as [-> _]; set_solver).
    destruct (truthy_str i); destruct H as [-> _]; set_solver.
  - cbn [Translator.on_message]. unfold Translator.on_assistant_message.
    destruct (truthy_ostr (current_message_id st));
      destruct (build_agui_assistant_message _ _);
      match goal with
      | |- context [Translator.on_blocks _ _ ?c ?p ?s] =>
          apply (on_blocks_processed c p s)
      end.
  - apply (on_blocks_processed content parent st).
  - cbn [Translator.on_message]. unfold on_system_message.
    destruct (truthy_str _); cbn; set_solver.
  - cbn [Translator.on_message]. unfold on_result_message.
    destruct (_ && _); cbn; set_solver.
  - cbn. set_solver.
Qed.

Lemma loop_processed msgs st :
  processed_tool_ids st ⊆ processed_tool_ids (fst (fst (loop msgs st))).
Proof.
  revert st. induction msgs as [|m msgs IH]; intros st; [cbn; set_solver|].
  destruct (halt_event_stream st) eqn:Hh.
  - rewrite loop_cons_halted by assumption. cbn. set_solver.
  - rewrite loop_cons_running by assumption.
    pose proof (on_message_processed m
                  (set_message_count (S (message_count st)) st)) as Hm.
    destruct (on_message m _) as [st2 ev]. specialize (IH st2).
    destruct (loop msgs st2) as [[st3 ev'] ex]. cbn [fst snd] in *.
    set_solver.
Qed.


Lemma on_blocks_repeated id content parent st :
  truthy_str id = true ->
  id ∈ processed_tool_ids st ->
  forallb (repeats_only id) content = true ->
  on_blocks content parent st = (st, []).
Proof.
  intros Ht Hin. induction content as [|b content IH]; intros Hall;
    [reflexivity|].
  cbn [forallb] in Hall. apply andb_true_iff in Hall as [Hb Hall].
  cbn [Translator.on_blocks].
  assert (Hhead : match b with
                  | ToolUseBlock i name input =>
                      on_tool_use_block i name input parent st
                  | ToolResultBlock tool_use_id c _ =>
                      on_tool_result_block tool_use_id c st
                  | _ => (st, [])
                  end = (st, [])).
  { destruct b as [t|t s|[i|] name input|tuid c ie|]; try reflexivity;
      try discriminate.
    cbn in Hb. apply String.eqb_eq in Hb. subst i.
    unfold Translator.on_tool_use_block. cbn [truthy_ostr default from_option].
    rewrite Ht. cbn [andb]. rewrite bool_decide_eq_true_2 by exact Hin.
    reflexivity. }
  rewrite Hhead, (IH Hall). reflexivity.
Qed.

Lemma announces_processed id first st :
  truthy_str id = true ->
  announces id first = true ->
  id ∈ processed_tool_ids (fst (on_message first st)).
Proof.
  intros Ht Ha.
  assert (Hblocks : forall content parent s,
            existsb (is_tool_use_of id) content = true ->
            id ∈ processed_tool_ids (fst (on_blocks content parent s))).
  { intros content parent s Hex. apply existsb_exists in Hex as [b [Hb Hi]].
    destruct b as [t|t x|[i|] name input|tuid c ie|]; try discriminate.
    cbn in Hi. apply String.eqb_eq in Hi. subst i.
    destruct (on_blocks_processed content parent s) as [_ Hin].
    eapply Hin; eauto. }
  destruct first as [ev|content parent|content parent|subtype data|r meta|];
    try discriminate.
  - destruct ev as [|d|b| | | |]; try discriminate.
    destruct b as [|[i|] name|]; try discriminate.
    cbn in Ha. apply String.eqb_eq in Ha. subst i.
    pose proof (on_stream_event_tracking
                  (content_block_start (tool_use_start (Some id) name)) st)
      as H.
    cbv beta iota zeta in H. rewrite Ht in H. destruct H as [-> _].
    set_solver.
  - cbn [Translator.on_message]. unfold Translator.on_assistant_message.
    destruct (truthy_ostr (current_message_id st));
      destruct (build_agui_assistant_message _ _); apply Hblocks; exact Ha.
  - apply Hblocks. exact Ha.
Qed.

(** X4. A tool call is announced once: after an item that announced the
    tool call [id] (the start of its block in the chunked stream, or a
    complete message holding it), a later complete assistant or user
    message that repeats the tool-use block yields no event. *)
Theorem tool_call_announced_once id first rest content parent st st1 ev :
  truthy_str id = true ->
  announces id first = true ->
  loop (first :: rest) st = (st1, ev, ReachedEnd) ->
  forallb (repeats_only id) content = true ->
  snd (on_message (AssistantMessage content parent) st1) = []
  /\ on_message (UserMessage content parent) st1 = (st1, []).
Proof.
  intros Ht Ha Hloop Hall.
  apply loop_cons_inv in Hloop as (_ & st2 & ev1 & ev2 & Hm & Hrest & _).
  assert (Hin : id ∈ processed_tool_ids st1).
  { pose proof (loop_processed rest st2) as Hmono. rewrite Hrest in Hmono.
    apply Hmono.
    pose proof (announces_processed id first
                  (set_message_count (S (message_count st)) st) Ht Ha) as H.
    rewrite Hm in H. exact H. }
  split.
  - cbn [Translator.on_message]. unfold Translator.on_assistant_message.
    destruct (truthy_ostr (current_message_id st1));
      destruct (build_agui_assistant_message _ _);
      rewrite (on_blocks_repeated id); auto.
  - cbn [Translator.on_message]. apply (on_blocks_repeated id); auto.
Qed.


(** ** The messages of the run *)

Lemma upsert_message_ids msg l :
  map msg_id (upsert_message msg l)
  = if existsb (String.eqb (msg_id msg)) (map msg_id l)
    then map msg_id l
    else map msg_id l ++ [msg_id msg].
Proof.
  induction l as [|m l IH]; [reflexivity|].
  cbn [upsert_message map existsb].
  rewrite (String.eqb_sym (msg_id msg)).
  destruct (String.eqb_spec (msg_id m) (msg_id msg)) as [Heq|Hne].
  - cbn [orb map]. rewrite Heq. reflexivity.
  - cbn [orb map]. rewrite IH.
    destruct (existsb _ _); reflexivity.
Qed.

Lemma upsert_message_NoDup msg l :
  NoDup (map msg_id l) -> NoDup (map msg_id (upsert_message msg l)).
Proof.
  intros Hnd. rewrite upsert_message_ids.
  destruct (existsb _ _) eqn:Hex; [exact Hnd|].
  apply NoDup_app. split; [exact Hnd|]. split; [|apply NoDup_singleton].
  intros x Hx Hx'. apply list_elem_of_singleton in Hx'. subst x.
  assert (Hex' : existsb (String.eqb (msg_id msg)) (map msg_id l) = true).
  { apply existsb_exists. exists (msg_id msg). split.
    - apply list_elem_of_In. exact Hx.
    - apply String.eqb_refl. }
  congruence.
Qed.

Lemma upsert_unique msg st : ids_unique st -> ids_unique (upsert msg st).
Proof. apply upsert_message_NoDup. Qed.

Lemma flush_pending_msg_unique st :
  ids_unique st -> ids_unique (flush_pending_msg st).
Proof.
  unfold flush_pending_msg. intros H. destruct (pending_msg st); [|exact H].
  destruct (_ || _); [apply (upsert_unique _ st H)|exact H].
Qed.

Lemma close_thinking_unique st :
  ids_unique st -> ids_unique (fst (close_thinking st)).
Proof.
  unfold close_thinking. intros H. destruct (in_thinking_block st); [|exact H].
  cbn [fst]. destruct (truthy_str _); [|exact H].
  apply (upsert_message_NoDup _ _ H).
Qed.

Lemma on_content_block_stop_unique st :
  ids_unique st -> ids_unique (fst (on_content_block_stop st)).
Proof.
  intros H. unfold Translator.on_content_block_stop.
  pose proof (close_thinking_unique st H) as H1.
  destruct (close_thinking st) as [st1 ev_think]. cbn [fst] in H1.
  destruct (current_tool_call_id st1) as [id|]; [|exact H1].
  destruct (truthy_str id); [|exact H1].
  pose proof (intercept_state_spec st1) as His.
  destruct (intercept_state st1) as [st2 ev_state].
  destruct His as (_ & _ & _ & _ & _ & _ & _ & _ & _ & Hm2 & _).
  pose proof (push_tool_call_spec id st2)
    as (_ & _ & _ & _ & _ & _ & _ & _ & Hm3).
  assert (H3 : ids_unique (push_tool_call id st2)).
  { unfold ids_unique. rewrite Hm3, Hm2. exact H1. }
  destruct (in_frontend_tools _); cbn [fst].
  - pose proof (flush_pending_msg_unique _ H3) as H4.
    destruct (_ && _); exact H4.
  - exact H3.
Qed.

Lemma on_tool_use_block_messages id name input parent st :
  run_messages (fst (on_tool_use_block id name input parent st))
  = run_messages st.
Proof.
  unfold Translator.on_tool_use_block.
  destruct (truthy_ostr id) eqn:Hid; cbn [andb];
    [destruct (bool_decide _); [reflexivity|]|];
    unfold handle_tool_use_block; rewrite Hid;
    cbn -[strip_mcp_prefix or_ostr];
    destruct (self_current_state st); reflexivity.
Qed.

Lemma on_blocks_unique blocks parent st :
  ids_unique st -> ids_unique (fst (on_blocks blocks parent st)).
Proof.
  revert st. induction blocks as [|b blocks IH]; intros st H; [exact H|].
  cbn [Translator.on_blocks].
  assert (Hb : ids_unique
                 (fst match b with
                      | ToolUseBlock id name input =>
                          on_tool_use_block id name input parent st
                      | ToolResultBlock tool_use_id content _ =>
                          on_tool_result_block tool_use_id content st
                      | _ => (st, [])
                      end)).
  { destruct b as [t|t s|id name input|tuid content ie|]; try exact H.
    - unfold ids_unique. rewrite on_tool_use_block_messages. exact H.
    - unfold Translator.on_tool_result_block. cbn [fst].
      destruct (truthy_ostr tuid); [apply (upsert_unique _ st H)|exact H]. }
  destruct (match b with ToolUseBlock _ _ _ => _ | _ => _ end) as [st1 ev].
  specialize (IH st1 Hb).
  destruct (on_blocks blocks parent st1) as [st2 ev']. exact IH.
Qed.

Lemma on_message_unique m st :
  ids_unique st -> ids_unique (fst (on_message m st)).
Proof.
  intros H.
  destruct m as [ev|content parent|content parent|subtype data|result meta|];
    cbn [Translator.on_message].
  - destruct ev as [|d|b| | | |]; cbn [on_stream_event]; try exact H.
    + change (ids_unique
                (fst (on_message (StreamEvent (content_block_delta d)) st))).
      pose proof (on_delta_frame d st) as Hd.
      destruct (on_message (StreamEvent (content_block_delta d)) st)
        as [st' evs].
      destruct Hd as [(_ & _ & _ & _ & _ & _ & Hm & _) _].
      unfold ids_unique. cbn [fst]. rewrite Hm. exact H.
    + unfold on_content_block_start. destruct b as [|[i|] name|]; try exact H.
      destruct (truthy_str i); exact H.
    + apply on_content_block_stop_unique, H.
    + unfold on_message_stop. cbn [fst].
      apply (flush_pending_msg_unique st H).
  - unfold Translator.on_assistant_message.
    destruct (truthy_ostr (current_message_id st));
      destruct (build_agui_assistant_message _ _);
      apply on_blocks_unique; try exact H;
      apply upsert_message_NoDup; exact H.
  - apply on_blocks_unique, H.
  - unfold on_system_message. destruct (truthy_str _); [|exact H].
    apply (upsert_message_NoDup _ _ H).
  - unfold on_result_message. destruct (_ && _); [|exact H].
    apply (upsert_message_NoDup _ _ H).
  - exact H.
Qed.

Lemma loop_unique msgs st :
  ids_unique st -> ids_unique (fst (fst (loop msgs st))).
Proof.
  revert st. induction msgs as [|m msgs IH]; intros st H; [exact H|].
  destruct (halt_event_stream st) eqn:Hh.
  - rewrite loop_cons_halted by assumption. exact H.
  - rewrite loop_cons_running by assumption.
    pose proof (on_message_unique m
                  (set_message_count (S (message_count st)) st) H) as Hm.
    destruct (on_message m _) as [st2 ev]. specialize (IH st2 Hm).
    destruct (loop msgs st2) as [[st3 ev'] ex]. exact IH.
Qed.

Lemma enrich_ids names l : map msg_id (map (enrich names) l) = map msg_id l.
Proof.
  rewrite map_map. apply map_ext. intros m. unfold enrich.
  destruct (msg_tool_call_id m); [|reflexivity].
  destruct (_ && _); [|reflexivity].
  destruct (names !! _); reflexivity.
Qed.

Lemma on_message_no_snapshot m st :
  Forall (fun e => event_type e <> MESSAGES_SNAPSHOT) (snd (on_message m st)).
Proof.
  assert (Hblocks : forall blocks parent s,
            Forall (fun e => event_type e <> MESSAGES_SNAPSHOT)
              (snd (on_blocks blocks parent s))).
  { induction blocks as [|b blocks IH]; intros parent s; [constructor|].
    cbn [Translator.on_blocks].
    match goal with
    | |- context [let '(st1, ev) := ?x in _] =>
        assert (Hb : Forall (fun e => event_type e <> MESSAGES_SNAPSHOT)
                       (snd x));
        [|destruct x as [st1 ev]]
    end.
    { destruct b; cbn [snd]; try constructor.
      - unfold on_tool_use_block, handle_tool_use_block, event_gen.
        destruct (truthy_ostr id); cbn [andb];
          try destruct (bool_decide _); cbn [snd fst]; try constructor.
        all: events_forall discriminate.
      - unfold on_tool_result_block, handle_tool_result_block. cbn [snd].
        events_forall discriminate. }
    specialize (IH parent st1).
    destruct (on_blocks blocks parent st1) as [st2 ev'].
    cbn [snd] in *. apply Forall_app. split; assumption. }
  destruct m as [ev|content parent|content parent|subtype data|result meta|].
  - cbn [Translator.on_message].
    unfold on_stream_event, on_message_start, on_text_delta, on_thinking_delta,
      on_input_json_delta, on_content_block_start, on_content_block_stop,
      on_message_stop, close_thinking, intercept_state.
    events_forall discriminate.
  - cbn [Translator.on_message]. unfold on_assistant_message.
    destruct (truthy_ostr (current_message_id st));
      destruct (build_agui_assistant_message _ _); apply Hblocks.
  - apply Hblocks.
  - cbn [Translator.on_message]. unfold on_system_message,
      emit_system_message_events. events_forall discriminate.
  - cbn [Translator.on_message]. unfold on_result_message.
    events_forall discriminate.
  - constructor.
Qed.

(** X5. The messages snapshot comes last and at most once: the events of
    the translator are events that are no messages snapshot, followed,
    when the run recorded at least one message, by one snapshot that lists
    the input messages and then the recorded messages, whose ids are
    pairwise distinct. *)
Theorem messages_snapshot_last stream cur lrd n :
  exists body run_part,
    fst (fst (_stream_claude_sdk stream cur lrd n))
    = body ++ match run_part with
              | [] => []
              | _ :: _ =>
                  [MessagesSnapshotEvent (messages input_data ++ run_part)]
              end
    /\ Forall (fun e => event_type e <> MESSAGES_SNAPSHOT) body
    /\ NoDup (map msg_id run_part)
    /\ length run_part
       = length (run_messages (snd (fst (_stream_claude_sdk stream cur lrd n)))).
Proof.
  unfold Translator._stream_claude_sdk, Translator.stream_from.
  pose proof (loop_events_forall _ on_message_no_snapshot (fst stream)
                (initial_state cur lrd n)) as Hev.
  pose proof (loop_unique (fst stream) (initial_state cur lrd n)) as Hu.
  destruct (loop (fst stream) (initial_state cur lrd n)) as [[st1 ev] ex].
  cbn [fst snd] in Hev, Hu.
  specialize (Hu (NoDup_nil_2 (A := string))).
  pose proof (cleanup_spec st1) as Hc.
  destruct (cleanup st1) as [st2 evc].
  destruct Hc as (Hevc & _ & _ & _ & _ & _ & _ & Hmsgs).
  cbn [fst snd].
  exists (ev ++ evc), (map (enrich (tool_name_by_id st2)) (run_messages st2)).
  split.
  { rewrite <- app_assoc. f_equal. f_equal. unfold messages_snapshot.
    destruct (run_messages st2); reflexivity. }
  split.
  { apply Forall_app. split; [exact Hev|]. rewrite Hevc.
    events_forall discriminate. }
  split.
  { rewrite enrich_ids, Hmsgs. apply (flush_pending_msg_unique st1 Hu). }
  apply length_map.
Qed.


(** ** A backend tool call and its result *)

(** The tool-call-result event and the tool message recorded for the
    snapshot carry the same text. *)
Lemma tool_result_agree id content :
  truthy_str id = true ->
  exists s,
    build_agui_tool_message id content = ToolMessage (id +:+ "-result") s id
    /\ handle_tool_result_block (Some id) content tid rid
       = [ToolCallEndEvent tid rid id;
          ToolCallResultEvent tid rid (id +:+ "-result") id s].
Proof.
  intros Ht. unfold build_agui_tool_message, handle_tool_result_block.
  rewrite Ht.
  destruct content as [|b|z|s|l|m]; eexists; split; reflexivity.
Qed.

Lemma loop_deltas_kept args st :
  halt_event_stream st = false ->
  tracking_kept st (fst (fst (loop (delta_msgs args) st))).
Proof.
  revert st. induction args as [|d args IH]; intros st Hh; [kept|].
  cbn [delta_msgs map]. fold (delta_msgs args).
  rewrite loop_cons_running by exact Hh.
  pose proof (on_stream_event_tracking (content_block_delta d)
                (set_message_count (S (message_count st)) st)) as Hk.
  pose proof (on_delta_frame d (set_message_count (S (message_count st)) st))
    as Hf.
  cbv beta iota zeta in Hk.
  destruct (on_message (StreamEvent (content_block_delta d)) _) as [st2 ev].
  cbn [fst] in Hk.
  destruct Hf as [(_ & _ & _ & _ & _ & Hh2 & _) _].
  assert (Hh2' : halt_event_stream st2 = false) by (rewrite Hh2; exact Hh).
  specialize (IH st2 Hh2').
  destruct (loop (delta_msgs args) st2) as [[st3 ev'] ex]. cbn [fst] in *.
  eapply tracking_kept_trans; [|exact IH].
  eapply tracking_kept_trans; [|exact Hk]. kept.
Qed.

Lemma of_type_tool_call_deltas evs :
  Forall (fun e => delta_event e = true) evs ->
  of_type TOOL_CALL_START evs = []
  /\ of_type TOOL_CALL_END evs = []
  /\ of_type TOOL_CALL_RESULT evs = [].
Proof.
  intros Hev. repeat split;
    (eapply delta_events_of_type; [reflexivity| |exact Hev]);
    intros e He; unfold delta_event; rewrite He; reflexivity.
Qed.


Lemma content_block_stop_backend st id name :
  current_tool_call_id st = Some id ->
  truthy_str id = true ->
  in_thinking_block st = false ->
  current_tool_call_name st = Some name ->
  _is_state_management_tool name = false ->
  in_frontend_tools (current_tool_display_name st) = false ->
  exists st',
    on_content_block_stop st = (st', [])
    /\ current_tool_call_id st' = None
    /\ halt_event_stream st' = halt_event_stream st
    /\ run_messages st' = run_messages st
    /\ tracking_kept st st'.
Proof.
  intros Hid Ht Hthink Hname Hstate Hfront.
  pose proof (on_content_block_stop_kept st) as Hkept.
  unfold Translator.on_content_block_stop in *.
  unfold close_thinking in *. rewrite Hthink in *. rewrite Hid, Ht in *.
  unfold intercept_state in *. rewrite Hname in *. cbn [is_state_tool] in *.
  rewrite Hstate in *.
  pose proof (push_tool_call_spec id st)
    as (_ & _ & Hdisp & Hhalt & _ & _ & _ & _ & Hmsgs).
  rewrite Hdisp, Hfront in *. cbn [fst] in Hkept.
  eexists. split; [reflexivity|].
  cbn [current_tool_call_id halt_event_stream run_messages
       set_accumulated_tool_json set_current_tool_display_name
       set_current_tool_call_name set_current_tool_call_id].
  repeat split; try assumption; apply Hkept.
Qed.

(** X6. A backend tool call delivered in chunks and answered by its
    result block: the call is announced by one tool-call-start, its block
    end yields no tool-call-end, and the result block yields the one
    tool-call-end and the tool-call-result. The result text of the event is
    the content of the tool message recorded for the snapshot, and the
    snapshot names that message after the display name of the call. *)
Theorem backend_tool_call_answered id name args content is_error parent st :
  halt_event_stream st = false ->
  in_thinking_block st = false ->
  truthy_str id = true ->
  _is_state_management_tool name = false ->
  strip_mcp_prefix name ∉ frontend_tool_names ->
  exists st' evs result,
    loop (tool_use_block id name args
          ++ [UserMessage [ToolResultBlock (Some id) content is_error] parent])
      st
    = (st', evs, ReachedEnd)
    /\ of_type TOOL_CALL_START evs
       = [ToolCallStartEvent tid rid id (strip_mcp_prefix name)
            (current_message_id st)]
    /\ of_type TOOL_CALL_END evs = [ToolCallEndEvent tid rid id]
    /\ of_type TOOL_CALL_RESULT evs
       = [ToolCallResultEvent tid rid (id +:+ "-result") id result]
    /\ current_tool_call_id st' = None
    /\ In (ToolMessage (id +:+ "-result") result id) (run_messages st')
    /\ enrich (tool_name_by_id st') (ToolMessage (id +:+ "-result") result id)
       = mkMessage (id +:+ "-result") "tool" (ContentStr result) None
           (Some id) (Some (strip_mcp_prefix name)).
Proof.
  intros Hh Hthink Ht Hstate Hfront.
  destruct (loop_tool_use_open id name args st Hh Ht)
    as (st1 & ev_args & Hopen & Hid1 & Hname1 & Hdisp1 & _ & Hh1 & Hthink1
        & _ & _ & Hdelta).
  (* the bookkeeping after the start and the deltas *)
  assert (Hnames1 : tool_name_by_id st1 !! id = Some (strip_mcp_prefix name)).
  { unfold tool_use_open in Hopen.
    pose proof (on_stream_event_tracking
                  (content_block_start (tool_use_start (Some id) (Some name)))
                  (set_message_count (S (message_count st)) st)) as Hk.
    cbv beta iota zeta in Hk. rewrite Ht in Hk.
    pose proof (on_tool_use_start_spec id name
                  (set_message_count (S (message_count st)) st) Ht)
      as (st0 & Hstart & _ & _ & _ & _ & Hh0 & _).
    rewrite Hstart in Hk. cbn [fst] in Hk. destruct Hk as (_ & Hn0 & _).
    rewrite (loop_step _ _ _ _ _ Hh Hstart) in Hopen.
    pose proof (loop_deltas_kept args st0) as Hkept.
    rewrite Hh0 in Hkept. specialize (Hkept Hh).
    destruct (loop (delta_msgs args) st0) as [[sta eva] exa].
    cbn [fst] in Hkept. injection Hopen as <- _ _.
    destruct Hkept as (_ & -> & _). rewrite Hn0.
    cbn [default from_option]. apply lookup_insert_eq. }
  set (st1c := set_message_count (S (message_count st1)) st1).
  destruct (content_block_stop_backend st1c id name)
    as (st2 & Hstop & Hid2 & Hh2 & Hmsgs2 & Hkept2); try assumption.
  { rewrite <- Hthink. exact Hthink1. }
  { cbn. rewrite Hdisp1. cbn. apply bool_decide_eq_false_2. exact Hfront. }
  destruct (tool_result_agree id content Ht) as (result & Hmsg & Hevs).
  set (st2c := set_message_count (S (message_count st2)) st2).
  set (st3 := upsert (build_agui_tool_message id content) st2c).
  exists st3, ([ToolCallStartEvent tid rid id (strip_mcp_prefix name)
                  (current_message_id st)]
               ++ ev_args
               ++ [ToolCallEndEvent tid rid id;
                   ToolCallResultEvent tid rid (id +:+ "-result") id result]),
    result.
  split.
  { unfold tool_use_block. rewrite <- app_assoc, loop_app, Hopen.
    cbn [app].
    rewrite (loop_step (StreamEvent content_block_stop) _ st1 st2 [] Hh1
               Hstop).
    assert (Hh2' : halt_event_stream st2 = false).
    { rewrite Hh2. exact Hh1. }
    rewrite (loop_step (UserMessage [ToolResultBlock (Some id) content
                                       is_error] parent)
               [] st2 st3
               ([ToolCallEndEvent tid rid id;
                 ToolCallResultEvent tid rid (id +:+ "-result") id result]
                ++ []) Hh2').
    - rewrite loop_nil, !app_nil_r. reflexivity.
    - cbn [Translator.on_message Translator.on_blocks].
      unfold Translator.on_tool_result_block.
      cbn [truthy_ostr default from_option]. rewrite Ht, Hevs. reflexivity. }
  destruct (of_type_tool_call_deltas ev_args Hdelta) as (Hs & He & Hr).
  rewrite !of_type_app, Hs, He, Hr.
  split; [reflexivity|]. split; [reflexivity|]. split; [reflexivity|].
  split; [exact Hid2|].
  split.
  { subst st3. cbn [run_messages upsert set_run_messages]. rewrite <- Hmsg.
    apply In_upsert_message. }
  unfold enrich. cbn [msg_tool_call_id ToolMessage msg_role].
  rewrite Ht. cbn [andb String.eqb].
  destruct Hkept2 as (_ & Hn2 & _).
  subst st3. cbn [tool_name_by_id upsert set_run_messages].
  subst st2c. cbn [tool_name_by_id set_message_count].
  rewrite Hn2. subst st1c. cbn [tool_name_by_id set_message_count].
  rewrite Hnames1. reflexivity.
Qed.


(** ** A state update in a complete message *)



End Loop.


(** ** The session worker *)

Section WorkerProperties.

Import SessionWorker.

Context {ClientState : Type}.
Variable client_turn :
  ClientState -> string -> string -> VendorTurn * ClientState.

Implicit Types (w : Worker ClientState) (q : nat).

(** The content of a queue, empty when it was never written. *)
#[local] Abbreviation content w q := (default [] (queues w !! q)).

Lemma put_same q x w : queues (put q x w) !! q = Some (content w q ++ [x]).
Proof. unfold put. simpl. apply lookup_insert_eq. Qed.

Lemma put_other q q' x w : q <> q' -> queues (put q' x w) !! q = queues w !! q.
Proof. intros H. unfold put. simpl. apply lookup_insert_ne. congruence. Qed.

Lemma capture_session_id_queues msg w :
  queues (capture_session_id msg w) = queues w.
Proof.
  destruct msg; try reflexivity. simpl.
  destruct (String.eqb subtype "init"); [|reflexivity].
  destruct (data !! "session_id") as [sid|]; [|reflexivity].
  destruct (truthy_str sid); reflexivity.
Qed.

Lemma capture_session_id_client msg w :
  client (capture_session_id msg w) = client w.
Proof.
  destruct msg; try reflexivity. simpl.
  destruct (String.eqb subtype "init"); [|reflexivity].
  destruct (data !! "session_id") as [sid|]; [|reflexivity].
  destruct (truthy_str sid); reflexivity.
Qed.

(** Forwarding appends the messages to the turn's queue, in stream order. *)
Lemma forward_same msgs q w :
  content (forward msgs q w) q = content w q ++ map QMsg msgs.
Proof.
  revert w. induction msgs as [|m msgs IH]; intros w; simpl.
  - rewrite app_nil_r. reflexivity.
  - rewrite IH, put_same. simpl.
    rewrite capture_session_id_queues, <- app_assoc. reflexivity.
Qed.

Lemma forward_other msgs q q' w :
  q <> q' -> queues (forward msgs q' w) !! q = queues w !! q.
Proof.
  intros H. revert w. induction msgs as [|m msgs IH]; intros w; simpl.
  - reflexivity.
  - rewrite IH, put_other by assumption.
    rewrite capture_session_id_queues. reflexivity.
Qed.

Lemma serve_turn_same prompt sid q w :
  queues (serve_turn client_turn prompt sid q w) !! q
  = Some (content w q ++
          match fst (client_turn (client w) prompt sid) with
          | QueryRaises exc => [WorkerError exc; QNone]
          | Responds msgs Exhausted => map QMsg msgs ++ [QNone]
          | Responds msgs (Raises exc) => map QMsg msgs ++ [WorkerError exc; QNone]
          end).
Proof.
  unfold serve_turn.
  destruct (client_turn (client w) prompt sid) as [turn c]. cbn [fst].
  rewrite put_same. f_equal.
  destruct turn as [exc|msgs [|exc]].
  - rewrite put_same. simpl. rewrite <- app_assoc. reflexivity.
  - rewrite forward_same. simpl. rewrite <- app_assoc. reflexivity.
  - rewrite put_same. simpl. rewrite forward_same. simpl.
    rewrite <- !app_assoc. reflexivity.
Qed.

Lemma serve_turn_other prompt sid q q' w :
  q <> q' -> queues (serve_turn client_turn prompt sid q' w) !! q = queues w !! q.
Proof.
  intros H. unfold serve_turn.
  destruct (client_turn (client w) prompt sid) as [turn c].
  rewrite put_other by assumption.
  destruct turn as [exc|msgs [|exc]].
  - rewrite put_other by assumption. reflexivity.
  - rewrite forward_other by assumption. reflexivity.
  - rewrite put_other, forward_other by assumption. reflexivity.
Qed.

(** Turns written to other queues leave a queue as it is. *)
Lemma run_loop_other items q w :
  (forall p s, ~ In (Turn p s q) items) ->
  queues (run_loop client_turn items w) !! q = queues w !! q.
Proof.
  revert w. induction items as [|it items IH]; intros w Hq; simpl.
  - reflexivity.
  - destruct it as [|p s q']; [reflexivity|].
    rewrite IH.
    + apply serve_turn_other. intros ->. apply (Hq p s). left. reflexivity.
    + intros p' s' Hin. apply (Hq p' s'). right. assumption.
Qed.

Lemma run_loop_app before items w :
  (forall it, In it before -> it <> _SHUTDOWN) ->
  run_loop client_turn (before ++ items) w
  = run_loop client_turn items (run_loop client_turn before w).
Proof.
  revert w. induction before as [|it before IH]; intros w Hns; simpl.
  - reflexivity.
  - destruct it as [|p s q].
    + exfalso. apply (Hns _SHUTDOWN); [left|]; reflexivity.
    + apply IH. intros it Hin. apply Hns. right. assumption.
Qed.

(** C3. Every turn dequeued by the worker's loop gets, on its own output
    queue, the vendor's messages in stream order followed by exactly one
    [None]; when the vendor query or the iteration of the response raises,
    one [WorkerError] wrapping the exception comes just before the [None]. *)
Theorem worker_turn_output_terminated before prompt sid q after w :
  (forall it, In it before -> it <> _SHUTDOWN) ->
  (forall p s, ~ In (Turn p s q) (before ++ after)) ->
  queues w !! q = None ->
  queues (_run client_turn None (before ++ Turn prompt sid q :: after) w) !! q
  = Some
      match
        fst (client_turn (client (run_loop client_turn before w)) prompt sid)
      with
      | QueryRaises exc => [WorkerError exc; QNone]
      | Responds msgs Exhausted => map QMsg msgs ++ [QNone]
      | Responds msgs (Raises exc) => map QMsg msgs ++ [WorkerError exc; QNone]
      end.
Proof.
  intros Hns Hq Hnew. unfold _run.
  rewrite run_loop_app by assumption. simpl.
  rewrite run_loop_other.
  2:{ intros p s Hin. apply (Hq p s). apply in_or_app. right. assumption. }
  rewrite serve_turn_same.
  rewrite run_loop_other.
  2:{ intros p s Hin. apply (Hq p s). apply in_or_app. left. assumption. }
  rewrite Hnew. reflexivity.
Qed.

End WorkerProperties.


(** ** [run] without a user message *)

Lemma process_messages_no_messages input_data :
  messages input_data = [] -> fst (process_messages input_data) = "".
Proof. intros H. unfold process_messages. rewrite H. reflexivity. Qed.

Lemma process_messages_last input_data earlier last_msg :
  messages input_data = earlier ++ [last_msg] ->
  fst (process_messages input_data)
  = match msg_content last_msg with
    | ContentStr s => s
    | ContentList blocks => first_text blocks
    | ContentNone => ""
    end.
Proof.
  intros H. unfold process_messages. rewrite H. cbn [fst].
  rewrite map_app. cbn [map]. rewrite last_last. reflexivity.
Qed.

(** C10. When no user message text can be extracted from the input, [run]
    yields the run-started event and then the run-finished event without
    result data, and nothing else: no state snapshot, even when the input
    carries a state, and no run-error. *)
Theorem run_without_user_message input_data message_stream n :
  fst (process_messages input_data) = "" ->
  exists tid rid captured,
    run input_data message_stream n
    = [RunStartedEvent tid rid (parent_run_id input_data) captured;
       RunFinishedEvent tid rid None].
Proof.
  intros H. unfold run.
  destruct (resolve_ids input_data n) as [[tid rid] n2].
  rewrite H. cbn [truthy_str String.eqb negb].
  eexists _, _, _; reflexivity.
Qed.


(** ** A turn that fails *)

(** X1. The events of a run are bracketed and carry its ids: [run] yields
    run-started first and exactly one of run-finished and run-error last,
    no event in between is an event of the run itself, and every event
    that has thread and run fields carries the thread id and the run id
    resolved at the start (those of the input, or fresh ones when the
    input has none). *)
Theorem run_events_bracketed input_data message_stream n :
  let '(tid, rid, _) := resolve_ids input_data n in
  exists captured middle terminal,
    run input_data message_stream n
    = RunStartedEvent tid rid (parent_run_id input_data) captured
      :: middle ++ [terminal]
    /\ Forall (fun e => run_event e = false) middle
    /\ ((exists result, terminal = RunFinishedEvent tid rid result)
        \/ (exists message, terminal = RunErrorEvent tid rid message))
    /\ Forall (of_run tid rid) (run input_data message_stream n).
Proof.
  unfold run. destruct (resolve_ids input_data n) as [[tid rid] n2].
  destruct (truthy_str (fst (process_messages input_data))); cbn [negb].
  - pose proof (stream_from_no_run_event tid rid input_data
                  (frontend_tools_of input_data)
                  (initial_state (state input_data) None n2) message_stream)
      as Hno.
    pose proof (stream_from_of_run tid rid input_data
                  (frontend_tools_of input_data)
                  (initial_state (state input_data) None n2) message_stream)
      as Hids.
    unfold _stream_claude_sdk.
    destruct (stream_from _ _ _ _ _ message_stream) as [[ev st] err].
    cbn [fst] in Hno, Hids.
    assert (Hstate : Forall (fun e => run_event e = false /\ of_run tid rid e)
                       (if truthy (state input_data)
                        then [StateSnapshotEvent (state input_data)]
                        else [])).
    { destruct (truthy (state input_data)); repeat constructor. }
    destruct err as [exc|]; eexists _, _, _.
    all: split; [rewrite app_assoc; reflexivity|].
    all: split;
      [apply Forall_app; split; [|exact Hno];
       eapply Forall_impl; [exact Hstate|]; intros e He; apply He|].
    all: split; [first [right; eexists; reflexivity
                       |left; eexists; reflexivity]|].
    all: constructor; [right; reflexivity|].
    all: apply Forall_app; split;
      [eapply Forall_impl; [exact Hstate|]; intros e He; apply He|].
    all: apply Forall_app; split; [exact Hids|].
    all: repeat constructor; right; reflexivity.
  - exists (mkInput tid rid (parent_run_id input_data) (messages input_data)
              (tools input_data) (state input_data) (context input_data)
              (forwarded_props input_data)), [], (RunFinishedEvent tid rid None).
    split; [reflexivity|]. split; [constructor|].
    split; [left; eexists; reflexivity|].
    repeat constructor; right; reflexivity.
Qed.


Lemma cleanup_last_result tid rid st :
  self_last_result_data (fst (cleanup tid rid st)) = self_last_result_data st.
Proof.
  unfold cleanup.
  destruct (truthy_ostr (current_tool_call_id st));
    destruct (in_thinking_block _); cbn [fst];
    match goal with
    | |- context [flush_pending_msg ?s] =>
        destruct (flush_pending_msg_kept s) as (_ & _ & ->)
    end; reflexivity.
Qed.

(** X7. The result message: when the loop reaches a [ResultMessage]
    without having halted, its metadata is what run-finished carries at the
    end of the run; and its text is yielded as one assistant text message
    under a fresh id exactly when it is not empty and no text was streamed
    for the current message. *)
Theorem run_finished_carries_result
    input_data msgs result meta n tid rid n2 st1 ev1 :
  truthy_str (fst (process_messages input_data)) = true ->
  resolve_ids input_data n = (tid, rid, n2) ->
  loop tid rid (frontend_tools_of input_data) msgs
    (initial_state (state input_data) None n2)
  = (st1, ev1, ReachedEnd) ->
  halt_event_stream st1 = false ->
  exists st2 evs,
    loop tid rid (frontend_tools_of input_data)
      (msgs ++ [ResultMessage result meta])
      (initial_state (state input_data) None n2)
    = (st2,
       ev1 ++
       (if negb (has_streamed_text st1) && truthy_ostr result then
          [TextMessageStartEvent tid rid (uuid4 (uuid_next st1)) "assistant";
           TextMessageContentEvent tid rid (uuid4 (uuid_next st1))
             (default "" result);
           TextMessageEndEvent tid rid (uuid4 (uuid_next st1))]
        else []),
       ReachedEnd)
    /\ self_last_result_data st2 = Some meta
    /\ run input_data (msgs ++ [ResultMessage result meta], Exhausted) n
       = evs ++ [RunFinishedEvent tid rid (Some meta)].
Proof.
  intros Huser Hids Hloop Hh.
  set (F := frontend_tools_of input_data) in *.
  set (init := initial_state (state input_data) None n2) in *.
  set (st1c := set_message_count (S (message_count st1)) st1).
  destruct (on_result_message tid rid result meta st1c) as [st2 ev2] eqn:Hres.
  assert (Hev2 : ev2
            = if negb (has_streamed_text st1) && truthy_ostr result then
                [TextMessageStartEvent tid rid (uuid4 (uuid_next st1))
                   "assistant";
                 TextMessageContentEvent tid rid (uuid4 (uuid_next st1))
                   (default "" result);
                 TextMessageEndEvent tid rid (uuid4 (uuid_next st1))]
              else []).
  { unfold on_result_message in Hres. subst st1c.
    cbn [has_streamed_text set_self_last_result_data set_message_count
         uuid_next] in Hres.
    destruct (negb (has_streamed_text st1) && truthy_ostr result);
      injection Hres as _ <-; reflexivity. }
  assert (Hlast : self_last_result_data st2 = Some meta).
  { unfold on_result_message in Hres.
    destruct (negb _ && _); injection Hres as <- _; reflexivity. }
  assert (Hl2 : loop tid rid F (msgs ++ [ResultMessage result meta]) init
                = (st2, ev1 ++ ev2, ReachedEnd)).
  { rewrite loop_app, Hloop.
    rewrite (loop_step tid rid F (ResultMessage result meta) []
               st1 st2 ev2 Hh Hres).
    rewrite loop_nil, app_nil_r. reflexivity. }
  destruct (cleanup tid rid st2) as [st3 evc] eqn:Hc.
  exists st2. eexists. split; [rewrite Hl2, Hev2; reflexivity|].
  split; [exact Hlast|].
  unfold run. rewrite Hids, Huser. cbn [negb].
  unfold _stream_claude_sdk. fold F. fold init.
  rewrite (stream_from_unfold tid rid input_data F init _ Exhausted
             st2 (ev1 ++ ev2) ReachedEnd st3 evc Hl2 Hc).
  cbn [stream_error_of].
  pose proof (cleanup_last_result tid rid st2) as Hk. rewrite Hc in Hk.
  cbn [fst] in Hk. rewrite Hk, Hlast.
  rewrite app_comm_cons, app_assoc. reflexivity.
Qed.






(** ** The prompt of a run *)

Lemma first_text_skips_binaries binaries t later :
  Forall (fun b => b = BinaryInputContent) binaries ->
  first_text (binaries ++ TextInputContent t :: later) = t.
Proof. induction 1 as [|b bs -> _ IH]; [reflexivity|exact IH]. Qed.

(** X11. The prompt of a run is the text of the first text block of the
    last message, whatever the history before that message and whatever
    follows the block: binary blocks before it are skipped, later blocks
    are never looked at. So when that first text block is empty, [run]
    yields run-started and run-finished only and never reads the vendor
    stream, even if a later block of the message, or an earlier message,
    has text. *)
Theorem first_text_block_decides
    input_data earlier last_msg binaries t later message_stream n :
  messages input_data = earlier ++ [last_msg] ->
  msg_content last_msg
  = ContentList (binaries ++ TextInputContent t :: later) ->
  Forall (fun b => b = BinaryInputContent) binaries ->
  process_messages input_data = (t, String.eqb (msg_role last_msg) "tool")
  /\ (t = "" ->
      let '(tid, rid, _) := resolve_ids input_data n in
      run input_data message_stream n
      = [RunStartedEvent tid rid (parent_run_id input_data)
           (mkInput tid rid (parent_run_id input_data) (messages input_data)
              (tools input_data) (state input_data) (context input_data)
              (forwarded_props input_data));
         RunFinishedEvent tid rid None]).
Proof.
  intros Hm Hc Hb.
  assert (Hp : process_messages input_data
               = (t, String.eqb (msg_role last_msg) "tool")).
  { unfold process_messages. rewrite Hm, map_app. cbn [map].
    rewrite last_last, Hc, first_text_skips_binaries by exact Hb.
    reflexivity. }
  split; [exact Hp|]. intros ->. unfold run.
  destruct (resolve_ids input_data n) as [[tid rid] n2].
  rewrite Hp. reflexivity.
Qed.


Section TurnErrors.

Import SessionWorker.

Context {ClientState : Type}.
Variable client_turn :
  ClientState -> string -> string -> VendorTurn * ClientState.

(** [query] yields the forwarded messages and raises the exception wrapped
    by the [WorkerError] that follows them. *)
Lemma query_worker_error msgs exc rest :
  query (map QMsg msgs ++ WorkerError exc :: rest) = Some (msgs, Raises exc).
Proof.
  induction msgs as [|m msgs IH]; [reflexivity|].
  cbn [map app query]. rewrite IH. reflexivity.
Qed.

Lemma query_sentinel msgs rest :
  query (map QMsg msgs ++ QNone :: rest) = Some (msgs, Exhausted).
Proof.
  induction msgs as [|m msgs IH]; [reflexivity|].
  cbn [map app query]. rewrite IH. reflexivity.
Qed.

Lemma no_run_event_of_type t evs :
  run_event (match t with
             | RUN_FINISHED => RunFinishedEvent "" "" None
             | RUN_ERROR => RunErrorEvent "" "" ""
             | _ => RunStartedEvent "" "" None input_hi
             end) = true ->
  (t = RUN_STARTED \/ t = RUN_FINISHED \/ t = RUN_ERROR) ->
  Forall (fun e => run_event e = false) evs -> of_type t evs = [].
Proof.
  intros _ Ht H. apply of_type_none.
  induction H as [|e evs He _ IH]; constructor; [|exact IH].
  intros Heq. unfold run_event in He. rewrite Heq in He.
  destruct Ht as [->|[->| ->]]; discriminate.
Qed.

Lemma cleanup_tool_names tid rid st :
  tool_name_by_id (fst (cleanup tid rid st)) = tool_name_by_id st.
Proof.
  unfold cleanup.
  destruct (truthy_ostr (current_tool_call_id st));
    destruct (in_thinking_block _); cbn [fst];
    match goal with
    | |- context [flush_pending_msg ?s] =>
        destruct (flush_pending_msg_kept s) as (_ & -> & _)
    end; reflexivity.
Qed.

(** C4 (as amended). A turn whose vendor query raises, or whose response
    raises after messages that the loop reads to the end: [query] raises the
    wrapped exception after the forwarded messages. The [finally] block of
    the translator then yields, for the state [st1] in which the loop
    stopped, the tool-call-end of the open tool call, the two ends of an
    open thinking block and the text-message-end of an open text message,
    in this order, each only when needed, and flushes the pending message;
    the messages snapshot follows when the run recorded a message, and the
    exception is raised again. [run] yields run-started, the state snapshot
    of a non-empty state, these events, and a run-error carrying the
    exception's text as its last event; it yields no run-finished. *)
Theorem turn_error_surfaces_as_run_error
    (w : Worker ClientState) prompt sid q input_data n msgs exc tid rid n2 :
  queues w !! q = None ->
  (fst (client_turn (client w) prompt sid) = QueryRaises exc /\ msgs = []
   \/ fst (client_turn (client w) prompt sid) = Responds msgs (Raises exc)) ->
  truthy_str (fst (process_messages input_data)) = true ->
  resolve_ids input_data n = (tid, rid, n2) ->
  snd (loop tid rid (frontend_tools_of input_data) msgs
         (initial_state (state input_data) None n2)) = ReachedEnd ->
  exists st1 ev_loop st2,
    let ev_cleanup :=
      (if truthy_ostr (current_tool_call_id st1)
       then [ToolCallEndEvent tid rid (default "" (current_tool_call_id st1))]
       else [])
      ++ (if in_thinking_block st1
          then [ThinkingTextMessageEndEvent; ThinkingEndEvent] else [])
      ++ (if has_streamed_text st1 && truthy_ostr (current_message_id st1)
          then [TextMessageEndEvent tid rid
                  (default "" (current_message_id st1))]
          else []) in
    let snapshot :=
      match run_messages (flush_pending_msg st1) with
      | [] => []
      | _ :: _ =>
          [MessagesSnapshotEvent
             (messages input_data
              ++ map (enrich (tool_name_by_id st1))
                   (run_messages (flush_pending_msg st1)))]
      end in
    query (default [] (queues (serve_turn client_turn prompt sid q w) !! q))
    = Some (msgs, Raises exc)
    /\ loop tid rid (frontend_tools_of input_data) msgs
         (initial_state (state input_data) None n2)
       = (st1, ev_loop, ReachedEnd)
    /\ cleanup tid rid st1 = (st2, ev_cleanup)
    /\ pending_msg st2 = None
    /\ _stream_claude_sdk tid rid input_data (frontend_tools_of input_data)
         (msgs, Raises exc) (state input_data) None n2
       = (ev_loop ++ ev_cleanup ++ snapshot, st2, Some exc)
    /\ run input_data (msgs, Raises exc) n
       = RunStartedEvent tid rid (parent_run_id input_data)
           (mkInput tid rid (parent_run_id input_data) (messages input_data)
              (tools input_data) (state input_data) (context input_data)
              (forwarded_props input_data))
         :: (if truthy (state input_data)
             then [StateSnapshotEvent (state input_data)] else [])
         ++ ev_loop ++ ev_cleanup ++ snapshot
         ++ [RunErrorEvent tid rid (exc_str exc)]
    /\ of_type RUN_FINISHED (run input_data (msgs, Raises exc) n) = []
    /\ of_type RUN_ERROR (run input_data (msgs, Raises exc) n)
       = [RunErrorEvent tid rid (exc_str exc)].
Proof.
  intros Hnew Hturn Huser Hids Hend.
  destruct (loop tid rid (frontend_tools_of input_data) msgs
              (initial_state (state input_data) None n2))
    as [[st1 ev_loop] ex] eqn:Hl.
  cbn [snd] in Hend. subst ex.
  pose proof (cleanup_spec tid rid st1) as Hspec.
  pose proof (cleanup_tool_names tid rid st1) as Hnames.
  destruct (cleanup tid rid st1) as [st2 ev_cleanup] eqn:Hc.
  cbn [fst] in Hnames.
  destruct Hspec as (Hev & _ & _ & Hpending & _ & _ & _ & Hrun).
  exists st1, ev_loop, st2. cbv zeta.
  rewrite <- Hev, <- Hrun, <- Hnames.
  change (match run_messages st2 with
          | [] => []
          | _ :: _ =>
              [MessagesSnapshotEvent
                 (messages input_data
                  ++ map (enrich (tool_name_by_id st2)) (run_messages st2))]
          end) with (messages_snapshot input_data st2).
  assert (Hstream :
    _stream_claude_sdk tid rid input_data (frontend_tools_of input_data)
      (msgs, Raises exc) (state input_data) None n2
    = (ev_loop ++ ev_cleanup ++ messages_snapshot input_data st2, st2,
       Some exc)).
  { unfold _stream_claude_sdk.
    rewrite (stream_from_unfold _ _ _ _ _ _ _ _ _ _ _ _ Hl Hc). reflexivity. }
  split.
  { rewrite serve_turn_same, Hnew. cbn [default from_option Datatypes.id app].
    destruct Hturn as [[-> ->]| ->]; [reflexivity|].
    apply query_worker_error. }
  split; [first [reflexivity|exact Hl]|]. split; [first [reflexivity|exact Hc]|].
  split; [exact Hpending|].
  split; [exact Hstream|].
  pose proof (stream_from_no_run_event tid rid input_data
                (frontend_tools_of input_data)
                (initial_state (state input_data) None n2)
                (msgs, Raises exc)) as Hno.
  pose proof Hstream as Hstream'.
  unfold _stream_claude_sdk in Hstream'. rewrite Hstream' in Hno.
  cbn [fst] in Hno.
  assert (Hrun_eq :
    run input_data (msgs, Raises exc) n
    = RunStartedEvent tid rid (parent_run_id input_data)
        (mkInput tid rid (parent_run_id input_data) (messages input_data)
           (tools input_data) (state input_data) (context input_data)
           (forwarded_props input_data))
      :: (if truthy (state input_data)
          then [StateSnapshotEvent (state input_data)] else [])
      ++ ev_loop ++ ev_cleanup ++ messages_snapshot input_data st2
      ++ [RunErrorEvent tid rid (exc_str exc)]).
  { unfold run. rewrite Hids, Huser. cbn [negb]. rewrite Hstream.
    rewrite <- !app_assoc. reflexivity. }
  split; [exact Hrun_eq|]. rewrite Hrun_eq.
  set (started := RunStartedEvent _ _ _ _).
  set (ev_state := if truthy (state input_data) then _ else _).
  assert (Hall : Forall (fun e => run_event e = false)
                   (ev_state
                    ++ ev_loop ++ ev_cleanup ++ messages_snapshot input_data st2)).
  { apply Forall_app. split; [|exact Hno].
    subst ev_state. destruct (truthy (state input_data)); repeat constructor. }
  change (started :: ev_state ++ ev_loop ++ ev_cleanup
            ++ messages_snapshot input_data st2
            ++ [RunErrorEvent tid rid (exc_str exc)])
    with ([started] ++ ev_state ++ ev_loop ++ ev_cleanup
            ++ messages_snapshot input_data st2
            ++ [RunErrorEvent tid rid (exc_str exc)]).
  replace (ev_state ++ ev_loop ++ ev_cleanup
             ++ messages_snapshot input_data st2
             ++ [RunErrorEvent tid rid (exc_str exc)])
    with ((ev_state ++ ev_loop ++ ev_cleanup
             ++ messages_snapshot input_data st2)
          ++ [RunErrorEvent tid rid (exc_str exc)])
    by (rewrite <- !app_assoc; reflexivity).
  rewrite !(of_type_app _ [started]), !(of_type_app _ _ [RunErrorEvent _ _ _]).
  rewrite (no_run_event_of_type RUN_FINISHED _ eq_refl
             ltac:(auto) Hall).
  rewrite (no_run_event_of_type RUN_ERROR _ eq_refl
             ltac:(auto) Hall).
  split; reflexivity.
Qed.

End TurnErrors.

End Translator.

(** * The model run on sample streams *)

(** The translator, its loop and the run under the sample environment,
    for thread [thread-1] and run [run-1]. *)
Definition sample_sdk :=
  _stream_claude_sdk sample_uuid4 sample_json_loads sample_json_dumps
    sample_json_dumps sample_block_type "thread-1" "run-1".

Definition sample_loop :=
  loop sample_uuid4 sample_json_loads sample_json_dumps sample_json_dumps
    sample_block_type "thread-1" "run-1".

Definition sample_on_message :=
  on_message sample_uuid4 sample_json_loads sample_json_dumps
    sample_json_dumps sample_block_type "thread-1" "run-1".

Definition sample_run :=
  run sample_uuid4 sample_json_loads sample_json_dumps sample_json_dumps
    sample_block_type.

(** The state tool called with a well-formed update in a complete
    message. *)
Definition state_tool_fallback : SDKMessage :=
  AssistantMessage
    [ToolUseBlock (Some "s1") (Some STATE_MANAGEMENT_TOOL_FULL_NAME)
       {["state_updates" := JObj {["count" := JNum 2]}]}]
    None.

Definition merged_state : JSON :=
  JObj (<["count" := JNum 2]> {["name" := JStr "a"]}).

(** The result block of the state tool, as the next user message brings
    it. *)
Definition state_tool_result : SDKMessage :=
  UserMessage
    [ToolResultBlock (Some "s1") (JStr "State updated successfully") None]
    None.

(** The examples of the docstring of [strip_mcp_prefix], and a tool name
    that itself holds a double underscore. *)
Example strip_mcp_prefix_weather :
  strip_mcp_prefix "mcp__weather__get_weather" = "get_weather".
Proof. reflexivity. Qed.

Example strip_mcp_prefix_local : strip_mcp_prefix "local_tool" = "local_tool".
Proof. reflexivity. Qed.

Example strip_mcp_prefix_dunder : strip_mcp_prefix "mcp__s__a__b" = "a__b".
Proof. reflexivity. Qed.

Example strip_mcp_prefix_state_tool :
  strip_mcp_prefix STATE_MANAGEMENT_TOOL_FULL_NAME
  = STATE_MANAGEMENT_TOOL_NAME.
Proof. reflexivity. Qed.

Lemma sample_uuid4_truthy k : truthy_str (sample_uuid4 k) = true.
Proof. destruct k; reflexivity. Qed.

Lemma sample_uuid4_inj i j : sample_uuid4 i = sample_uuid4 j -> i = j.
Proof.
  revert j. induction i as [|i IH]; intros [|j] H; cbn in H;
    try reflexivity; try discriminate.
  f_equal. apply IH. congruence.
Qed.

(** C1, as stated, fails on two kinds of streams. A second
    [message_start] before the [message_stop] abandons the open message:
    its text-message events are a start and a content event, and no end;
    the only text-message-end of the run belongs to the second message.
    And when a frontend tool halts the run before the first text chunk of
    its message, the text that follows is never translated: the message
    has no text-message event at all. *)
Lemma text_message_not_framed :
  text_events_of "m"
    (fst (fst (sample_sdk input_hi ∅ (nested_stream, Exhausted) JNull None 0)))
  = [TextMessageStartEvent "thread-1" "run-1" "m" "assistant";
     TextMessageContentEvent "thread-1" "run-1" "m" "a"]
  /\ of_type TEXT_MESSAGE_END
       (fst (fst (sample_sdk input_hi ∅ (nested_stream, Exhausted)
                    JNull None 0)))
     = [TextMessageEndEvent "thread-1" "run-1" "um"]
  /\ text_chunks late_text_stream = ["x"]
  /\ of_type TEXT_MESSAGE_START
       (fst (fst (sample_sdk input_pick (frontend_tools_of input_pick)
                    (late_text_stream, Exhausted) JNull None 0)))
     = []
  /\ of_type TEXT_MESSAGE_CONTENT
       (fst (fst (sample_sdk input_pick (frontend_tools_of input_pick)
                    (late_text_stream, Exhausted) JNull None 0)))
     = [].
Proof. vm_compute. repeat split. Qed.

Lemma text_message_framed_witness :
  text_events_of "uum"
    (fst (fst (sample_sdk input_hi ∅
       (framed_pre ++ StreamEvent message_start :: framed_mid
          ++ StreamEvent message_stop :: [result_done], Exhausted)
       JNull None 0)))
  = [TextMessageStartEvent "thread-1" "run-1" "uum" "assistant";
     TextMessageContentEvent "thread-1" "run-1" "uum" "Hi";
     TextMessageContentEvent "thread-1" "run-1" "uum" " there";
     TextMessageEndEvent "thread-1" "run-1" "uum"]
  /\ text_events_of "m"
       (fst (fst (sample_sdk input_pick (frontend_tools_of input_pick)
          (StreamEvent message_start :: text_then_frontend_tool
             ++ after_halt, Exhausted)
          JNull None 0)))
     = [TextMessageStartEvent "thread-1" "run-1" "m" "assistant";
        TextMessageContentEvent "thread-1" "run-1" "m" "Hi";
        TextMessageEndEvent "thread-1" "run-1" "m"].
Proof.
  split.
  - pose (r1 := sample_loop ∅ framed_pre (initial_state JNull None 0)).
    pose (r2 := sample_loop ∅ (StreamEvent message_start :: framed_mid)
                  (fst (fst r1))).
    destruct (text_message_framed sample_uuid4 sample_json_loads
                sample_json_dumps sample_json_dumps sample_block_type
                "thread-1" "run-1" input_hi ∅ framed_pre framed_mid
                [result_done] Exhausted JNull None 0
                (fst (fst r1)) (snd (fst r1)) (fst (fst r2)) (snd (fst r2)))
      as [_ [H _]].
    + apply sample_uuid4_truthy.
    + apply sample_uuid4_inj.
    + vm_compute. reflexivity.
    + vm_compute. reflexivity.
    + vm_compute. reflexivity.
    + vm_compute. discriminate.
    + exact H.
  - pose (r2 := sample_loop (frontend_tools_of input_pick)
                  (StreamEvent message_start :: text_then_frontend_tool)
                  (initial_state JNull None 0)).
    destruct (text_message_framed sample_uuid4 sample_json_loads
                sample_json_dumps sample_json_dumps sample_block_type
                "thread-1" "run-1" input_pick (frontend_tools_of input_pick)
                [] text_then_frontend_tool after_halt Exhausted JNull None 0
                (initial_state JNull None 0) [] (fst (fst r2)) (snd (fst r2)))
      as [_ [H _]].
    + apply sample_uuid4_truthy.
    + apply sample_uuid4_inj.
    + reflexivity.
    + vm_compute. reflexivity.
    + vm_compute. reflexivity.
    + vm_compute. discriminate.
    + exact H.
Defined.

(** C2: the [finally] block is there to close what the stream left
    hanging, but it knows one tool call only, the one in
    [current_tool_call_id]. When the stream stops inside the second tool
    call of a message, it closes that call; the first call, whose block had
    closed and whose result never came, keeps a tool-call-start without a
    tool-call-end. The same holds for a single backend tool call when the
    stream raises right after its block. *)
Theorem first_tool_call_left_open :
  of_type TOOL_CALL_START
    (fst (fst (sample_sdk input_hi ∅ (two_tools_stream, Exhausted)
                 JNull None 0)))
  = [ToolCallStartEvent "thread-1" "run-1" "A" "Read" (Some "m");
     ToolCallStartEvent "thread-1" "run-1" "B" "Write" (Some "m")]
  /\ of_type TOOL_CALL_END
       (fst (fst (sample_sdk input_hi ∅ (two_tools_stream, Exhausted)
                    JNull None 0)))
     = [ToolCallEndEvent "thread-1" "run-1" "B"]
  /\ tool_calls_closed
       (fst (fst (sample_sdk input_hi ∅ (two_tools_stream, Exhausted)
                    JNull None 0)))
     = false
  /\ map event_type
       (fst (fst (sample_sdk input_hi ∅
                    (StreamEvent message_start
                     :: tool_use_block "A" "Read" [input_json_delta "{}"],
                     Raises (Exc "boom"))
                    JNull None 0)))
     = [TOOL_CALL_START; TOOL_CALL_ARGS; MESSAGES_SNAPSHOT].
Proof. vm_compute. repeat split. Qed.

Lemma open_tool_call_closed_by_cleanup_witness :
  current_tool_call_id
    (snd (fst (sample_sdk input_hi ∅
                 (two_tools_stream, Raises (Exc "boom")) JNull None 0)))
  = None
  /\ snd (sample_sdk input_hi ∅ (two_tools_stream, Raises (Exc "boom"))
            JNull None 0)
     = Some (Exc "boom").
Proof.
  pose (pre := StreamEvent message_start
               :: tool_use_block "A" "Read" [input_json_delta "{}"]).
  pose (r1 := sample_loop ∅ pre (initial_state JNull None 0)).
  destruct (open_tool_call_closed_by_cleanup sample_uuid4 sample_json_loads
              sample_json_dumps sample_json_dumps sample_block_type
              "thread-1" "run-1" input_hi ∅ pre "B" "Write"
              [input_json_delta "{"] (Raises (Exc "boom")) JNull None 0
              (fst (fst r1)) (snd (fst r1)))
    as (ev_args & st2 & st' & _ & _ & Hsdk & Hcur & _).
  - vm_compute. reflexivity.
  - vm_compute. reflexivity.
  - reflexivity.
  - change two_tools_stream
      with (pre ++ tool_use_open "B" "Write" [input_json_delta "{"]).
    unfold sample_sdk. rewrite Hsdk. cbn [fst snd].
    split; [exact Hcur | reflexivity].
Defined.

Lemma worker_turn_output_terminated_witness :
  SessionWorker.queues
    (SessionWorker._run sample_client None
       [SessionWorker.Turn "a" "s" 0; SessionWorker.Turn "b" "s" 1;
        SessionWorker._SHUTDOWN]
       (SessionWorker.mkWorker nat None ∅ 0))
    !! 1
  = Some (map SessionWorker.QMsg hi_stream
          ++ [SessionWorker.WorkerError (Exc "boom"); SessionWorker.QNone]).
Proof.
  apply (worker_turn_output_terminated sample_client
           [SessionWorker.Turn "a" "s" 0] "b" "s" 1
           [SessionWorker._SHUTDOWN] (SessionWorker.mkWorker nat None ∅ 0)).
  - intros it [<-|[]]. discriminate.
  - intros p s [H|[H|[]]]; discriminate.
  - reflexivity.
Defined.

(** C4, as stated, fails when a frontend tool halted the run: the loop
    breaks on the item after the halt and never asks the stream for more,
    so an exception the response would raise after that item is never
    read; the translator raises nothing and [run] ends with
    run-finished. *)
Lemma halted_turn_error_not_raised :
  SessionWorker.query
    (map SessionWorker.QMsg (halting_stream ++ after_halt)
     ++ [SessionWorker.WorkerError (Exc "boom"); SessionWorker.QNone])
  = Some (halting_stream ++ after_halt, Raises (Exc "boom"))
  /\ snd (sample_sdk input_pick (frontend_tools_of input_pick)
            (halting_stream ++ after_halt, Raises (Exc "boom")) JNull None 0)
     = None
  /\ of_type RUN_ERROR
       (sample_run input_pick
          (halting_stream ++ after_halt, Raises (Exc "boom")) 0)
     = []
  /\ of_type RUN_FINISHED
       (sample_run input_pick
          (halting_stream ++ after_halt, Raises (Exc "boom")) 0)
     = [RunFinishedEvent "thread-1" "run-1" None].
Proof. vm_compute. repeat split. Qed.

Lemma turn_error_surfaces_as_run_error_witness :
  sample_run input_hi (interrupted_stream, Raises (Exc "boom")) 0
  = [RunStartedEvent "thread-1" "run-1" None input_hi;
     TextMessageStartEvent "thread-1" "run-1" "m" "assistant";
     TextMessageContentEvent "thread-1" "run-1" "m" "Hi";
     ToolCallStartEvent "thread-1" "run-1" "A" "Read" (Some "m");
     ToolCallArgsEvent "thread-1" "run-1" "A" "{";
     ToolCallEndEvent "thread-1" "run-1" "A";
     TextMessageEndEvent "thread-1" "run-1" "m";
     MessagesSnapshotEvent
       [user_hi; AguiAssistantMessage "m" (Some "Hi") None];
     RunErrorEvent "thread-1" "run-1" "boom"].
Proof.
  destruct (turn_error_surfaces_as_run_error sample_uuid4 sample_json_loads
              sample_json_dumps sample_json_dumps sample_block_type
              interrupted_client (SessionWorker.mkWorker unit None ∅ tt)
              "hi" "s" 0 input_hi 0 interrupted_stream (Exc "boom")
              "thread-1" "run-1" 0)
    as (st1 & ev_loop & st2 & _ & Hloop & _ & _ & _ & Hrun & _).
  - reflexivity.
  - right. reflexivity.
  - reflexivity.
  - reflexivity.
  - vm_compute. reflexivity.
  - vm_compute in Hloop. injection Hloop as <- <-.
    unfold sample_run. rewrite Hrun. vm_compute. reflexivity.
Defined.

(** C5: on the chunked path a call of the state tool is announced like
    any other tool call, with a tool-call-start and one tool-call-args per
    chunk, and its result block then gives a tool-call-end and a
    tool-call-result. [handle_tool_use_block], on the whole-message path,
    returns after the state snapshot and skips the start and the
    arguments; the result block is translated there as well. *)
Theorem state_tool_chunked_emits_tool_call_events :
  fst (fst (sample_sdk input_hi ∅ (state_tool_stream, Exhausted)
              counter_state None 0))
  = [ToolCallStartEvent "thread-1" "run-1" "s1" STATE_MANAGEMENT_TOOL_NAME
       None;
     ToolCallArgsEvent "thread-1" "run-1" "s1" "{count";
     ToolCallArgsEvent "thread-1" "run-1" "s1" ":2}";
     StateSnapshotEvent merged_state;
     ToolCallEndEvent "thread-1" "run-1" "s1";
     ToolCallResultEvent "thread-1" "run-1" "s1-result" "s1"
       "State updated successfully";
     MessagesSnapshotEvent
       [user_hi;
        mkMessage "s1-result" "tool"
          (ContentStr "State updated successfully") None (Some "s1")
          (Some STATE_MANAGEMENT_TOOL_NAME)]]
  /\ snd (sample_on_message ∅ state_tool_fallback
            (initial_state counter_state None 0))
     = [StateSnapshotEvent merged_state]
  /\ map event_type
       (fst (fst (sample_sdk input_hi ∅
                    ([state_tool_fallback; state_tool_result], Exhausted)
                    counter_state None 0)))
     = [STATE_SNAPSHOT; TOOL_CALL_END; TOOL_CALL_RESULT; MESSAGES_SNAPSHOT].
Proof. vm_compute. repeat split. Qed.

(** C6, as stated, fails: after the halt the loop reads one more item,
    counts it and breaks; of the six items of the stream five are read,
    and the result message is never consumed. *)
Lemma halted_loop_stops_reading :
  length (halting_stream ++ after_halt) = 6
  /\ snd (sample_loop (frontend_tools_of input_pick)
            (halting_stream ++ after_halt) (initial_state JNull None 0))
     = Break [result_done]
  /\ message_count
       (fst (fst (sample_loop (frontend_tools_of input_pick)
                    (halting_stream ++ after_halt)
                    (initial_state JNull None 0))))
     = 5
  /\ self_last_result_data
       (snd (fst (sample_sdk input_pick (frontend_tools_of input_pick)
                    (halting_stream ++ after_halt, Exhausted) JNull None 0)))
     = None.
Proof. vm_compute. repeat split. Qed.

Lemma halted_stream_not_drained_witness :
  snd (sample_loop (frontend_tools_of input_pick)
         (halting_stream ++ StreamEvent message_stop :: [result_done])
         (initial_state JNull None 0))
  = Break [result_done].
Proof.
  pose (r1 := sample_loop (frontend_tools_of input_pick) halting_stream
                (initial_state JNull None 0)).
  destruct (halted_stream_not_drained sample_uuid4 sample_json_loads
              sample_json_dumps sample_json_dumps sample_block_type
              "thread-1" "run-1" input_pick (frontend_tools_of input_pick)
              halting_stream (StreamEvent message_stop) [result_done]
              Exhausted (initial_state JNull None 0)
              (fst (fst r1)) (snd (fst r1)))
    as [Hloop _].
  - vm_compute. reflexivity.
  - vm_compute. reflexivity.
  - unfold sample_loop. rewrite Hloop. reflexivity.
Defined.

(** C7: the check for frontend tools sits in the [content_block_stop]
    branch only. A frontend tool call that arrives in a complete assistant
    message is handled by [handle_tool_use_block], which knows nothing of
    frontend tools: the call is announced by a tool-call-start, the run is
    not halted, no tool-call-end is emitted, and the text of the result
    message still follows. *)
Theorem whole_message_frontend_tool_not_halted :
  halt_event_stream
    (snd (fst (sample_sdk input_pick (frontend_tools_of input_pick)
                 (fallback_frontend_stream, Exhausted) JNull None 0)))
  = false
  /\ of_type TOOL_CALL_START
       (fst (fst (sample_sdk input_pick (frontend_tools_of input_pick)
                    (fallback_frontend_stream, Exhausted) JNull None 0)))
     = [ToolCallStartEvent "thread-1" "run-1" "t1" "pick" None]
  /\ of_type TOOL_CALL_END
       (fst (fst (sample_sdk input_pick (frontend_tools_of input_pick)
                    (fallback_frontend_stream, Exhausted) JNull None 0)))
     = []
  /\ of_type TEXT_MESSAGE_CONTENT
       (fst (fst (sample_sdk input_pick (frontend_tools_of input_pick)
                    (fallback_frontend_stream, Exhausted) JNull None 0)))
     = [TextMessageContentEvent "thread-1" "run-1" "um" "done"].
Proof. vm_compute. repeat split. Qed.

Lemma frontend_tool_halts_witness :
  halt_event_stream
    (snd (fst (sample_sdk input_pick (frontend_tools_of input_pick)
                 (halting_stream ++ after_halt, Exhausted) JNull None 0)))
  = true.
Proof.
  pose (r1 := sample_loop (frontend_tools_of input_pick)
                [StreamEvent message_start] (initial_state JNull None 0)).
  destruct (frontend_tool_halts sample_uuid4 sample_json_loads
              sample_json_dumps sample_json_dumps sample_block_type
              "thread-1" "run-1" input_pick (frontend_tools_of input_pick)
              [StreamEvent message_start] "t1" "mcp__ag_ui__pick"
              [input_json_delta "{}"] JNull None 0
              (fst (fst r1)) (snd (fst r1)))
    as (before & text_end & snapshot & _ & _ & H).
  - vm_compute. reflexivity.
  - vm_compute. reflexivity.
  - reflexivity.
  - apply (bool_decide_unpack _). vm_compute. exact I.
  - destruct (H after_halt Exhausted) as (st' & Hsdk & Hhalt & _).
    change (halting_stream ++ after_halt)
      with ([StreamEvent message_start]
            ++ tool_use_block "t1" "mcp__ag_ui__pick" [input_json_delta "{}"]
            ++ after_halt).
    unfold sample_sdk. rewrite Hsdk. exact Hhalt.
Defined.

(** C8, as stated, fails on the whole-message path: a state-tool call
    whose [state_updates] string is not JSON still emits a state snapshot,
    carrying the empty dictionary when the state so far is not a dictionary
    (here: no state yet) and the state so far when it is one. *)
Lemma malformed_fallback_emits_snapshot :
  of_type STATE_SNAPSHOT
    (fst (fst (sample_sdk input_hi ∅ ([malformed_fallback], Exhausted)
                 JNull None 0)))
  = [StateSnapshotEvent (JObj ∅)]
  /\ of_type STATE_SNAPSHOT
       (fst (fst (sample_sdk input_hi ∅ ([malformed_fallback], Exhausted)
                    counter_state None 0)))
     = [StateSnapshotEvent counter_state].
Proof. vm_compute. split; reflexivity. Qed.

Lemma malformed_state_update_witness :
  of_type STATE_SNAPSHOT
    (snd (fst (sample_loop ∅
                 (tool_use_block "s1" STATE_MANAGEMENT_TOOL_FULL_NAME
                    [input_json_delta "{oops"])
                 (initial_state counter_state None 0))))
  = []
  /\ snd (sample_on_message ∅ malformed_fallback
            (initial_state counter_state None 0))
     = [StateSnapshotEvent counter_state].
Proof.
  destruct (malformed_state_update sample_uuid4 sample_json_loads
              sample_json_dumps sample_json_dumps sample_block_type
              "thread-1" "run-1" input_hi ∅
              "s1" STATE_MANAGEMENT_TOOL_FULL_NAME [input_json_delta "{oops"]
              (initial_state counter_state None 0)
              (Some "s1") (Some STATE_MANAGEMENT_TOOL_FULL_NAME)
              {["state_updates" := JStr "{oops"]} None "{oops"
              (initial_state counter_state None 0))
    as [(st' & evs & Hloop & _ & Hsnap & _) Hfallback].
  - reflexivity.
  - reflexivity.
  - reflexivity.
  - reflexivity.
  - vm_compute. reflexivity.
  - reflexivity.
  - vm_compute. reflexivity.
  - reflexivity.
  - split.
    + unfold sample_loop. rewrite Hloop. exact Hsnap.
    + unfold sample_on_message, malformed_fallback.
      destruct (on_message _ _ _ _ _ _ _ _ _ _) as [stf' evf].
      destruct Hfallback as [_ ->]. reflexivity.
Defined.

(** C9: the arguments of the state-tool call parse to [{count: 2}], the
    state [{count: 1, name: a}] becomes [{count: 2, name: a}], and one state
    snapshot carries it. The snapshot does not stand in for the tool
    result, though: the result block of the call is translated like that
    of any tool, to a tool-call-end and a tool-call-result, and recorded as
    a tool message, on the chunked path and on the whole-message path
    alike. *)
Theorem state_update_result_still_emitted :
  self_current_state
    (snd (fst (sample_sdk input_hi ∅ (state_tool_stream, Exhausted)
                 counter_state None 0)))
  = merged_state
  /\ of_type STATE_SNAPSHOT
       (fst (fst (sample_sdk input_hi ∅ (state_tool_stream, Exhausted)
                    counter_state None 0)))
     = [StateSnapshotEvent merged_state]
  /\ of_type TOOL_CALL_RESULT
       (fst (fst (sample_sdk input_hi ∅ (state_tool_stream, Exhausted)
                    counter_state None 0)))
     = [ToolCallResultEvent "thread-1" "run-1" "s1-result" "s1"
          "State updated successfully"]
  /\ of_type TOOL_CALL_RESULT
       (fst (fst (sample_sdk input_hi ∅
                    ([state_tool_fallback; state_tool_result], Exhausted)
                    counter_state None 0)))
     = [ToolCallResultEvent "thread-1" "run-1" "s1-result" "s1"
          "State updated successfully"]
  /\ run_messages
       (snd (fst (sample_sdk input_hi ∅ (state_tool_stream, Exhausted)
                    counter_state None 0)))
     = [mkMessage "s1-result" "tool"
          (ContentStr "State updated successfully") None (Some "s1") None].
Proof. vm_compute. repeat split. Qed.

Lemma state_update_merged_witness :
  of_type STATE_SNAPSHOT
    (snd (fst (sample_loop ∅
                 (tool_use_block "s1" STATE_MANAGEMENT_TOOL_FULL_NAME
                    [input_json_delta "{count"; input_json_delta ":2}"])
                 (initial_state counter_state None 0))))
  = [StateSnapshotEvent merged_state].
Proof.
  destruct (state_update_merged sample_uuid4 sample_json_loads
              sample_json_dumps sample_json_dumps sample_block_type
              "thread-1" "run-1" ∅
              "s1" STATE_MANAGEMENT_TOOL_FULL_NAME
              [input_json_delta "{count"; input_json_delta ":2}"]
              (initial_state counter_state None 0)
              (<["count" := JNum 1]> {["name" := JStr "a"]})
              {["count" := JNum 2]})
    as (st' & evs & Hloop & _ & Hsnap & _).
  - reflexivity.
  - reflexivity.
  - reflexivity.
  - reflexivity.
  - vm_compute. reflexivity.
  - unfold sample_loop. rewrite Hloop. cbn [fst snd]. rewrite Hsnap.
    vm_compute. reflexivity.
Defined.

Lemma run_without_user_message_witness :
  of_type STATE_SNAPSHOT
    (sample_run input_no_messages (hi_stream, Exhausted) 0) = []
  /\ length (sample_run input_no_messages (hi_stream, Exhausted) 0) = 2.
Proof.
  destruct (run_without_user_message sample_uuid4 sample_json_loads
              sample_json_dumps sample_json_dumps sample_block_type
              input_no_messages (hi_stream, Exhausted) 0)
    as (tid & rid & captured & Hrun).
  - reflexivity.
  - unfold sample_run. rewrite Hrun. split; reflexivity.
Defined.

(** * utils.py: names and messages *)

Lemma split_dunder_nonempty cur s : split_dunder cur s <> [].
Proof.
  revert cur. induction s as [|c s IH]; intros cur; [discriminate|].
  cbn [split_dunder]. destruct s as [|c' s']; [discriminate|].
  destruct (Ascii.eqb c "_" && Ascii.eqb c' "_"); [discriminate|apply IH].
Qed.

Lemma concat_dunder_cons x l :
  l <> [] -> String.concat "__" (x :: l) = x +:+ "__" +:+ String.concat "__" l.
Proof. destruct l; [congruence|reflexivity]. Qed.

(** Joining the pieces of a split gives the string back. *)
Lemma join_split_dunder s :
  forall cur, String.concat "__" (split_dunder cur s) = cur +:+ s.
Proof.
  assert (H : forall n s, String.length s <= n ->
            forall cur, String.concat "__" (split_dunder cur s) = cur +:+ s).
  { clear s. induction n as [|n IH]; intros s Hlen cur.
    - destruct s; [|cbn in Hlen; lia]. cbn. rewrite append_nil_r. reflexivity.
    - destruct s as [|c s]; [cbn; rewrite append_nil_r; reflexivity|].
      cbn [split_dunder]. destruct s as [|c' s'].
      + reflexivity.
      + cbn [String.length] in Hlen.
        destruct (Ascii.eqb c "_" && Ascii.eqb c' "_") eqn:Hd.
        * apply andb_true_iff in Hd as [Hc Hc'].
          apply Ascii.eqb_eq in Hc, Hc'. subst c c'.
          rewrite concat_dunder_cons by apply split_dunder_nonempty.
          rewrite IH by lia. rewrite append_nil_l. reflexivity.
        * rewrite IH by (cbn [String.length]; lia).
          rewrite append_assoc. reflexivity. }
  apply (H (String.length s)). lia.
Qed.

Lemma split_dunder_plain server :
  plain server = true ->
  forall cur tool,
    split_dunder cur (server +:+ "__" +:+ tool)
    = (cur +:+ server) :: split_dunder "" tool.
Proof.
  induction server as [|c server IH]; intros Hp cur tool.
  - rewrite append_nil_l, append_nil_r. reflexivity.
  - rewrite append_cons. cbn [split_dunder plain] in *.
    destruct server as [|c' server'].
    + rewrite append_nil_l.
      change ("__" +:+ tool) with (String "_" (String "_" tool)).
      destruct (Ascii.eqb c "_"); [discriminate|]. cbn [andb].
      cbn [split_dunder]. reflexivity.
    + apply andb_true_iff in Hp as [Hcc Hp].
      rewrite append_cons. rewrite <- append_cons.
      apply negb_true_iff in Hcc. rewrite Hcc.
      rewrite (IH Hp). rewrite append_assoc. reflexivity.
Qed.

Lemma strip_mcp_prefix_plain server tool :
  plain server = true ->
  strip_mcp_prefix ("mcp__" +:+ server +:+ "__" +:+ tool) = tool.
Proof.
  intros Hp. unfold strip_mcp_prefix.
  change ("mcp__" +:+ server +:+ "__" +:+ tool)
    with (String "m" (String "c" (String "p" (String "_" (String "_"
            (server +:+ "__" +:+ tool)))))).
  cbn [String.prefix Ascii.eqb Bool.eqb].
  assert (Hpre : String.prefix "" (server +:+ "__" +:+ tool) = true)
    by (destruct (server +:+ "__" +:+ tool); reflexivity).
  rewrite Hpre.
  cbn [split_dunder Ascii.eqb Bool.eqb andb].
  rewrite (split_dunder_plain server Hp).
  pose proof (split_dunder_nonempty "" tool) as Hne.
  destruct (split_dunder "" tool) as [|t ts] eqn:Hs; [congruence|].
  cbn [length Nat.leb skipn]. rewrite <- Hs, join_split_dunder.
  apply append_nil_l.
Qed.

(** X9. [strip_mcp_prefix] removes exactly [mcp__<server>__]: for a
    server name without a double underscore inside and without an
    underscore at its end, the prefixed name of a tool is mapped back to
    the tool name, whatever underscores the tool name holds; and a name
    that has the prefix [mcp__] but no second separator after it is left
    as it is. *)
Theorem strip_mcp_prefix_prefixed server tool :
  plain server = true ->
  strip_mcp_prefix ("mcp__" +:+ server +:+ "__" +:+ tool) = tool
  /\ (split_dunder "" tool = [tool] ->
      strip_mcp_prefix ("mcp__" +:+ tool) = "mcp__" +:+ tool).
Proof.
  intros Hp. split; [apply strip_mcp_prefix_plain, Hp|].
  intros Hone. unfold strip_mcp_prefix.
  change ("mcp__" +:+ tool)
    with (String "m" (String "c" (String "p" (String "_" (String "_"
            tool))))).
  cbn [String.prefix Ascii.eqb Bool.eqb].
  assert (Hpre : String.prefix "" tool = true) by (destruct tool; reflexivity).
  rewrite Hpre. cbn [split_dunder Ascii.eqb Bool.eqb andb].
  rewrite Hone. reflexivity.
Qed.

(** X10. [strip_mcp_prefix] only ever removes a prefix: the result is a
    suffix of the name, and a name that does not start with [mcp__] is
    returned as it is. *)
Theorem strip_mcp_prefix_suffix name :
  exists removed,
    name = removed +:+ strip_mcp_prefix name
    /\ (String.prefix "mcp__" name = false -> removed = "").
Proof.
  unfold strip_mcp_prefix. destruct (String.prefix "mcp__" name) eqn:Hpre.
  2:{ exists "". split; [reflexivity|reflexivity]. }
  pose proof (join_split_dunder name "") as Hjoin. rewrite append_nil_l in Hjoin.
  destruct (split_dunder "" name) as [|p0 [|p1 [|p2 rest]]] eqn:Hs;
    cbn [length Nat.leb skipn].
  1-3: exists ""; split; [reflexivity|discriminate].
  exists (p0 +:+ "__" +:+ p1 +:+ "__"). split; [|discriminate].
  rewrite <- Hjoin at 1.
  rewrite concat_dunder_cons by discriminate.
  rewrite concat_dunder_cons by discriminate.
  rewrite !append_assoc. reflexivity.
Qed.

Lemma extract_tool_names_In n l :
  In n (extract_tool_names l)
  <-> truthy_str n = true /\ exists t, In t l /\ tool_name t = Some n.
Proof.
  induction l as [|t l IH]; cbn [extract_tool_names].
  - split; [intros []|intros (_ & t & [] & _)].
  - destruct (tool_name t) as [m|] eqn:Hname.
    + destruct (truthy_str m) eqn:Hm.
      * cbn [In]. rewrite IH. split.
        -- intros [<-|(Ht & t' & Hin & Hn)].
           ++ split; [exact Hm|]. exists t. split; [left; reflexivity|exact Hname].
           ++ split; [exact Ht|]. exists t'. split; [right; exact Hin|exact Hn].
        -- intros (Ht & t' & [<-|Hin] & Hn).
           ++ left. congruence.
           ++ right. split; [exact Ht|]. exists t'. split; assumption.
      * rewrite IH. split.
        -- intros (Ht & t' & Hin & Hn). split; [exact Ht|].
           exists t'. split; [right; exact Hin|exact Hn].
        -- intros (Ht & t' & [<-|Hin] & Hn).
           ++ congruence.
           ++ split; [exact Ht|]. exists t'. split; assumption.
    + rewrite IH. split.
      * intros (Ht & t' & Hin & Hn). split; [exact Ht|].
        exists t'. split; [right; exact Hin|exact Hn].
      * intros (Ht & t' & [<-|Hin] & Hn).
        -- congruence.
        -- split; [exact Ht|]. exists t'. split; assumption.
Qed.

(** The frontend tools of a run are the non-empty names of the tool
    definitions of the input. *)
Lemma frontend_tools_of_spec input_data n :
  n ∈ frontend_tools_of input_data
  <-> truthy_str n = true
      /\ exists t, In t (tools input_data) /\ tool_name t = Some n.
Proof.
  unfold frontend_tools_of. rewrite elem_of_list_to_set, list_elem_of_In.
  apply extract_tool_names_In.
Qed.

(** * session.py: the session manager *)

Section ManagerProperties.

Import SessionManager.

Context {Options ClientState : Type}.
Variable new_client : Options -> ClientState.

#[local] Abbreviation Mgr := (Manager Options ClientState).

(** X13. [get_or_create] caches the worker of a thread: the first call
    creates and starts a worker, and as long as the thread is not
    destroyed every later call returns that worker and changes nothing,
    whatever options and key it is given. *)
Theorem get_or_create_cached tid o1 k1 o2 k2 (m : Mgr) :
  let '(w1, m1) := get_or_create new_client tid o1 k1 m in
  get_or_create new_client tid o2 k2 m1 = (w1, m1)
  /\ get_existing tid m1 = Some w1
  /\ (get_existing tid m = None ->
      w1 = started_worker new_client tid o1 k1
      /\ forall tid', tid' <> tid -> get_existing tid' m1 = get_existing tid' m).
Proof.
  unfold get_or_create, get_existing.
  destruct (_workers m !! tid) as [w|] eqn:Hw.
  - rewrite Hw. repeat split; congruence.
  - cbn [_workers]. rewrite lookup_insert_eq.
    repeat split; try reflexivity.
    intros tid' Hne. apply lookup_insert_ne. congruence.
Qed.

Lemma destroy_workers tid tid' (m : Mgr) :
  _workers (destroy tid m) !! tid'
  = if decide (tid' = tid) then None else _workers m !! tid'.
Proof.
  unfold destroy. destruct (_workers m !! tid) eqn:Hw; cbn [_workers].
  - destruct (decide (tid' = tid)) as [->|Hne].
    + apply lookup_delete_eq.
    + apply lookup_delete_ne. congruence.
  - destruct (decide (tid' = tid)) as [->|Hne]; [exact Hw|reflexivity].
Qed.

Lemma destroy_locks tid tid' (m : Mgr) :
  _locks (destroy tid m) !! tid'
  = if decide (tid' = tid) then None else _locks m !! tid'.
Proof.
  unfold destroy. destruct (_workers m !! tid); cbn [_locks];
    (destruct (decide (tid' = tid)) as [->|Hne];
     [apply lookup_delete_eq|apply lookup_delete_ne; congruence]).
Qed.

Lemma destroy_get_session_id tid tid' (m : Mgr) :
  get_session_id tid' (destroy tid m) = get_session_id tid' m.
Proof.
  unfold get_session_id. rewrite destroy_workers.
  destruct (decide (tid' = tid)) as [->|Hne].
  - unfold destroy. destruct (_workers m !! tid) as [w|]; [|reflexivity].
    cbn [_session_ids].
    destruct (w_session_id w) as [sid|] eqn:Hs; cbn [truthy_ostr];
      [|reflexivity].
    destruct (truthy_str sid); [|reflexivity].
    cbn [default from_option]. apply lookup_insert_eq.
  - assert (Hs : _session_ids (destroy tid m) !! tid' = _session_ids m !! tid').
    { unfold destroy. destruct (_workers m !! tid) as [w|]; [|reflexivity].
      cbn [_session_ids]. destruct (truthy_ostr _); [|reflexivity].
      apply lookup_insert_ne. congruence. }
    rewrite Hs. reflexivity.
Qed.

(** X14. [destroy] forgets the worker and the lock of the thread and
    keeps its session id: the id the destroyed worker had captured is still
    what [get_session_id] answers, and no other thread is affected. *)
Theorem destroy_keeps_session_id tid (m : Mgr) :
  get_existing tid (destroy tid m) = None
  /\ _locks (destroy tid m) !! tid = None
  /\ (forall tid', get_session_id tid' (destroy tid m) = get_session_id tid' m)
  /\ forall tid', tid' <> tid ->
       get_existing tid' (destroy tid m) = get_existing tid' m
       /\ _locks (destroy tid m) !! tid' = _locks m !! tid'.
Proof.
  unfold get_existing. split; [|split; [|split]].
  - rewrite destroy_workers. destruct (decide (tid = tid)); congruence.
  - rewrite destroy_locks. destruct (decide (tid = tid)); congruence.
  - intros tid'. apply destroy_get_session_id.
  - intros tid' Hne. rewrite destroy_workers, destroy_locks.
    destruct (decide (tid' = tid)); [congruence|]. split; reflexivity.
Qed.

Lemma destroy_list_workers l (m : Mgr) k :
  _workers (foldl (fun acc tid => destroy tid acc) m l) !! k
  = if decide (k ∈ l) then None else _workers m !! k.
Proof.
  revert m. induction l as [|t l IH]; intros m; cbn [foldl].
  - destruct (decide (k ∈ [])) as [Hin|_]; [|reflexivity].
    apply elem_of_nil in Hin. destruct Hin.
  - rewrite IH, destroy_workers.
    destruct (decide (k ∈ l)) as [Hin|Hnin].
    + rewrite decide_True by (right; exact Hin). reflexivity.
    + destruct (decide (k = t)) as [->|Hne].
      * rewrite decide_True by left. reflexivity.
      * rewrite decide_False; [reflexivity|].
        intros Hin. apply elem_of_cons in Hin as [?|?]; congruence.
Qed.

Lemma destroy_list_locks l (m : Mgr) k :
  _locks (foldl (fun acc tid => destroy tid acc) m l) !! k
  = if decide (k ∈ l) then None else _locks m !! k.
Proof.
  revert m. induction l as [|t l IH]; intros m; cbn [foldl].
  - destruct (decide (k ∈ [])) as [Hin|_]; [|reflexivity].
    apply elem_of_nil in Hin. destruct Hin.
  - rewrite IH, destroy_locks.
    destruct (decide (k ∈ l)) as [Hin|Hnin].
    + rewrite decide_True by (right; exact Hin). reflexivity.
    + destruct (decide (k = t)) as [->|Hne].
      * rewrite decide_True by left. reflexivity.
      * rewrite decide_False; [reflexivity|].
        intros Hin. apply elem_of_cons in Hin as [?|?]; congruence.
Qed.

Lemma destroy_list_session_id l (m : Mgr) k :
  get_session_id k (foldl (fun acc tid => destroy tid acc) m l)
  = get_session_id k m.
Proof.
  revert m. induction l as [|t l IH]; intros m; cbn [foldl]; [reflexivity|].
  rewrite IH. apply destroy_get_session_id.
Qed.

Lemma destroy_stopped tid (m : Mgr) :
  stopped (destroy tid m) = stopped m ++ (if running m tid then [tid] else []).
Proof.
  unfold destroy, running. destruct (_workers m !! tid) as [w|];
    cbn [stopped]; [|rewrite app_nil_r; reflexivity].
  destruct (w_started w); [reflexivity|rewrite app_nil_r; reflexivity].
Qed.

Lemma destroy_list_stopped l (m : Mgr) :
  NoDup l ->
  stopped (foldl (fun acc tid => destroy tid acc) m l)
  = stopped m ++ List.filter (running m) l.
Proof.
  revert m. induction l as [|t l IH]; intros m Hnd; cbn [foldl List.filter].
  - rewrite app_nil_r. reflexivity.
  - apply NoDup_cons in Hnd as [Hnin Hnd].
    rewrite (IH _ Hnd), destroy_stopped, <- app_assoc. f_equal.
    assert (Hext : List.filter (running (destroy t m)) l
                   = List.filter (running m) l).
    { apply filter_ext_in. intros k Hk. unfold running.
      rewrite destroy_workers. rewrite decide_False; [reflexivity|].
      intros ->. apply Hnin. apply list_elem_of_In. exact Hk. }
    rewrite Hext. destruct (running m t); reflexivity.
Qed.

(** X15. [shutdown] destroys every worker: no worker is left, every
    thread that had a worker has lost its lock, each running worker was
    told to stop exactly once, and every session id known before (captured
    by a live worker or kept from a destroyed one) is still known. *)
Theorem shutdown_destroys_all (m : Mgr) :
  _workers (shutdown m) = ∅
  /\ (forall tid, is_Some (_workers m !! tid) ->
                  _locks (shutdown m) !! tid = None)
  /\ (forall tid, get_session_id tid (shutdown m) = get_session_id tid m)
  /\ stopped (shutdown m)
     = stopped m
       ++ List.filter (running m) (map fst (map_to_list (_workers m))).
Proof.
  unfold shutdown.
  assert (Hkeys : forall k, k ∈ map fst (map_to_list (_workers m))
                            <-> is_Some (_workers m !! k)).
  { intros k. rewrite list_elem_of_fmap. split.
    - intros ([k' w] & -> & Hin). apply elem_of_map_to_list in Hin.
      cbn. eauto.
    - intros [w Hw]. exists (k, w). split; [reflexivity|].
      apply elem_of_map_to_list. exact Hw. }
  split; [|split; [|split]].
  - apply map_eq. intros k. rewrite destroy_list_workers, lookup_empty.
    destruct (decide _) as [|Hnin]; [reflexivity|].
    destruct (_workers m !! k) eqn:Hw; [|reflexivity].
    exfalso. apply Hnin, Hkeys. eauto.
  - intros tid Hw. rewrite destroy_list_locks.
    rewrite decide_True by (apply Hkeys; exact Hw). reflexivity.
  - intros tid. apply destroy_list_session_id.
  - apply destroy_list_stopped. apply NoDup_fst_map_to_list.
Qed.

Lemma get_lock_wf tid (m : Mgr) : locks_wf m -> locks_wf (snd (get_lock tid m)).
Proof.
  intros [Hlt Hinj]. unfold get_lock.
  destruct (_locks m !! tid) eqn:Hl; [split; assumption|].
  cbn [snd]. split; cbn [_locks next_lock].
  - intros k l Hk. destruct (decide (k = tid)) as [->|Hne].
    + rewrite lookup_insert_eq in Hk. injection Hk as <-. lia.
    + rewrite lookup_insert_ne in Hk by congruence.
      specialize (Hlt k l Hk). lia.
  - intros k1 k2 l H1 H2.
    destruct (decide (k1 = tid)) as [->|Hne1];
      destruct (decide (k2 = tid)) as [->|Hne2]; try reflexivity.
    + rewrite lookup_insert_eq in H1. injection H1 as <-.
      rewrite lookup_insert_ne in H2 by congruence.
      specialize (Hlt k2 _ H2). lia.
    + rewrite lookup_insert_eq in H2. injection H2 as <-.
      rewrite lookup_insert_ne in H1 by congruence.
      specialize (Hlt k1 _ H1). lia.
    + rewrite lookup_insert_ne in H1, H2 by congruence. eauto.
Qed.

Lemma get_or_create_wf tid o k (m : Mgr) :
  locks_wf m -> locks_wf (snd (get_or_create new_client tid o k m)).
Proof.
  intros [Hlt Hinj]. unfold get_or_create.
  destruct (_workers m !! tid) eqn:Hw; [split; assumption|].
  cbn [snd]. split; cbn [_locks next_lock].
  - intros k0 l Hk. destruct (decide (k0 = tid)) as [->|Hne].
    + rewrite lookup_insert_eq in Hk. injection Hk as <-. lia.
    + rewrite lookup_insert_ne in Hk by congruence.
      specialize (Hlt k0 l Hk). lia.
  - intros k1 k2 l H1 H2.
    destruct (decide (k1 = tid)) as [->|Hne1];
      destruct (decide (k2 = tid)) as [->|Hne2]; try reflexivity.
    + rewrite lookup_insert_eq in H1. injection H1 as <-.
      rewrite lookup_insert_ne in H2 by congruence.
      specialize (Hlt k2 _ H2). lia.
    + rewrite lookup_insert_eq in H2. injection H2 as <-.
      rewrite lookup_insert_ne in H1 by congruence.
      specialize (Hlt k1 _ H1). lia.
    + rewrite lookup_insert_ne in H1, H2 by congruence. eauto.
Qed.

Lemma destroy_next_lock tid (m : Mgr) : next_lock (destroy tid m) = next_lock m.
Proof. unfold destroy. destruct (_workers m !! tid); reflexivity. Qed.

Lemma destroy_wf tid (m : Mgr) : locks_wf m -> locks_wf (destroy tid m).
Proof.
  intros [Hlt Hinj]. split.
  - intros k l. rewrite destroy_locks, destroy_next_lock.
    destruct (decide (k = tid)); [discriminate|apply Hlt].
  - intros k1 k2 l. rewrite !destroy_locks.
    destruct (decide (k1 = tid)); [discriminate|].
    destruct (decide (k2 = tid)); [discriminate|apply Hinj].
Qed.

Lemma new_manager_wf : locks_wf (new_manager : Mgr).
Proof. split; intros *; cbn; rewrite lookup_empty; discriminate. Qed.

Lemma shutdown_wf (m : Mgr) : locks_wf m -> locks_wf (shutdown m).
Proof.
  unfold shutdown. generalize (map fst (map_to_list (_workers m))).
  intros l. revert m. induction l as [|t l IH]; intros m Hwf; [exact Hwf|].
  cbn [foldl]. apply IH, destroy_wf, Hwf.
Qed.

(** [get_lock] answers the lock the dictionary holds, and records the one
    it creates. *)
Lemma get_lock_known tid l (m : Mgr) :
  _locks m !! tid = Some l -> get_lock tid m = (l, m).
Proof. intros H. unfold get_lock. rewrite H. reflexivity. Qed.

Lemma get_lock_fresh tid (m : Mgr) :
  _locks m !! tid = None -> fst (get_lock tid m) = next_lock m.
Proof. intros H. unfold get_lock. rewrite H. reflexivity. Qed.

Lemma get_lock_recorded tid (m : Mgr) :
  _locks (snd (get_lock tid m)) !! tid = Some (fst (get_lock tid m)).
Proof.
  unfold get_lock. destruct (_locks m !! tid) eqn:Hl; cbn; [exact Hl|].
  apply lookup_insert_eq.
Qed.

Lemma get_lock_other tid tid' (m : Mgr) :
  tid' <> tid -> _locks (snd (get_lock tid' m)) !! tid = _locks m !! tid.
Proof.
  intros Hne. unfold get_lock. destruct (_locks m !! tid'); cbn;
    [reflexivity|]. apply lookup_insert_ne. exact Hne.
Qed.

(** X16. The locks of the manager stay one per thread: every operation
    keeps the locks handed out so far older than the next one and distinct
    for distinct threads (as they are in a new manager). Once [get_lock]
    has answered a lock for a thread, no other thread is answered that
    lock, and the thread is answered the same lock again after [get_lock]
    for any thread, after [get_or_create] for another thread or for a
    thread that has its worker, and after [destroy] of another thread. The
    lock is replaced by a new one when [get_or_create] creates the worker
    of the thread (it stores a new lock over the one handed out) and when
    the thread is destroyed. *)
Theorem locks_one_per_thread (m : Mgr) tid :
  locks_wf m ->
  let l := fst (get_lock tid m) in
  let m1 := snd (get_lock tid m) in
  (locks_wf m1
   /\ (forall tid' o k, locks_wf (snd (get_or_create new_client tid' o k m1)))
   /\ (forall tid', locks_wf (destroy tid' m1))
   /\ locks_wf (shutdown m1))
  /\ (forall tid', fst (get_lock tid' m1) = l <-> tid' = tid)
  /\ (forall tid', fst (get_lock tid (snd (get_lock tid' m1))) = l)
  /\ (forall tid' o k,
        tid' <> tid \/ is_Some (get_existing tid m1) ->
        fst (get_lock tid (snd (get_or_create new_client tid' o k m1))) = l)
  /\ (forall tid', tid' <> tid -> fst (get_lock tid (destroy tid' m1)) = l)
  /\ (forall o k,
        get_existing tid m1 = None ->
        fst (get_lock tid (snd (get_or_create new_client tid o k m1)))
        = next_lock m1
        /\ next_lock m1 <> l)
  /\ fst (get_lock tid (destroy tid m1)) = next_lock m1
  /\ next_lock m1 <> l.
Proof.
  intros Hwf l m1.
  pose proof (get_lock_wf tid m Hwf) as Hwf1. fold m1 in Hwf1.
  pose proof (get_lock_recorded tid m) as Hl. fold m1 l in Hl.
  assert (Hlt : l < next_lock m1).
  { destruct Hwf1 as [Hlt _]. exact (Hlt tid l Hl). }
  split.
  { split; [exact Hwf1|].
    split; [intros; apply get_or_create_wf, Hwf1|].
    split; [intros; apply destroy_wf, Hwf1|apply shutdown_wf, Hwf1]. }
  split.
  { intros tid'. split.
    - intros Heq. pose proof (get_lock_recorded tid' m1) as Hl'.
      rewrite Heq in Hl'.
      destruct (decide (tid' = tid)) as [E|Hne]; [exact E|].
      destruct (get_lock_wf tid' m1 Hwf1) as [_ Hinj].
      apply (Hinj tid' tid l Hl').
      rewrite get_lock_other by congruence. exact Hl.
    - intros ->. rewrite (get_lock_known tid l m1 Hl). reflexivity. }
  split.
  { intros tid'. destruct (decide (tid' = tid)) as [->|Hne].
    - rewrite (get_lock_known tid l m1 Hl). cbn [snd].
      rewrite (get_lock_known tid l m1 Hl). reflexivity.
    - erewrite get_lock_known; [reflexivity|].
      rewrite get_lock_other by exact Hne. exact Hl. }
  split.
  { intros tid' o k Hcase. erewrite get_lock_known; [reflexivity|].
    unfold get_or_create, get_existing in *.
    destruct (_workers m1 !! tid') as [w|] eqn:Hw; cbn [snd _locks];
      [exact Hl|].
    rewrite lookup_insert_ne; [exact Hl|].
    intros ->. destruct Hcase as [Hne|[w Hw']]; congruence. }
  split.
  { intros tid' Hne. erewrite get_lock_known; [reflexivity|].
    rewrite destroy_locks. rewrite decide_False by congruence. exact Hl. }
  split.
  { intros o k Hnone. split; [|lia].
    unfold get_or_create, get_existing in *. rewrite Hnone. cbn [snd].
    erewrite get_lock_known; [reflexivity|].
    cbn [_locks]. apply lookup_insert_eq. }
  split; [|lia].
  rewrite get_lock_fresh.
  - apply destroy_next_lock.
  - rewrite destroy_locks. rewrite decide_True by reflexivity. reflexivity.
Qed.

Lemma get_or_create_session_id tid o k (m : Mgr) :
  get_session_id tid (snd (get_or_create new_client tid o k m))
  = get_session_id tid m.
Proof.
  unfold get_or_create.
  destruct (_workers m !! tid) eqn:Hw; [reflexivity|].
  unfold get_session_id. cbn [snd _workers _session_ids].
  rewrite lookup_insert_eq, Hw. reflexivity.
Qed.

(** The session label of a run is the CLI session id known for the
    thread, or the thread id when none is known. *)
Lemma open_session_label tid o k (m : Mgr) :
  let '(_, label, _, _) := open_session new_client tid o k m in
  label = or_ostr (get_session_id tid m) tid.
Proof.
  unfold open_session.
  pose proof (get_or_create_session_id tid o k m) as Hlabel.
  destruct (get_or_create new_client tid o k m) as [w0 m1].
  cbn [snd] in Hlabel. rewrite Hlabel.
  destruct (get_lock tid m1). reflexivity.
Qed.


End ManagerProperties.

(** * session.py: more on the worker *)

Section WorkerTurns.

Import SessionWorker.

Context {ClientState : Type}.
Variable client_turn :
  ClientState -> string -> string -> VendorTurn * ClientState.

(** X18. What [query] reads is what the vendor client produced: for a
    turn served on a new output queue, the caller of [query] gets the
    messages of the response in order and then the end of the stream, or
    the exception the response raised after them, or the exception of the
    query before any message. *)
Theorem served_turn_read_back prompt sid q (w : Worker ClientState) :
  queues w !! q = None ->
  query (default [] (queues (serve_turn client_turn prompt sid q w) !! q))
  = Some match fst (client_turn (client w) prompt sid) with
         | QueryRaises exc => ([], Raises exc)
         | Responds msgs e => (msgs, e)
         end.
Proof.
  intros Hnew. rewrite serve_turn_same, Hnew.
  cbn [default from_option Datatypes.id app].
  destruct (fst (client_turn (client w) prompt sid)) as [exc|msgs [|exc]].
  - reflexivity.
  - rewrite <- (app_nil_r (map QMsg msgs ++ [QNone])), <- app_assoc.
    apply query_sentinel.
  - apply query_worker_error.
Qed.

Lemma capture_session_id_other msg (w : Worker ClientState) :
  carries_session_id msg = false ->
  session_id (capture_session_id msg w) = session_id w.
Proof.
  unfold carries_session_id, capture_session_id.
  destruct msg as [| | |subtype data| |]; try reflexivity.
  destruct (String.eqb subtype "init"); [|reflexivity]. cbn [andb].
  destruct (data !! "session_id") as [sid|]; [|reflexivity].
  intros ->. reflexivity.
Qed.

Lemma put_session_id q x (w : Worker ClientState) :
  session_id (put q x w) = session_id w.
Proof. reflexivity. Qed.

Lemma forward_session_id_other msgs q (w : Worker ClientState) :
  forallb (fun m => negb (carries_session_id m)) msgs = true ->
  session_id (forward msgs q w) = session_id w.
Proof.
  revert w. induction msgs as [|m msgs IH]; intros w Hall; [reflexivity|].
  cbn [forallb] in Hall. apply andb_true_iff in Hall as [Hm Hall].
  cbn [forward]. rewrite (IH _ Hall), put_session_id.
  apply capture_session_id_other. apply negb_true_iff. exact Hm.
Qed.

Lemma forward_app a b q (w : Worker ClientState) :
  forward (a ++ b) q w = forward b q (forward a q w).
Proof.
  revert w. induction a as [|m a IH]; intros w; [reflexivity|].
  cbn [app forward]. apply IH.
Qed.

(** X19. The worker keeps the session id of the last [init] message: when
    the response of a turn holds an [init] system message with a non-empty
    session id and no such message after it, that id is the worker's
    session id after the turn, also when the response raises later on. A
    turn without such a message leaves the session id as it was. *)
Theorem session_id_captured prompt sid q msgs e (w : Worker ClientState) :
  fst (client_turn (client w) prompt sid) = Responds msgs e ->
  (forall before data after s,
     msgs = before ++ SystemMessage "init" data :: after ->
     data !! "session_id" = Some s ->
     truthy_str s = true ->
     forallb (fun m => negb (carries_session_id m)) after = true ->
     session_id (serve_turn client_turn prompt sid q w) = Some s)
  /\ (forallb (fun m => negb (carries_session_id m)) msgs = true ->
      session_id (serve_turn client_turn prompt sid q w) = session_id w).
Proof.
  intros Hturn.
  assert (Hserve :
            session_id (serve_turn client_turn prompt sid q w)
            = session_id
                (forward msgs q
                   (mkWorker ClientState (session_id w) (queues w)
                      (snd (client_turn (client w) prompt sid))))).
  { unfold serve_turn.
    destruct (client_turn (client w) prompt sid) as [turn c].
    cbn [fst snd] in *. subst turn. destruct e; reflexivity. }
  split.
  - intros before data after s -> Hdata Hs Hafter. rewrite Hserve.
    rewrite forward_app. cbn [forward].
    rewrite (forward_session_id_other after q _ Hafter), put_session_id.
    unfold capture_session_id. cbn [String.eqb Ascii.eqb Bool.eqb].
    rewrite Hdata, Hs. reflexivity.
  - intros Hall. rewrite Hserve.
    rewrite (forward_session_id_other msgs q _ Hall). reflexivity.
Qed.

(** X20. Nothing is served behind the shutdown signal: the loop of the
    worker stops at the first [_SHUTDOWN], so a turn queued after it gets
    nothing on its output queue, not even the terminal marker, and
    [query] waits on that queue for ever. *)
Theorem nothing_served_after_shutdown before after (w : Worker ClientState) :
  _run client_turn None (before ++ _SHUTDOWN :: after) w
  = _run client_turn None before w
  /\ forall q,
       queues w !! q = None ->
       (forall p s, ~ In (Turn p s q) before) ->
       query (default []
                (queues (_run client_turn None (before ++ _SHUTDOWN :: after) w)
                   !! q))
       = None.
Proof.
  assert (Hstop : forall w0 : Worker ClientState,
            run_loop client_turn (before ++ _SHUTDOWN :: after) w0
            = run_loop client_turn before w0).
  { induction before as [|it before IH]; intros w0; [reflexivity|].
    cbn [app run_loop]. destruct it as [|p s q0]; [reflexivity|apply IH]. }
  cbn [_run]. split; [apply Hstop|].
  intros q Hnew Hother. rewrite Hstop.
  rewrite (run_loop_other client_turn before q w Hother), Hnew. reflexivity.
Qed.

End WorkerTurns.

(** * utils.py: the options of a run *)

(** X21. Forwarded props override whitelisted options only: after
    [apply_forwarded_props] an option holds the forwarded value when its
    key is in the whitelist and the value is not [None], and what it held
    before in every other case; forwarded props that are no dictionary
    change nothing. With the whitelist of config.py the system prompt, the
    allowed tools, the permission mode, the MCP servers, the working
    directory and the API key cannot be overridden. *)
Theorem forwarded_props_whitelisted forwarded_props merged allowed key :
  apply_forwarded_props forwarded_props merged allowed !! key
  = match forwarded_props with
    | JObj props =>
        match props !! key with
        | Some value =>
            if bool_decide (key ∈ allowed) && negb (is_none value)
            then Some value else merged !! key
        | None => merged !! key
        end
    | _ => merged !! key
    end
  /\ (In key ["system_prompt"; "allowed_tools"; "permission_mode";
              "mcp_servers"; "cwd"; "api_key"] ->
      apply_forwarded_props forwarded_props merged ALLOWED_FORWARDED_PROPS
        !! key
      = merged !! key).
Proof.
  assert (Hfold : forall (allowed0 : gset string) (props : gmap string JSON),
            map_fold
              (fun key value acc =>
                 if bool_decide (key ∈ allowed0) && negb (is_none value)
                 then <[key := value]> acc
                 else acc)
              merged props !! key
            = match props !! key with
              | Some value =>
                  if bool_decide (key ∈ allowed0) && negb (is_none value)
                  then Some value else merged !! key
              | None => merged !! key
              end).
  { intros allowed0 props.
    apply (map_fold_weak_ind
             (fun (r : gmap string JSON) (m : gmap string JSON) =>
                r !! key
                = match m !! key with
                  | Some value =>
                      if bool_decide (key ∈ allowed0) && negb (is_none value)
                      then Some value else merged !! key
                  | None => merged !! key
                  end)).
    - rewrite lookup_empty. reflexivity.
    - intros i x m r Hi IH.
      destruct (decide (i = key)) as [->|Hne].
      + rewrite lookup_insert_eq. rewrite Hi in IH.
        destruct (bool_decide (key ∈ allowed0) && negb (is_none x));
          [apply lookup_insert_eq|exact IH].
      + rewrite (lookup_insert_ne m) by exact Hne.
        destruct (bool_decide (i ∈ allowed0) && negb (is_none x));
          [rewrite lookup_insert_ne by exact Hne|]; exact IH. }
  assert (Hall : forall allowed0 : gset string,
            apply_forwarded_props forwarded_props merged allowed0 !! key
            = match forwarded_props with
              | JObj props =>
                  match props !! key with
                  | Some value =>
                      if bool_decide (key ∈ allowed0) && negb (is_none value)
                      then Some value else merged !! key
                  | None => merged !! key
                  end
              | _ => merged !! key
              end).
  { intros allowed0. unfold apply_forwarded_props.
    destruct forwarded_props as [| | | | |props]; try reflexivity.
    unfold map_is_empty. destruct (map_to_list props) eqn:Hl; [|apply Hfold].
    apply map_to_list_empty_iff in Hl. subst props.
    rewrite lookup_empty. reflexivity. }
  split; [apply Hall|].
  intros Hkey. rewrite Hall.
  destruct forwarded_props as [| | | | |props]; try reflexivity.
  destruct (props !! key); [|reflexivity].
  assert (Hno : bool_decide (key ∈ ALLOWED_FORWARDED_PROPS) = false).
  { cbn [In] in Hkey.
    destruct Hkey as [<-|[<-|[<-|[<-|[<-|[<-|[]]]]]]]; vm_compute; reflexivity. }
  rewrite Hno. reflexivity.
Qed.

Lemma existsb_eqb_In x l : existsb (String.eqb x) l = true <-> In x l.
Proof.
  rewrite existsb_exists. split.
  - intros (y & Hy & Heq). apply String.eqb_eq in Heq. subst y. exact Hy.
  - intros Hin. exists x. split; [exact Hin|apply String.eqb_refl].
Qed.

(** X22. The tools granted to the vendor are the ones the translator
    recognises: [build_options] keeps the allowed tools it was given and
    adds, for every frontend tool name of the input, the name prefixed with
    [mcp__ag_ui__], and the state tool when the input has a state; the
    prefixed name of a frontend tool is stripped back by
    [strip_mcp_prefix] to the declared name, which is among the frontend
    tools that halt the run. *)
Theorem granted_tools_recognised allowed_tools input_data :
  (exists added, grant_ag_ui_tools allowed_tools input_data
                 = allowed_tools ++ added)
  /\ (truthy (state input_data) = true ->
      In STATE_MANAGEMENT_TOOL_FULL_NAME
        (grant_ag_ui_tools allowed_tools input_data))
  /\ forall n,
       In n (extract_tool_names (tools input_data)) ->
       In ("mcp__ag_ui__" +:+ n) (grant_ag_ui_tools allowed_tools input_data)
       /\ strip_mcp_prefix ("mcp__ag_ui__" +:+ n) = n
       /\ n ∈ frontend_tools_of input_data.
Proof.
  unfold grant_ag_ui_tools. split; [|split].
  - destruct (truthy (state input_data) || _); eexists;
      [reflexivity|symmetry; apply app_nil_r].
  - intros Hs. rewrite Hs. cbn [orb andb].
    destruct (existsb _ allowed_tools) eqn:Hex; cbn [negb].
    + apply in_or_app. left. apply existsb_eqb_In. exact Hex.
    + apply in_or_app. right. left. reflexivity.
  - intros n Hn.
    assert (Htools : match tools input_data with [] => false | _ => true end
                     = true).
    { destruct (tools input_data); [destruct Hn|reflexivity]. }
    rewrite Htools, orb_true_r. split; [|split].
    + destruct (existsb (String.eqb ("mcp__ag_ui__" +:+ n)) allowed_tools)
        eqn:Hex.
      * apply in_or_app. left. apply existsb_eqb_In. exact Hex.
      * apply in_or_app. right. apply in_or_app. right.
        apply filter_In. split; [|rewrite Hex; reflexivity].
        apply in_map_iff. exists n. split; [reflexivity|exact Hn].
    + apply (strip_mcp_prefix_plain "ag_ui" n). reflexivity.
    + unfold frontend_tools_of. apply elem_of_list_to_set, list_elem_of_In.
      exact Hn.
Qed.

Section AddendumProperties.

Variable json_dumps_indent : JSON -> option string.
Variable str_of : JSON -> string.

Lemma concat_nonempty sep x l :
  x <> "" -> String.concat sep (x :: l) <> "".
Proof.
  intros Hx. destruct x as [|c x]; [congruence|].
  destruct l; cbn; [discriminate|]. rewrite append_cons. discriminate.
Qed.

(** X23. The addendum to the system prompt is empty exactly when the
    input has neither context items nor a state; otherwise it starts with
    the heading of its first section. *)
Theorem addendum_empty_iff input_data :
  build_state_context_addendum json_dumps_indent str_of input_data = ""
  <-> context input_data = [] /\ truthy (state input_data) = false.
Proof.
  unfold build_state_context_addendum. split.
  - intros Hempty. destruct (context input_data) as [|c ctx].
    + split; [reflexivity|].
      destruct (truthy (state input_data)); [|reflexivity].
      exfalso. revert Hempty. cbn [app]. apply concat_nonempty. discriminate.
    + exfalso. revert Hempty. cbn [app]. apply concat_nonempty. discriminate.
  - intros [-> ->]. reflexivity.
Qed.

End AddendumProperties.

(** * The added properties on sample inputs *)

(** A vendor client whose response starts with the [init] message of a
    session and raises after a further message. *)
Definition resuming_client (c : unit) (prompt sid : string)
    : SessionWorker.VendorTurn * unit :=
  (SessionWorker.Responds (framed_pre ++ [OtherMessage]) (Raises (Exc "boom")),
   tt).

(** A manager with one running worker that has captured a session id. *)
(** A history with a text, and a last message whose first text block is
    empty. *)
Definition empty_first_text : AguiMessage :=
  mkMessage "u2" "user"
    (ContentList
       [BinaryInputContent; TextInputContent ""; TextInputContent "later"])
    None None None.

Definition empty_first_text_input : RunAgentInput :=
  mkInput "thread-1" "run-1" None [user_hi; empty_first_text] [] JNull []
    JNull.



Lemma no_frontend_tools_no_halt_witness :
  snd (sample_sdk input_hi ∅ (hi_stream, Raises (Exc "boom")) JNull None 0)
  = Some (Exc "boom").
Proof.
  destruct (no_frontend_tools_no_halt sample_uuid4 sample_json_loads
              sample_json_dumps sample_json_dumps sample_block_type
              "thread-1" "run-1" input_hi ∅ hi_stream (Raises (Exc "boom"))
              JNull None 0)
    as (_ & _ & H).
  - intros d. apply not_elem_of_empty.
  - exact H.
Defined.

Lemma thinking_block_framed_witness :
  snd (fst (sample_loop ∅ (thinking_block ["a"; ""; "b"])
              (initial_state JNull None 0)))
  = [ThinkingStartEvent; ThinkingTextMessageStartEvent;
     ThinkingTextMessageContentEvent "a"; ThinkingTextMessageContentEvent "b";
     ThinkingTextMessageEndEvent; ThinkingEndEvent].
Proof.
  destruct (thinking_block_framed sample_uuid4 sample_json_loads
              sample_json_dumps sample_json_dumps sample_block_type
              "thread-1" "run-1" ∅ ["a"; ""; "b"]
              (initial_state JNull None 0))
    as (st' & Hloop & _).
  - reflexivity.
  - reflexivity.
  - reflexivity.
  - unfold sample_loop. rewrite Hloop. reflexivity.
Defined.

Lemma tool_call_announced_once_witness :
  snd (sample_on_message ∅
         (AssistantMessage
            [TextBlock "x"; ToolUseBlock (Some "A") (Some "Read") ∅] None)
         (fst (fst (sample_loop ∅
                      (tool_use_block "A" "Read" [input_json_delta "{}"])
                      (initial_state JNull None 0)))))
  = [].
Proof.
  pose (r := sample_loop ∅ (tool_use_block "A" "Read" [input_json_delta "{}"])
               (initial_state JNull None 0)).
  apply (tool_call_announced_once sample_uuid4 sample_json_loads
           sample_json_dumps sample_json_dumps sample_block_type
           "thread-1" "run-1" ∅ "A"
           (StreamEvent (content_block_start
                           (tool_use_start (Some "A") (Some "Read"))))
           (delta_msgs [input_json_delta "{}"]
            ++ [StreamEvent content_block_stop])
           [TextBlock "x"; ToolUseBlock (Some "A") (Some "Read") ∅] None
           (initial_state JNull None 0) (fst (fst r)) (snd (fst r))).
  - reflexivity.
  - reflexivity.
  - vm_compute. reflexivity.
  - reflexivity.
Defined.

Lemma backend_tool_call_answered_witness :
  of_type TOOL_CALL_END
    (snd (fst (sample_loop ∅
                 (tool_use_block "A" "Read" [input_json_delta "{}"]
                  ++ [UserMessage
                        [ToolResultBlock (Some "A") (JStr "ok") None] None])
                 (initial_state JNull None 0))))
  = [ToolCallEndEvent "thread-1" "run-1" "A"].
Proof.
  destruct (backend_tool_call_answered sample_uuid4 sample_json_loads
              sample_json_dumps sample_json_dumps sample_block_type
              "thread-1" "run-1" ∅ "A" "Read" [input_json_delta "{}"]
              (JStr "ok") None None (initial_state JNull None 0))
    as (st' & evs & result & Hloop & _ & Hend & _).
  - reflexivity.
  - reflexivity.
  - reflexivity.
  - reflexivity.
  - apply not_elem_of_empty.
  - unfold sample_loop. rewrite Hloop. exact Hend.
Defined.


Lemma run_finished_carries_result_witness :
  exists evs,
    sample_run input_hi (hi_stream ++ [result_done], Exhausted) 0
    = evs ++ [RunFinishedEvent "thread-1" "run-1"
                (Some (mkResultData (Some false) None None (Some 1%Z)
                         JNull JNull JNull))].
Proof.
  pose (r := sample_loop ∅ hi_stream (initial_state JNull None 0)).
  destruct (run_finished_carries_result sample_uuid4 sample_json_loads
              sample_json_dumps sample_json_dumps sample_block_type
              input_hi hi_stream (Some "done")
              (mkResultData (Some false) None None (Some 1%Z)
                 JNull JNull JNull)
              0 "thread-1" "run-1" 0 (fst (fst r)) (snd (fst r)))
    as (st2 & evs & _ & _ & Hrun).
  - reflexivity.
  - reflexivity.
  - vm_compute. reflexivity.
  - vm_compute. reflexivity.
  - exists evs. exact Hrun.
Defined.


Lemma strip_mcp_prefix_prefixed_witness :
  strip_mcp_prefix "mcp__ag_ui__generate__haiku" = "generate__haiku".
Proof.
  exact (proj1 (strip_mcp_prefix_prefixed "ag_ui" "generate__haiku" eq_refl)).
Defined.

Lemma first_text_block_decides_witness :
  sample_run empty_first_text_input (hi_stream, Exhausted) 0
  = [RunStartedEvent "thread-1" "run-1" None empty_first_text_input;
     RunFinishedEvent "thread-1" "run-1" None].
Proof.
  destruct (first_text_block_decides sample_uuid4 sample_json_loads
              sample_json_dumps sample_json_dumps sample_block_type
              empty_first_text_input [user_hi] empty_first_text
              [BinaryInputContent] "" [TextInputContent "later"]
              (hi_stream, Exhausted) 0) as [_ H].
  - reflexivity.
  - reflexivity.
  - repeat constructor.
  - exact (H eq_refl).
Defined.

Lemma locks_one_per_thread_witness :
  fst (SessionManager.get_lock "t"
         (snd (SessionManager.get_lock "u"
                 (snd (SessionManager.get_lock "t"
                         (SessionManager.new_manager
                          : SessionManager.Manager unit unit))))))
  = 0
  /\ fst (SessionManager.get_lock "u"
            (snd (SessionManager.get_lock "t"
                    (SessionManager.new_manager
                     : SessionManager.Manager unit unit))))
     <> 0
  /\ fst (SessionManager.get_lock "t"
            (snd (SessionManager.get_or_create (fun _ : unit => tt) "t" tt
                    "key"
                    (snd (SessionManager.get_lock "t"
                            (SessionManager.new_manager
                             : SessionManager.Manager unit unit))))))
     = 1.
Proof.
  destruct (locks_one_per_thread (fun _ : unit => tt)
              SessionManager.new_manager "t" new_manager_wf)
    as (_ & Hown & Hsame & _ & _ & Hcreate & _).
  split; [exact (Hsame "u")|].
  split.
  - intros Heq. apply (proj1 (Hown "u")) in Heq. discriminate.
  - exact (proj1 (Hcreate tt "key" eq_refl)).
Defined.


Lemma served_turn_read_back_witness :
  SessionWorker.query
    (default []
       (SessionWorker.queues
          (SessionWorker.serve_turn sample_client "a" "s" 0
             (SessionWorker.mkWorker nat None ∅ 0))
        !! 0))
  = Some ([OtherMessage], Exhausted).
Proof.
  exact (served_turn_read_back sample_client "a" "s" 0
           (SessionWorker.mkWorker nat None ∅ 0) eq_refl).
Defined.

Lemma session_id_captured_witness :
  SessionWorker.session_id
    (SessionWorker.serve_turn resuming_client "a" "s" 0
       (SessionWorker.mkWorker unit None ∅ tt))
  = Some "sess-1".
Proof.
  apply (proj1 (session_id_captured resuming_client "a" "s" 0
                  (framed_pre ++ [OtherMessage]) (Raises (Exc "boom"))
                  (SessionWorker.mkWorker unit None ∅ tt) eq_refl)
           [] (<["session_id" := "sess-1"]> {["message" := "hello"]})
           [OtherMessage] "sess-1").
  - reflexivity.
  - vm_compute. reflexivity.
  - reflexivity.
  - reflexivity.
Defined.
